(** * GradCafe scrape / clean pipeline (module_2): a shallow embedding

    The development embeds the two Python modules of the pipeline,

      - [module_2/webscraping/WebScraping/clean.py]  (class [GradCafeDataCleaner])
      - [module_2/WebScraping/scrape.py]             (class [GradCafeScraper])

    and states the properties of the specification over the embedding.

    Conventions.
      - A Python [str] is a [list ascii]; literals are written as Rocq strings
        and coerced.  The classification tables ([isspace], [\w], [\d], case
        mapping) are those of CPython on the ASCII range, which is the domain
        covered here ([is_ascii]); a byte above 127 is classified as a symbol
        that is neither whitespace, word character, digit nor cased, which
        is not what Python does with the characters beyond ASCII.  A
        property that Python's Unicode case mapping would break is stated
        for ASCII text.
      - A [dict] with string keys is a [gmap string _]; [d.get(k, '')] is
        [default .. (d !! k)].
      - [re] patterns are values of a small regular-expression syntax, run by
        a backtracking matcher that enumerates the matches in the priority
        order of Python's engine.
      - A Python [float] is an IEEE binary64 value, [spec_float] at precision
        53, with the correctly rounded operations of [SpecFloat].
      - An exception is a value of the sum type [exc]; [try]/[except] is a
        match on it. *)

From Stdlib Require Import ZArith List Ascii String Lia Bool.
From Stdlib Require Import Floats.SpecFloat.
From stdpp Require Import gmap strings.

(** ** Python strings *)

Abbreviation pystr := (list ascii).

Coercion list_ascii_of_string : string >-> list.

Module PyStr.

Definition code (c : ascii) : nat := nat_of_ascii c.

Definition between (lo hi n : nat) : bool := (lo <=? n) && (n <=? hi).

(** [str.isspace] / [\s]: TAB LF VT FF CR, FS GS RS US, SPACE. *)
Definition isspace (c : ascii) : bool :=
  between 9 13 (code c) || between 28 32 (code c).

(** The domain on which the tables below are those of Python: the text
    holds ASCII characters only ([s.isascii()]). *)
Definition is_ascii (s : list ascii) : bool :=
  forallb (fun c => code c <? 128) s.

(** [\d] *)
Definition isdigit (c : ascii) : bool := between 48 57 (code c).

Definition isupper (c : ascii) : bool := between 65 90 (code c).
Definition islower (c : ascii) : bool := between 97 122 (code c).
Definition iscased (c : ascii) : bool := isupper c || islower c.

(** [\w]: letters, digits and the underscore. *)
Definition isword (c : ascii) : bool :=
  iscased c || isdigit c || (code c =? 95).

Definition lower_char (c : ascii) : ascii :=
  if isupper c then ascii_of_nat (code c + 32) else c.

Definition upper_char (c : ascii) : ascii :=
  if islower c then ascii_of_nat (code c - 32) else c.

(** [s.lower()] *)
Definition lower (s : pystr) : pystr := map lower_char s.

(** [s.title()]: a cased character is upper-cased when the character before
    it is not cased (or there is none), lower-cased otherwise. *)
Fixpoint title_from (prev_cased : bool) (s : pystr) : pystr :=
  match s with
  | [] => []
  | c :: s' =>
      (if prev_cased then lower_char c else upper_char c)
        :: title_from (iscased c) s'
  end.

Definition title (s : pystr) : pystr := title_from false s.

(** [s.lstrip()], [s.rstrip()], [s.strip()] *)
Fixpoint lstrip (s : pystr) : pystr :=
  match s with
  | [] => []
  | c :: s' => if isspace c then lstrip s' else s
  end.

Definition rstrip (s : pystr) : pystr := rev (lstrip (rev s)).

Definition strip (s : pystr) : pystr := rstrip (lstrip s).

(** [s.startswith(p)] *)
Fixpoint startswith (p s : pystr) : bool :=
  match p, s with
  | [], _ => true
  | a :: p', b :: s' => Ascii.eqb a b && startswith p' s'
  | _ :: _, [] => false
  end.

(** [p in s] *)
Fixpoint contains (p s : pystr) : bool :=
  startswith p s ||
  match s with
  | [] => false
  | _ :: s' => contains p s'
  end.

(** [s == t] *)
Definition str_eqb (s t : pystr) : bool :=
  (length s =? length t) && startswith s t.

(** [s.split(sep)] for a non-empty separator: the pieces between the
    successive non-overlapping occurrences of [sep], scanning left to right.
    [cur] holds the current piece, reversed. *)
Fixpoint split_from (sep : pystr) (skip : nat) (cur : pystr) (s : pystr)
  : list pystr :=
  match s with
  | [] => [rev cur]
  | c :: s' =>
      match skip with
      | S k => split_from sep k cur s'
      | O =>
          if startswith sep s
          then rev cur :: split_from sep (length sep - 1) [] s'
          else split_from sep 0 (c :: cur) s'
      end
  end.

Definition split (sep s : pystr) : list pystr := split_from sep 0 [] s.

(** [s.zfill(n)] on a string without sign *)
Definition zfill (n : nat) (s : pystr) : pystr :=
  repeat "0"%char (n - length s) ++ s.

(** [str(n)] for a non-negative integer *)
Definition digit_char (d : nat) : ascii := ascii_of_nat (48 + d).

Fixpoint str_of_nat_aux (fuel n : nat) (acc : pystr) : pystr :=
  match fuel with
  | O => acc
  | S f =>
      let acc' := digit_char (n mod 10) :: acc in
      if n <? 10 then acc' else str_of_nat_aux f (n / 10) acc'
  end.

Definition str_of_nat (n : nat) : pystr := str_of_nat_aux (S n) n [].

Definition str_of_Z (z : Z) : pystr :=
  match z with
  | Zneg _ => "-"%char :: str_of_nat (Z.to_nat (- z))
  | _ => str_of_nat (Z.to_nat z)
  end.

(** Value of a run of decimal digits, most significant first. *)
Definition digit_val (c : ascii) : Z := Z.of_nat (code c - 48).

Definition digits_val (s : pystr) : Z :=
  fold_left (fun acc c => (10 * acc + digit_val c)%Z) s 0%Z.

(** [int(s)] on a string that holds only what the cleaner passes to it, a
    non-empty run of digits.  [None] is [ValueError]; CPython refuses a
    literal of more than 4300 digits (the default
    [sys.int_info.default_max_str_digits]). *)
Definition max_str_digits : nat := 4300.

Definition int_of_str (s : pystr) : option Z :=
  match s with
  | [] => None
  | _ =>
      if forallb isdigit s && (length s <=? max_str_digits)
      then Some (digits_val s)
      else None
  end.

End PyStr.

(** ** Regular expressions ([re]) *)

Module Re.

Import PyStr.

(** The fragment of the pattern language that the two modules use.  [Cls p]
    matches one character of the class [p]; [Star] is the greedy star;
    [Grp i r] is the capturing group number [i]. *)
Inductive regex : Type :=
| Eps
| Cls (p : ascii -> bool)
| Seq (r1 r2 : regex)
| Alt (r1 r2 : regex)
| Star (r : regex)
| Grp (i : nat) (r : regex).

Definition Chr (c : ascii) : regex := Cls (Ascii.eqb c).
Definition NotChr (c : ascii) : regex := Cls (fun a => negb (Ascii.eqb c a)).

(** [r+], [r?], [r{1,2}], [r{n}], a literal word, [.] *)
Definition Plus (r : regex) : regex := Seq r (Star r).
Definition Opt (r : regex) : regex := Alt r Eps.
Definition Rep12 (r : regex) : regex := Seq r (Opt r).

Fixpoint Rep (n : nat) (r : regex) : regex :=
  match n with
  | O => Eps
  | S k => Seq r (Rep k r)
  end.

Fixpoint Lit (s : pystr) : regex :=
  match s with
  | [] => Eps
  | c :: s' => Seq (Chr c) (Lit s')
  end.

Definition Dot : regex := NotChr "010"%char.

Definition digit : regex := Cls isdigit.
Definition space : regex := Cls isspace.
Definition word : regex := Cls isword.

(** Capture environment: the latest binding of a group comes first. *)
Definition caps : Type := list (nat * pystr).

Fixpoint group (i : nat) (c : caps) : pystr :=
  match c with
  | [] => []
  | (j, t) :: c' => if i =? j then t else group i c'
  end.

(** Greedy iteration of [body]: one more round first, stopping here last.
    A round has to consume input; [fuel] bounds the number of rounds by the
    length of the input. *)
Fixpoint star_loop (body : pystr -> caps -> list (pystr * caps))
    (fuel : nat) (t : pystr) (c : caps) : list (pystr * caps) :=
  match fuel with
  | O => [(t, c)]
  | S f =>
      flat_map
        (fun '(t1, c1) =>
           if length t1 <? length t then star_loop body f t1 c1 else [])
        (body t c)
        ++ [(t, c)]
  end.

(** All the ways [r] matches a prefix of [t], as (remaining input, captures),
    in the order in which a backtracking engine tries them.  The head of the
    list is the match Python reports. *)
Fixpoint rmatch (r : regex) (t : pystr) (c : caps) : list (pystr * caps) :=
  match r with
  | Eps => [(t, c)]
  | Cls p =>
      match t with
      | a :: t' => if p a then [(t', c)] else []
      | [] => []
      end
  | Seq r1 r2 => flat_map (fun '(t1, c1) => rmatch r2 t1 c1) (rmatch r1 t c)
  | Alt r1 r2 => rmatch r1 t c ++ rmatch r2 t c
  | Star r1 => star_loop (rmatch r1) (length t) t c
  | Grp i r1 =>
      map (fun '(t1, c1) => (t1, (i, firstn (length t - length t1) t) :: c1))
          (rmatch r1 t c)
  end.

(** [re.match] at the current position: remaining input and groups. *)
Definition match_here (r : regex) (t : pystr) : option (pystr * caps) :=
  head (rmatch r t []).

(** [re.search(r, t)]: the match at the leftmost position that has one;
    the result is the capture environment ([m.group(i)] is [group i]). *)
Fixpoint search (r : regex) (t : pystr) : option caps :=
  match match_here r t with
  | Some (_, c) => Some c
  | None =>
      match t with
      | [] => None
      | _ :: t' => search r t'
      end
  end.

(** [re.sub(r, repl, t)] for a constant replacement and a pattern that
    consumes at least one character per match, which is the case of the
    three patterns the cleaner substitutes: the non-overlapping matches,
    leftmost first, are replaced and the text between them is copied. *)
Fixpoint sub_loop (fuel : nat) (r : regex) (repl t : pystr) : pystr :=
  match fuel with
  | O => t
  | S f =>
      match t with
      | [] => []
      | a :: t' =>
          match match_here r t with
          | Some (rest, _) =>
              if length rest <? length t
              then repl ++ sub_loop f r repl rest
              else a :: sub_loop f r repl t'
          | None => a :: sub_loop f r repl t'
          end
      end
  end.

Definition sub (r : regex) (repl t : pystr) : pystr :=
  sub_loop (length t) r repl t.

End Re.

(** ** Floats *)

Module PyFloat.

Import PyStr.

Local Open Scope Z_scope.

Definition prec : Z := 53.
Definition emax : Z := 1024.

Abbreviation float := spec_float.

(** The float nearest to the integer [z] (exact for the constants used). *)
Definition of_Z (z : Z) : float := binary_normalize prec emax z 0 false.

(** The float nearest to [num / 10^k], for [num >= 0]. *)
Definition of_decimal (num : Z) (k : nat) : float :=
  match num with
  | Zpos p =>
      SFdiv prec emax (S754_finite false p 0)
                      (S754_finite false (Z.to_pos (10 ^ Z.of_nat k)) 0)
  | _ => S754_zero false
  end.

(** Splits [digits "." digits] at the point. *)
Fixpoint span_digits (t : pystr) : pystr * pystr :=
  match t with
  | c :: t' =>
      if isdigit c
      then let '(ds, rest) := span_digits t' in (c :: ds, rest)
      else ([], t)
  | [] => ([], [])
  end.

(** [float(t)] on the literals the cleaner's patterns pass to it: a run of
    digits, optionally followed by a point and a run of digits, with a digit
    somewhere.  [None] is [ValueError]. *)
Definition float_of_str (t : pystr) : option float :=
  let '(ip, rest) := span_digits t in
  match rest with
  | [] =>
      match ip with
      | [] => None
      | _ => Some (of_decimal (digits_val ip) 0)
      end
  | c :: rest' =>
      let '(fp, rest'') := span_digits rest' in
      if Ascii.eqb c "."%char then
        match rest'', (ip ++ fp)%list with
        | [], _ :: _ =>
            Some (match fp with
                  | [] => of_decimal (digits_val ip) 0
                  | _ => of_decimal (digits_val (ip ++ fp)) (length fp)
                  end)
        | _, _ => None
        end
      else None
  end.

(** [x <= y], [x < y] *)
Definition leb (x y : float) : bool := SFleb x y.
Definition ltb (x y : float) : bool := SFltb x y.

(** [x / y], [x * y] *)
Definition div (x y : float) : float := SFdiv prec emax x y.
Definition mul (x y : float) : float := SFmul prec emax x y.

(** Nearest integer to [m * 2^e * 10^k], ties to even: the digits that the
    fixed-point formatting of a finite float prints. *)
Definition round_scaled (m : positive) (e : Z) (k : nat) : Z :=
  let n := Zpos m * 10 ^ Z.of_nat k in
  match e with
  | Zneg p =>
      let dv := 2 ^ Zpos p in
      let q := n / dv in
      let r := n mod dv in
      if 2 * r <? dv then q
      else if dv <? 2 * r then q + 1
      else if Z.even q then q else q + 1
  | _ => n * 2 ^ e
  end.

(** [f"{x:.kf}"] for [k > 0] *)
Definition format_fixed (k : nat) (x : float) : pystr :=
  let sign (sg : bool) : pystr := if sg then "-"%string else ""%string in
  match x with
  | S754_zero sg => sign sg ++ "0."%string ++ repeat "0"%char k
  | S754_finite sg m e =>
      let n := round_scaled m e k in
      sign sg ++ str_of_Z (n / 10 ^ Z.of_nat k) ++ "."%string
        ++ zfill k (str_of_Z (n mod 10 ^ Z.of_nat k))
  | S754_infinity sg => sign sg ++ "inf"%string
  | S754_nan => "nan"%string
  end.

End PyFloat.

(** ** Dynamically typed values and exceptions *)

Module Py.

Import PyStr.

(** What [json.load] produces, which is what the cleaner is fed. *)
#[warnings="-register-all"]
Inductive pyval : Type :=
| PNone
| PBool (b : bool)
| PInt (z : Z)
| PFloat (x : PyFloat.float)
| PStr (t : pystr)
| PList (l : list pyval)
| PDict (items : list (pystr * pyval)).

Abbreviation dict := (gmap string pyval).

Inductive exn : Type := AttributeError | TypeError | ValueError.

Inductive exc (A : Type) : Type :=
| Ok (a : A)
| Raise (e : exn).

Arguments Ok {A} a.
Arguments Raise {A} e.

#[global] Instance exc_ret : MRet exc := fun A a => Ok a.

#[global] Instance exc_bind : MBind exc := fun A B f m =>
  match m with
  | Ok a => f a
  | Raise e => Raise e
  end.

(** [bool(v)] *)
Definition truthy (v : pyval) : bool :=
  match v with
  | PNone => false
  | PBool b => b
  | PInt z => negb (z =? 0)%Z
  | PFloat x =>
      match x with
      | S754_zero _ => false
      | _ => true
      end
  | PStr t => negb (length t =? 0)
  | PList l => negb (length l =? 0)
  | PDict items => negb (length items =? 0)
  end.

(** A call [f(v)] of a function [f] annotated [str -> A] that, as every
    parser of the cleaner does, returns its result for the empty string as
    soon as [not v] holds, and otherwise starts by a [str] method of [v]
    ([strip], [lower]): that lookup raises [AttributeError] on a true value
    of another type. *)
Definition dyn {A : Type} (f : pystr -> A) (v : pyval) : exc A :=
  match v with
  | PStr t => Ok (f t)
  | _ => if truthy v then Raise AttributeError else Ok (f [])
  end.

(** [needle in v] *)
Definition py_in (needle : pystr) (v : pyval) : exc bool :=
  match v with
  | PStr t => Ok (contains needle t)
  | PList l =>
      Ok (existsb (fun x => match x with
                            | PStr u => str_eqb needle u
                            | _ => false
                            end) l)
  | PDict items => Ok (existsb (fun kv => str_eqb needle (fst kv)) items)
  | _ => Raise TypeError
  end.

(** [v.split(sep)] *)
Definition py_split (sep : pystr) (v : pyval) : exc (list pystr) :=
  match v with
  | PStr t => Ok (split sep t)
  | _ => Raise AttributeError
  end.

(** [d.get(k, '')] *)
Definition get (d : dict) (k : string) : pyval := default (PStr []) (d !! k).

End Py.

(** ** clean.py: [GradCafeDataCleaner] *)

Module Clean.

Import PyStr Re Py.

Local Open Scope string_scope.
Local Open Scope list_scope.

(** The object state: [self.cleaned_data] and [self.cleaning_stats] (whose
    entry ['fields_cleaned'] is never written). *)
Record stats : Type := mkStats {
  total_entries : nat;
  cleaned_entries : nat;
  removed_entries : nat
}.

Record cleaner : Type := mkCleaner {
  cleaned_data : list dict;
  cleaning_stats : stats
}.

(** [GradCafeDataCleaner()] *)
Definition __init__ : cleaner :=
  {| cleaned_data := [];
     cleaning_stats := {| total_entries := 0; cleaned_entries := 0;
                          removed_entries := 0 |} |}.

(** [<[^>]+>] *)
Definition tag_re : regex := Seq (Chr "<") (Seq (Plus (NotChr ">")) (Chr ">")).

(** [\s+] *)
Definition ws_re : regex := Plus space.

(** [[^\w\s\-.,;:()&/]] *)
Definition kept (c : ascii) : bool :=
  isword c || isspace c || existsb (Ascii.eqb c) ("-.,;:()&/" : pystr).

Definition special_re : regex := Cls (fun c => negb (kept c)).

Definition _clean_text (text : pystr) : pystr :=
  if (length text =? 0)%nat || str_eqb (strip text) "" then ""
  else
    let text := sub tag_re "" text in
    let text := strip (sub ws_re " " text) in
    let text := sub special_re "" text in
    text.

Definition any_in (words : list string) (t : pystr) : bool :=
  existsb (fun word : string => contains word t) words.

Definition _standardize_decision_status (status : pystr) : pystr :=
  if (length status =? 0)%nat then ""
  else
    let status := strip (lower status) in
    if any_in ["accept"; "admit"] status then "Accepted"
    else if any_in ["reject"; "den"] status then "Rejected"
    else if any_in ["wait"; "list"] status then "Waitlisted"
    else if any_in ["interview"] status then "Interview"
    else title status.

(** The four date patterns, in the order of [date_patterns]. *)
Definition date_pattern_0 : regex :=
  Seq (Grp 1 (Rep12 digit)) (Seq (Plus space) (Seq (Grp 2 (Rep 3 word))
      (Seq (Plus space) (Grp 3 (Rep 4 digit))))).

Definition date_pattern_1 : regex :=
  Seq (Grp 1 (Rep 3 word)) (Seq (Plus space) (Seq (Grp 2 (Rep12 digit))
      (Seq (Opt (Chr ",")) (Seq (Plus space) (Grp 3 (Rep 4 digit)))))).

Definition date_pattern_2 : regex :=
  Seq (Grp 1 (Rep12 digit)) (Seq (Chr "/") (Seq (Grp 2 (Rep12 digit))
      (Seq (Chr "/") (Grp 3 (Rep 4 digit))))).

Definition date_pattern_3 : regex :=
  Seq (Grp 1 (Rep 4 digit)) (Seq (Chr "-") (Seq (Grp 2 (Rep12 digit))
      (Seq (Chr "-") (Grp 3 (Rep12 digit))))).

Definition _clean_date (date_str : pystr) : pystr :=
  if (length date_str =? 0)%nat then ""
  else
    let date_str := _clean_text date_str in
    match search date_pattern_0 date_str with
    | Some m =>
        let '(day, month, year) := (group 1 m, group 2 m, group 3 m) in
        (day ++ " " ++ month ++ " " ++ year)%list
    | None =>
    match search date_pattern_1 date_str with
    | Some m =>
        let '(month, day, year) := (group 1 m, group 2 m, group 3 m) in
        (day ++ " " ++ month ++ " " ++ year)%list
    | None =>
    match search date_pattern_2 date_str with
    | Some m =>
        let '(month, day, year) := (group 1 m, group 2 m, group 3 m) in
        (zfill 2 day ++ "/" ++ zfill 2 month ++ "/" ++ year)%list
    | None =>
    match search date_pattern_3 date_str with
    | Some m =>
        let '(year, month, day) := (group 1 m, group 2 m, group 3 m) in
        (day ++ "/" ++ month ++ "/" ++ year)%list
    | None => date_str
    end end end end.

(** [\d+\.?\d*], as group 1 *)
Definition gpa_re : regex :=
  Grp 1 (Seq (Plus digit) (Seq (Opt (Chr ".")) (Star digit))).

Definition _clean_gpa (gpa_str : pystr) : pystr :=
  if (length gpa_str =? 0)%nat then ""
  else
    let gpa_str := _clean_text gpa_str in
    match search gpa_re gpa_str with
    | Some gpa_match =>
        match PyFloat.float_of_str (group 1 gpa_match) with
        | Some gpa_value =>
            if PyFloat.leb (PyFloat.of_Z 0) gpa_value
               && PyFloat.leb gpa_value (PyFloat.of_Z 4)
            then PyFloat.format_fixed 2 gpa_value
            else if PyFloat.ltb (PyFloat.of_Z 4) gpa_value
                    && PyFloat.leb gpa_value (PyFloat.of_Z 10)
            then
              let converted :=
                PyFloat.mul (PyFloat.div gpa_value (PyFloat.of_Z 10))
                            (PyFloat.of_Z 4) in
              PyFloat.format_fixed 2 converted
            else ""
        | None => ""   (* except ValueError: pass *)
        end
    | None => ""
    end.

(** [\d+], as group 1 *)
Definition score_re : regex := Grp 1 (Plus digit).

Definition _clean_gre_score (score_str : pystr) : pystr :=
  if (length score_str =? 0)%nat then ""
  else
    let score_str := _clean_text score_str in
    match search score_re score_str with
    | Some score_match =>
        match int_of_str (group 1 score_match) with
        | Some score =>
            if (130 <=? score)%Z && (score <=? 170)%Z then str_of_Z score
            else if (200 <=? score)%Z && (score <=? 800)%Z
            then str_of_Z score
            else ""
        | None => ""   (* except ValueError: pass *)
        end
    | None => ""
    end.

Definition _clean_gre_aw (aw_str : pystr) : pystr :=
  if (length aw_str =? 0)%nat then ""
  else
    let aw_str := _clean_text aw_str in
    match search gpa_re aw_str with
    | Some aw_match =>
        match PyFloat.float_of_str (group 1 aw_match) with
        | Some aw_score =>
            if PyFloat.leb (PyFloat.of_Z 0) aw_score
               && PyFloat.leb aw_score (PyFloat.of_Z 6)
            then PyFloat.format_fixed 1 aw_score
            else ""
        | None => ""   (* except ValueError: pass *)
        end
    | None => ""
    end.

Definition _clean_degree_type (degree_str : pystr) : pystr :=
  if (length degree_str =? 0)%nat then ""
  else
    let degree_str := lower (_clean_text degree_str) in
    if any_in ["phd"; "ph.d"; "doctorate"; "doctoral"] degree_str
    then "PhD"
    else if any_in ["masters"; "master"; "ms"; "m.s"; "ma"; "m.a"] degree_str
    then "Masters"
    else if any_in ["bachelor"; "undergrad"; "bs"; "ba"] degree_str
    then "Bachelors"
    else title degree_str.

(** [20\d{2}], as group 1 *)
Definition year_re : regex := Grp 1 (Seq (Lit "20") (Rep 2 digit)).

(** The result dict [{"semester": .., "year": ..}] as a pair. *)
Definition _clean_semester_year (semester_year_str : pystr) : pystr * pystr :=
  if (length semester_year_str =? 0)%nat then ("" : pystr, "" : pystr)
  else
    let semester_year_str := lower (_clean_text semester_year_str) in
    let year : pystr :=
      match search year_re semester_year_str with
      | Some year_match => group 1 year_match
      | None => ""
      end in
    let semester : pystr :=
      if any_in ["fall"; "autumn"] semester_year_str then "Fall"
      else if any_in ["spring"] semester_year_str then "Spring"
      else if any_in ["summer"] semester_year_str then "Summer"
      else if any_in ["winter"] semester_year_str then "Winter"
      else "" in
    (semester, year).

(** One required field of [_validate_entry]:
    [not entry.get(field) or entry[field].strip() == ""]. *)
Definition field_missing (entry : dict) (field : string) : exc bool :=
  match entry !! field with
  | None => Ok true
  | Some v => dyn (fun t => (length t =? 0)%nat || str_eqb (strip t) "") v
  end.

Definition _validate_entry (entry : dict) : exc bool :=
  b ← field_missing entry "university";
  if b : bool then Ok false
  else
    b ← field_missing entry "program_name";
    if b : bool then Ok false else Ok true.

(** [x in [w1, w2, ..]] on strings *)
Definition one_of (words : list string) (t : pystr) : bool :=
  existsb (fun word : string => str_eqb t word) words.

(** The argument of the [gre_quantitative] parser:
    [entry.get('gre_score', '').split('Q:')[-1].split(',')[0]
     if 'Q:' in entry.get('gre_score', '') else ''] *)
Definition quant_fragment (entry : dict) : exc pystr :=
  b ← py_in "Q:" (get entry "gre_score");
  if b : bool then
    parts ← py_split "Q:" (get entry "gre_score");
    Ok (List.hd [] (split "," (List.last parts [])))
  else Ok [].

(** The body of the [try] block of [clean_entry]. *)
Definition clean_entry_try (entry : dict) : exc (option dict) :=
  program_name ← dyn _clean_text (get entry "program_name");
  university ← dyn _clean_text (get entry "university");
  comments ← dyn _clean_text (get entry "comments");
  let url := get entry "url" in
  applicant_status ←
    dyn _standardize_decision_status (get entry "applicant_status");
  date_added ← dyn _clean_date (get entry "date_added");
  acceptance_date ← dyn _clean_date (get entry "acceptance_date");
  rejection_date ← dyn _clean_date (get entry "rejection_date");
  semester_year_info ←
    dyn _clean_semester_year (get entry "semester_year");
  intl_status ← dyn _clean_text (get entry "international_american");
  let international_american : pystr :=
    if one_of ["international"; "foreign"] (lower intl_status)
    then "International"
    else if one_of ["domestic"; "american"; "usa"; "us"] (lower intl_status)
    then "American"
    else "" in
  gpa ← dyn _clean_gpa (get entry "gpa");
  gre_verbal ← dyn _clean_gre_score (get entry "gre_verbal");
  quant ← quant_fragment entry;
  let gre_quantitative := _clean_gre_score quant in
  gre_aw ← dyn _clean_gre_aw (get entry "gre_aw");
  degree_type ← dyn _clean_degree_type (get entry "degree_type");
  let cleaned_entry : dict :=
    <["degree_type" := PStr degree_type]>
    (<["gre_aw" := PStr gre_aw]>
    (<["gre_quantitative" := PStr gre_quantitative]>
    (<["gre_verbal" := PStr gre_verbal]>
    (<["gpa" := PStr gpa]>
    (<["international_american" := PStr international_american]>
    (<["year" := PStr (snd semester_year_info)]>
    (<["semester" := PStr (fst semester_year_info)]>
    (<["rejection_date" := PStr rejection_date]>
    (<["acceptance_date" := PStr acceptance_date]>
    (<["date_added" := PStr date_added]>
    (<["applicant_status" := PStr applicant_status]>
    (<["url" := url]>
    (<["comments" := PStr comments]>
    (<["university" := PStr university]>
    (<["program_name" := PStr program_name]> ∅))))))))))))))) in
  valid ← _validate_entry cleaned_entry;
  if valid : bool then Ok (Some cleaned_entry) else Ok None.

(** [clean_entry]: [except Exception] turns any exception into [None]. *)
Definition clean_entry (entry : dict) : option dict :=
  match clean_entry_try entry with
  | Ok r => r
  | Raise _ => None
  end.

(** [if cleaned_entry:] is false on [None] and on an empty dict. *)
Definition is_kept (r : option dict) : bool :=
  match r with
  | Some c => negb (size c =? 0)%nat
  | None => false
  end.

(** One iteration of the loop of [clean_data]. *)
Definition clean_step (self : cleaner) (entry : dict) : cleaner :=
  let st := cleaning_stats self in
  match clean_entry entry with
  | Some cleaned_entry =>
      if is_kept (Some cleaned_entry) then
        {| cleaned_data := cleaned_data self ++ [cleaned_entry];
           cleaning_stats :=
             {| total_entries := total_entries st;
                cleaned_entries := cleaned_entries st + 1;
                removed_entries := removed_entries st |} |}
      else
        {| cleaned_data := cleaned_data self;
           cleaning_stats :=
             {| total_entries := total_entries st;
                cleaned_entries := cleaned_entries st;
                removed_entries := removed_entries st + 1 |} |}
  | None =>
      {| cleaned_data := cleaned_data self;
         cleaning_stats :=
           {| total_entries := total_entries st;
              cleaned_entries := cleaned_entries st;
              removed_entries := removed_entries st + 1 |} |}
  end.

(** [clean_data]: the new object state and the returned list, which is
    [self.cleaned_data]. *)
Definition clean_data (self : cleaner) (raw_data : list dict)
  : cleaner * list dict :=
  let self :=
    {| cleaned_data := [];
       cleaning_stats :=
         {| total_entries := length raw_data;
            cleaned_entries := cleaned_entries (cleaning_stats self);
            removed_entries := removed_entries (cleaning_stats self) |} |} in
  let self := fold_left clean_step raw_data self in
  (self, cleaned_data self).

(** [get_cleaning_stats] *)
Definition get_cleaning_stats (self : cleaner) : stats := cleaning_stats self.

End Clean.

(** ** scrape.py: [GradCafeScraper] *)

Module Scrape.

Import PyStr Re Py.

Local Open Scope string_scope.
Local Open Scope list_scope.

(** What the scraper reads off a [<tr>] element of the parsed page:
    [get_text(strip=True)] of each element of [row.find_all('td')], the
    [href] attribute ([None] when absent) of each element of
    [row.find_all('a')], and [row.get_text(strip=True)]. *)
Record tr : Type := mkTr {
  cells : list pystr;
  hrefs : list (option pystr);
  row_text : pystr
}.

(** The outcome of [_make_request] followed by the parse of its body: no
    content, a document without [<table>], or the [<tr>] elements of the
    first table, header included. *)
Inductive page : Type :=
| NoContent
| NoTable
| Table (trs : list tr).

Definition base_url : pystr := "https://www.thegradcafe.com".

Definition degree_keywords : list string :=
  ["Masters"; "PhD"; "MS"; "MA"; "Doctorate"; "Bachelors"; "BS"; "BA"].

(** The loop over [degree_keywords]: (program_name, degree_type), both
    empty when no keyword applies. *)
Fixpoint split_degree (keywords : list string) (program_text : pystr)
  : pystr * pystr :=
  match keywords with
  | [] => ("" : pystr, "" : pystr)
  | degree :: keywords' =>
      if contains degree program_text then
        let parts := split degree program_text in
        if (2 <=? length parts)%nat
        then (strip (List.hd [] parts), degree : pystr)
        else split_degree keywords' program_text
      else split_degree keywords' program_text
  end.

(** [(Accepted|Rejected|Waitlisted|Interview)\s+on\s+(.+)] *)
Definition decision_re : regex :=
  Seq (Grp 1 (Alt (Lit "Accepted") (Alt (Lit "Rejected")
                 (Alt (Lit "Waitlisted") (Lit "Interview")))))
      (Seq (Plus space) (Seq (Lit "on") (Seq (Plus space) (Grp 2 (Plus Dot))))).

(** [(Fall|Spring|Summer|Winter)\s+(\d{4})] *)
Definition semester_re : regex :=
  Seq (Grp 1 (Alt (Lit "Fall") (Alt (Lit "Spring")
                 (Alt (Lit "Summer") (Lit "Winter")))))
      (Seq (Plus space) (Grp 2 (Rep 4 digit))).

Definition digit_or_dot (c : ascii) : bool := isdigit c || Ascii.eqb c ".".
Definition colon_or_space (c : ascii) : bool := Ascii.eqb c ":" || isspace c.

(** [GPA\s+([\d.]+)] *)
Definition gpa_detail_re : regex :=
  Seq (Lit "GPA") (Seq (Plus space) (Grp 1 (Plus (Cls digit_or_dot)))).

(** [GRE\s+V[:\s]*([\d]+)], [GRE\s+Q[:\s]*([\d]+)], [GRE\s+AW[:\s]*([\d.]+)] *)
Definition gre_v_re : regex :=
  Seq (Lit "GRE") (Seq (Plus space) (Seq (Lit "V")
      (Seq (Star (Cls colon_or_space)) (Grp 1 (Plus digit))))).

Definition gre_q_re : regex :=
  Seq (Lit "GRE") (Seq (Plus space) (Seq (Lit "Q")
      (Seq (Star (Cls colon_or_space)) (Grp 1 (Plus digit))))).

Definition gre_aw_re : regex :=
  Seq (Lit "GRE") (Seq (Plus space) (Seq (Lit "AW")
      (Seq (Star (Cls colon_or_space)) (Grp 1 (Plus (Cls digit_or_dot)))))).

(** [m.group(i) if m else ""] *)
Definition group_or_empty (i : nat) (m : option caps) : pystr :=
  match m with
  | Some c => group i c
  | None => []
  end.

Section Scraper.

(** [urllib.parse.urljoin]; [None] when it raises [ValueError], which it
    does on a reference that [urlsplit] refuses. *)
Variable urljoin : pystr -> pystr -> option pystr.

(** The loop over the links of the row: the entry URL, or [None] when
    [urljoin] raises. *)
Fixpoint first_result_link (links : list (option pystr)) : option pystr :=
  match links with
  | [] => Some []
  | href :: links' =>
      match href with
      | Some h =>
          if negb (length h =? 0)%nat && contains "result" h then
            if startswith "/" h then urljoin base_url h else Some h
          else first_result_link links'
      | None => first_result_link links'
      end
  end.

Definition nonempty (t : pystr) : bool := negb (length t =? 0)%nat.

(** "Parse program and degree": (program_name, degree_type). *)
Definition parse_program (program_text : pystr) : pystr * pystr :=
  if nonempty program_text then
    let '(program_name, degree_type) :=
      split_degree degree_keywords program_text in
    (if nonempty program_name then program_name else program_text,
     degree_type)
  else ("" : pystr, "" : pystr).

(** "Extract decision status and date": (decision_status, decision_date). *)
Definition parse_decision (decision_text : pystr) : pystr * pystr :=
  if nonempty decision_text then
    match search decision_re decision_text with
    | Some decision_match => (group 1 decision_match, group 2 decision_match)
    | None => (decision_text, "" : pystr)
    end
  else ("" : pystr, "" : pystr).

(** The fields read off the detail row. *)
Record detail : Type := mkDetail {
  semester_year : pystr;
  international_status : pystr;
  gpa : pystr;
  gre_verbal : pystr;
  gre_quant : pystr;
  gre_aw : pystr
}.

Definition no_detail : detail := mkDetail "" "" "" "" "" "".

(** "Extract additional details from the next row if it contains detail
    information". *)
Definition parse_detail (next_row : option tr) : detail :=
  match next_row with
  | Some next_row =>
      if (length (cells next_row) =? 1)%nat then
        let detail_text := row_text next_row in
        {| semester_year :=
             match search semester_re detail_text with
             | Some semester_match =>
                 group 1 semester_match ++ " " ++ group 2 semester_match
             | None => ""
             end;
           international_status :=
             if contains "International" detail_text then "International"
             else if contains "American" detail_text
                     || contains "Domestic" detail_text
             then "American"
             else "";
           gpa := group_or_empty 1 (search gpa_detail_re detail_text);
           gre_verbal := group_or_empty 1 (search gre_v_re detail_text);
           gre_quant := group_or_empty 1 (search gre_q_re detail_text);
           gre_aw := group_or_empty 1 (search gre_aw_re detail_text) |}
      else no_detail
  | None => no_detail
  end.

(** [_extract_entry_data(row, next_row)].  On the values a parsed row
    holds, the one call of the [try] block that can raise is [urljoin];
    the [except] branch then returns [None]. *)
Definition _extract_entry_data (row : tr) (next_row : option tr)
  : option dict :=
  if (length (cells row) <? 4)%nat then None
  else
    let institution := nth 0 (cells row) [] in
    let program_text := nth 1 (cells row) [] in
    let program_name := fst (parse_program program_text) in
    let degree_type := snd (parse_program program_text) in
    let date_added := nth 2 (cells row) [] in
    let decision_text := nth 3 (cells row) [] in
    let decision_status := fst (parse_decision decision_text) in
    let decision_date := snd (parse_decision decision_text) in
    match first_result_link (hrefs row) with
    | None => None
    | Some entry_url =>
        let dt := parse_detail next_row in
        let comments : pystr := "" in
        Some
          (<["gre_aw" := PStr (gre_aw dt)]>
          (<["gpa" := PStr (gpa dt)]>
          (<["degree_type" := PStr degree_type]>
          (<["gre_verbal" := PStr (gre_verbal dt)]>
          (<["gre_score" :=
               PStr (if nonempty (gre_verbal dt) || nonempty (gre_quant dt)
                     then "V:" ++ gre_verbal dt ++ ", Q:" ++ gre_quant dt
                     else "")]>
          (<["international_american" := PStr (international_status dt)]>
          (<["semester_year" := PStr (semester_year dt)]>
          (<["rejection_date" :=
               PStr (if str_eqb (lower decision_status) "rejected"
                     then decision_date else "")]>
          (<["acceptance_date" :=
               PStr (if str_eqb (lower decision_status) "accepted"
                     then decision_date else "")]>
          (<["applicant_status" := PStr decision_status]>
          (<["url" := PStr entry_url]>
          (<["date_added" := PStr date_added]>
          (<["comments" := PStr comments]>
          (<["university" := PStr institution]>
          (<["program_name" := PStr program_name]> ∅)))))))))))))))
    end.

(** One iteration of the [while i < len(rows)] loop of [_scrape_page], for
    [i] in range: the next index and the extended [page_data]. *)
Definition rows_step (rows : list tr) (i : nat) (page_data : list dict)
  : nat * list dict :=
  match rows !! i with
  | None => (i + 1, page_data)
  | Some row =>
      let next_row := rows !! (i + 1) in
      if (4 <=? length (cells row))%nat then
        let '(detail_row, i) :=
          match next_row with
          | Some nr =>
              if (length (cells nr) =? 1)%nat
              then (Some nr, i + 1)
              else (None, i)
          | None => (None, i)
          end in
        let page_data :=
          match _extract_entry_data row detail_row with
          | Some entry_data =>
              if negb (size entry_data =? 0)%nat
              then page_data ++ [entry_data]
              else page_data
          | None => page_data
          end in
        (i + 1, page_data)
      else (i + 1, page_data)
  end.

(** The loop; [None] when [fuel] iterations do not reach its exit. *)
Fixpoint rows_loop (fuel : nat) (rows : list tr) (i : nat)
    (page_data : list dict) : option (list dict) :=
  if (i <? length rows)%nat then
    match fuel with
    | O => None
    | S f =>
        let '(i, page_data) := rows_step rows i page_data in
        rows_loop f rows i page_data
    end
  else Some page_data.

(** The part of [_scrape_page] that follows the request: from the parsed
    page to [page_data].  The header row is dropped; the loop is given one
    iteration per remaining row. *)
Definition scrape_rows (pg : page) : option (list dict) :=
  match pg with
  | NoContent => Some []
  | NoTable => Some []
  | Table trs => rows_loop (length (tl trs)) (tl trs) 0 []
  end.

(** The network.  [_check_robots_txt] and the request of [_scrape_page]
    for the offset [o] read the state of the world and change it, in any
    way whatsoever. *)
Variable World : Type.
Variable _check_robots_txt : World -> bool * World.
Variable request : nat -> World -> page * World.

Definition _scrape_page (page_num : nat) (w : World) : list dict * World :=
  let '(pg, w) := request ((page_num - 1) * 250) w in
  match scrape_rows pg with
  | Some page_data => (page_data, w)
  | None => ([], w)
  end.

(** The variables of the loop of [scrape_data], with [self.scraped_data]
    and the world; [log] records, for each call of [_scrape_page], the page
    number asked for and the number of records it gave. *)
Record run : Type := mkRun {
  page_num : nat;
  total_entries : nat;
  scraped_data : list dict;
  world : World;
  log : list (nat * nat)
}.

(** One evaluation of the loop test followed, when it holds, by the body:
    [true] when control returns to the test, [false] when the loop is left. *)
Definition scrape_iter (max_entries : Z) (st : run) : bool * run :=
  if (Z.of_nat (total_entries st) <? max_entries)%Z then
    let '(page_data, w) := _scrape_page (page_num st) (world st) in
    let lg := log st ++ [(page_num st, length page_data)] in
    if (length page_data =? 0)%nat then
      (false, mkRun (page_num st) (total_entries st) (scraped_data st) w lg)
    else
      let data := scraped_data st ++ page_data in
      let total := total_entries st + length page_data in
      if (max_entries <=? Z.of_nat total)%Z then
        (false, mkRun (page_num st) total data w lg)
      else
        let pn := page_num st + 1 in
        if (1000 <? pn)%nat
        then (false, mkRun pn total data w lg)
        else (true, mkRun pn total data w lg)
  else (false, st).

(** The loop; [None] when [fuel] iterations do not reach its exit. *)
Fixpoint scrape_loop (fuel : nat) (max_entries : Z) (st : run)
  : option run :=
  match fuel with
  | O => None
  | S f =>
      match scrape_iter max_entries st with
      | (true, st') => scrape_loop f max_entries st'
      | (false, st') => Some st'
      end
  end.

(** [scrape_data(max_entries)] on an object whose [self.scraped_data] is
    [scraped]: the returned list and the final state of the loop. *)
Definition scrape_data (fuel : nat) (scraped : list dict) (max_entries : Z)
    (w : World) : option (list dict * run) :=
  let '(allowed, w) := _check_robots_txt w in
  if negb allowed then Some ([], mkRun 1 0 scraped w [])
  else
    match scrape_loop fuel max_entries (mkRun 1 0 scraped w []) with
    | Some st => Some (scraped_data st, st)
    | None => None
    end.

End Scraper.

End Scrape.

(** ** Specification-side definitions and sample inputs *)

Module Samples.
Import Py.
Local Open Scope string_scope.
Definition valid_record : dict :=
  <["university" := PStr "MIT"]> (<["program_name" := PStr "Physics"]> ∅).

(** The network location of a reference that starts with [//]: what
    precedes the first [/], [?] or [#]. *)
Fixpoint netloc (t : pystr) : pystr :=
  match t with
  | [] => []
  | c :: t' =>
      if existsb (Ascii.eqb c) ("/?#" : pystr) then [] else c :: netloc t'
  end.

(** A stand-in for [urljoin], for the references used below.  It raises
    where [urlsplit] raises "Invalid IPv6 URL": the reference starts with
    [//] and its network location holds one of the two square brackets
    without the other.  A reference that starts with a single [/] is put
    behind the base, which has no path. *)
Definition join_url (base href : pystr) : option pystr :=
  match href with
  | "/"%char :: "/"%char :: rest =>
      if xorb (PyStr.contains "[" (netloc rest))
              (PyStr.contains "]" (netloc rest))
      then None
      else Some ("https:" ++ href)%list
  | _ => Some (base ++ href)%list
  end.

(** A header row: its cells are [th] elements. *)
Definition header_row : Scrape.tr :=
  Scrape.mkTr [] [] "InstitutionProgramAddedDecision".

(** A primary row whose link makes [urljoin] raise. *)
Definition bad_link_row : Scrape.tr :=
  Scrape.mkTr ["MIT" : pystr; "Physics" : pystr; "12 Jan" : pystr;
               "Accepted on 1 Jun" : pystr]
              [Some ("//[result" : pystr)] "MITPhysics12 JanAccepted on 1 Jun".

(** A primary row whose program cell is exactly a degree keyword. *)
Definition degree_only_row : Scrape.tr :=
  Scrape.mkTr ["MIT" : pystr; "PhD" : pystr; "12 Jan" : pystr;
               "Accepted on 1 Jun" : pystr] [] "MITPhD12 JanAccepted on 1 Jun".

(** A network that answers every request with a document without table,
    and allows scraping. *)
Definition no_table (o : nat) (w : unit) : Scrape.page * unit :=
  (Scrape.NoTable, w).

Definition robots_allow (w : unit) : bool * unit := (true, w).

(** A record whose university is made of special characters around a
    space. *)
Definition blank_university : gmap string pystr :=
  <["university" := ("@ @" : pystr)]>
    (<["program_name" := ("Physics" : pystr)]> ∅).
End Samples.

Module PageSpec.
Import PyStr Re Py Scrape.
Section WithUrljoin.
Variable urljoin : pystr -> pystr -> option pystr.

(** The detail row of a primary row followed by [next]. *)
Definition detail_of (next : option tr) : option tr :=
  match next with
  | Some nr => if (length (cells nr) =? 1)%nat then Some nr else None
  | None => None
  end.

(** What the row [row], followed by [next], contributes to the page. *)
Definition row_records (row : tr) (next : option tr) : list dict :=
  if (4 <=? length (cells row))%nat then
    match _extract_entry_data urljoin row (detail_of next) with
    | Some e => [e]
    | None => []
    end
  else [].

(** Every row is looked at, in order, with the row after it. *)
Fixpoint records_of_rows (rows : list tr) : list dict :=
  match rows with
  | [] => []
  | row :: rest => row_records row (head rest) ++ records_of_rows rest
  end.

Definition is_primary (row : tr) : bool := (4 <=? length (cells row))%nat.

(** The loop over the links of the row ends without [urljoin] raising. *)
Definition link_joined (row : tr) : bool :=
  match first_result_link urljoin (hrefs row) with
  | Some _ => true
  | None => false
  end.

(** The rows that give a record. *)
Definition extracted (row : tr) : bool := is_primary row && link_joined row.

(** The specification's count: one record per row of at least four
    cells. *)
Definition one_per_primary (rows : list tr) (page_data : list dict) : Prop :=
  length page_data = length (List.filter is_primary rows).
End WithUrljoin.
End PageSpec.

Module LoopSpec.
(** [stops_first max total pn lg]: [lg] is the log of a loop that is
    entered with [total] entries collected and [pn] the next page, asks for
    the pages one after the other, and stops at the first page that is
    empty, that brings the total to [max], or that is page 1000. *)
Inductive stops_first (max : Z) : nat -> nat -> list (nat * nat) -> Prop :=
| sf_not_entered total pn :
    (max <= Z.of_nat total)%Z -> stops_first max total pn []
| sf_last total pn c :
    (Z.of_nat total < max)%Z ->
    c = 0 \/ (max <= Z.of_nat (total + c))%Z \/ 1000 <= pn ->
    stops_first max total pn [(pn, c)]
| sf_more total pn c lg :
    (Z.of_nat total < max)%Z ->
    c <> 0 -> (Z.of_nat (total + c) < max)%Z -> pn < 1000 ->
    stops_first max (total + c) (pn + 1) lg ->
    stops_first max total pn ((pn, c) :: lg).
End LoopSpec.

Module CounterSpec.
Import Clean.
(** The number of records the two counters account for. *)
Definition counted (st : stats) : nat := cleaned_entries st + removed_entries st.
End CounterSpec.

Module StatusSpec.
Import PyStr.
Local Open Scope string_scope.
Local Open Scope list_scope.

(** The decision label of a lower-cased status, [None] when no keyword
    occurs in it. *)
Definition keyword_label (lowered : pystr) : option pystr :=
  if contains "accept" lowered || contains "admit" lowered
  then Some ("Accepted" : pystr)
  else if contains "reject" lowered || contains "den" lowered
  then Some ("Rejected" : pystr)
  else if contains "wait" lowered || contains "list" lowered
  then Some ("Waitlisted" : pystr)
  else if contains "interview" lowered
  then Some ("Interview" : pystr)
  else None.

(** The standardization as the specification words it: the keywords are
    looked for in the lower-cased input, and the fallback is the title-cased
    input. *)
Definition standardize_as_stated (status : pystr) : pystr :=
  match status with
  | [] => []
  | _ => default (title status) (keyword_label (lower status))
  end.

(** The same with the fallback taken on the lower-cased input without its
    leading and trailing whitespace. *)
Definition standardize_stripped (status : pystr) : pystr :=
  match status with
  | [] => []
  | _ => default (title (strip (lower status))) (keyword_label (lower status))
  end.

(** [p] occurs in [t]. *)
Definition occurs_in (p t : pystr) : Prop :=
  exists before after, t = before ++ p ++ after.

(** The first and last characters of [p] are not whitespace. *)
Definition solid (p : pystr) : bool :=
  match p, rev p with
  | a :: _, b :: _ => negb (isspace a) && negb (isspace b)
  | _, _ => false
  end.

End StatusSpec.

Module AdmissionSpec.
Import PyStr Py Clean.
Local Open Scope string_scope.
Local Open Scope list_scope.

(** A raw record whose values are all strings, as a [dict]. *)
Definition as_raw (r : gmap string pystr) : dict := PStr <$> r.

(** [r.get(k, '')] on such a record. *)
Definition text_of (r : gmap string pystr) (k : string) : pystr :=
  default [] (r !! k).

(** The admission rule as the specification states it: both fields are
    non-empty after text cleaning. *)
Definition admitted_as_stated (r : gmap string pystr) : Prop :=
  _clean_text (text_of r "university") <> []
  /\ _clean_text (text_of r "program_name") <> [].

(** The admission rule of the code: both fields, after text cleaning, hold
    a character that is not whitespace. *)
Definition admitted (r : gmap string pystr) : Prop :=
  strip (_clean_text (text_of r "university")) <> []
  /\ strip (_clean_text (text_of r "program_name")) <> [].

(** The argument of the [gre_quantitative] parser on a string. *)
Definition quant_of (gre_score : pystr) : pystr :=
  if contains "Q:" gre_score
  then List.hd [] (split "," (List.last (split "Q:" gre_score) []))
  else [].

End AdmissionSpec.

Module FailureSpec.
Import PyStr Py.
Local Open Scope string_scope.

(** A record whose GPA was stored as a JSON number. *)
Definition numeric_gpa_record : dict :=
  <["gpa" := PInt 4]>
    (<["university" := PStr "MIT"]> (<["program_name" := PStr "Physics"]> ∅)).

(** A score of 4301 digits. *)
Definition long_score : pystr := repeat "1"%char 4301.

(** The stats after [clean_data]. *)
Definition stats_after (self : Clean.cleaner) (raw_data : list dict)
  : Clean.stats :=
  Clean.cleaning_stats (fst (Clean.clean_data self raw_data)).

End FailureSpec.

Module ScanSpec.
Import PyStr Re.
Local Open Scope string_scope.
Local Open Scope list_scope.

(** The longest prefix of [t] made of characters of the class [p], and
    what follows it. *)
Fixpoint take_while (p : ascii -> bool) (t : pystr) : pystr :=
  match t with
  | a :: t' => if p a then a :: take_while p t' else []
  | [] => []
  end.

Fixpoint drop_while (p : ascii -> bool) (t : pystr) : pystr :=
  match t with
  | a :: t' => if p a then drop_while p t' else t
  | [] => []
  end.

(** The positions at which a greedy run of [p] can end, longest first. *)
Fixpoint star_results (p : ascii -> bool) (t : pystr) (c : caps)
  : list (pystr * caps) :=
  match t with
  | a :: t' => if p a then star_results p t' c ++ [(t, c)] else [(t, c)]
  | [] => [([], c)]
  end.

(** The decimal number at the head of [t], which starts with a digit: the
    digits, then a point if there is one, then the digits after it. *)
Definition decimal_prefix (t : pystr) : pystr :=
  take_while isdigit t ++
  match drop_while isdigit t with
  | a :: t' => if Ascii.eqb "." a then a :: take_while isdigit t' else []
  | [] => []
  end.

(** What follows the decimal number at the head of [t]. *)
Definition decimal_rest (t : pystr) : pystr :=
  match drop_while isdigit t with
  | a :: t' => if Ascii.eqb "." a then drop_while isdigit t' else a :: t'
  | [] => []
  end.

(** The first decimal number of [t]: it starts at the first digit. *)
Fixpoint first_decimal (t : pystr) : option pystr :=
  match t with
  | a :: t' => if isdigit a then Some (decimal_prefix t) else first_decimal t'
  | [] => None
  end.

End ScanSpec.

Module GpaSpec.
Import PyStr Clean ScanSpec.
Local Open Scope string_scope.
Local Open Scope list_scope.

(** The GPA for the number [num]: two decimals when its value is within
    [0, 4], the value rescaled by [/ 10 * 4] when it is within (4, 10],
    nothing otherwise. *)
Definition gpa_of_number (num : pystr) : pystr :=
  match PyFloat.float_of_str num with
  | Some value =>
      if PyFloat.leb (PyFloat.of_Z 0) value
         && PyFloat.leb value (PyFloat.of_Z 4)
      then PyFloat.format_fixed 2 value
      else if PyFloat.ltb (PyFloat.of_Z 4) value
              && PyFloat.leb value (PyFloat.of_Z 10)
      then PyFloat.format_fixed 2
             (PyFloat.mul (PyFloat.div value (PyFloat.of_Z 10))
                          (PyFloat.of_Z 4))
      else []
  | None => []
  end.

(** The GPA of the first decimal number of a text. *)
Definition gpa_of_text (t : pystr) : pystr :=
  match first_decimal t with
  | Some num => gpa_of_number num
  | None => []
  end.

End GpaSpec.

Module RecleanSpec.
Import PyStr Py Clean.
Local Open Scope string_scope.
Local Open Scope list_scope.

(** The dict [clean_entry] builds, from the values of its sixteen keys. *)
Definition cleaned_record
    (program_name university comments : pystr) (url : pyval)
    (applicant_status date_added acceptance_date rejection_date : pystr)
    (semester year international_american : pystr)
    (gpa gre_verbal gre_quantitative gre_aw degree_type : pystr) : dict :=
  <["degree_type" := PStr degree_type]>
  (<["gre_aw" := PStr gre_aw]>
  (<["gre_quantitative" := PStr gre_quantitative]>
  (<["gre_verbal" := PStr gre_verbal]>
  (<["gpa" := PStr gpa]>
  (<["international_american" := PStr international_american]>
  (<["year" := PStr year]>
  (<["semester" := PStr semester]>
  (<["rejection_date" := PStr rejection_date]>
  (<["acceptance_date" := PStr acceptance_date]>
  (<["date_added" := PStr date_added]>
  (<["applicant_status" := PStr applicant_status]>
  (<["url" := url]>
  (<["comments" := PStr comments]>
  (<["university" := PStr university]>
  (<["program_name" := PStr program_name]> ∅))))))))))))))).

(** The international status, from the cleaned text of the field. *)
Definition international_of (intl_status : pystr) : pystr :=
  if one_of ["international"; "foreign"] (lower intl_status)
  then "International"
  else if one_of ["domestic"; "american"; "usa"; "us"] (lower intl_status)
  then "American"
  else "".

(** The keys whose values a second cleaning leaves as they are, and the
    keys it resets because the cleaned record has no [semester_year] and
    no [gre_score]. *)
Definition stable_keys : list string :=
  ["url"; "international_american"; "gpa"; "gre_verbal"; "gre_aw"].

(** The decision status of the raw record is ASCII text, or no text at all.
    Outside ASCII the title-cased form of a lower-cased text need not be
    left as it is by a second lower-casing and title-casing: Python maps
    U+01F0 to a capital J followed by a combining caron, after which the
    next letter starts a word. *)
Definition ascii_status (entry : dict) : bool :=
  match get entry "applicant_status" with
  | PStr status => is_ascii status
  | _ => true
  end.

Definition reset_keys : list string :=
  ["semester"; "year"; "gre_quantitative"].

(** The characters that are kept by [_clean_text] and are not whitespace. *)
Definition good (a : ascii) : bool := negb (isspace a) && kept a.

(** The scores [_clean_gre_score] lets through. *)
Definition valid_scores : list Z :=
  map Z.of_nat (seq 130 41 ++ seq 200 601).

(** The raw record of the end-to-end example of the specification. *)
Definition example_raw : dict :=
  <["gre_score" := PStr "V:165, Q:160"]>
  (<["gre_verbal" := PStr "165"]>
  (<["gpa" := PStr "3.8"]>
  (<["semester_year" := PStr "Fall 2025"]>
  (<["international_american" := PStr "International"]>
  (<["applicant_status" := PStr "Accepted"]>
  (<["acceptance_date" := PStr "2025-06-01"]>
  (<["degree_type" := PStr "Masters"]>
  (<["comments" := PStr "top # choice"]>
  (<["university" := PStr "MIT"]>
  (<["program_name" := PStr "Biomedical Engineering"]> ∅)))))))))).

(** Cleaning once, and twice. *)
Definition once (entry : dict) : option dict := clean_entry entry.

Definition twice (entry : dict) : option dict :=
  match clean_entry entry with
  | Some c => clean_entry c
  | None => None
  end.

(** [d[k]] as text, for display. *)
Definition field (r : option dict) (k : string) : option pystr :=
  match r with
  | Some d =>
      match d !! k with
      | Some (PStr t) => Some t
      | _ => None
      end
  | None => None
  end.

End RecleanSpec.

Module FloatSpec.
Import PyStr PyFloat.
Local Open Scope Z_scope.

(** A float that is not a NaN, is not negative, and has a mantissa of at
    most 53 bits. *)
Definition plain (x : float) : Prop :=
  match x with
  | S754_zero s => s = false
  | S754_infinity s => s = false
  | S754_nan => False
  | S754_finite s m e => s = false /\ Zpos m < 2 ^ 53
  end.

(** The text of [n / 10^k] with [k] decimals. *)
Definition fixed_of (k : nat) (n : Z) : pystr :=
  (str_of_Z (n / 10 ^ Z.of_nat k) ++ "."%string
     ++ zfill k (str_of_Z (n mod 10 ^ Z.of_nat k)))%list.

(** The numerators of 0.00 .. 4.00 and of 0.0 .. 6.0. *)
Definition hundredths : list Z := map Z.of_nat (seq 0 401).
Definition tenths : list Z := map Z.of_nat (seq 0 61).

End FloatSpec.

(** * Further definitions

    The definitions that follow serve the properties proved in the last
    part of the development, about the code around the one the
    specification describes: the relation a match of the regular-expression
    engine satisfies, the record layouts, the decision of
    [_check_robots_txt], and the summary report of [main.py]. *)

Module MatchSpec.
Import PyStr Re.

(** [matches r u new]: the pattern [r] matches the text [u] as a whole and
    binds the groups [new], the latest first. *)
Inductive matches : regex -> pystr -> caps -> Prop :=
| m_eps : matches Eps [] []
| m_cls p a : p a = true -> matches (Cls p) [a] []
| m_seq r1 r2 u1 u2 n1 n2 :
    matches r1 u1 n1 -> matches r2 u2 n2 ->
    matches (Seq r1 r2) (u1 ++ u2) (n2 ++ n1)
| m_alt_l r1 r2 u n : matches r1 u n -> matches (Alt r1 r2) u n
| m_alt_r r1 r2 u n : matches r2 u n -> matches (Alt r1 r2) u n
| m_star_nil r : matches (Star r) [] []
| m_star_more r u1 u2 n1 n2 :
    matches r u1 n1 -> matches (Star r) u2 n2 ->
    matches (Star r) (u1 ++ u2) (n2 ++ n1)
| m_grp i r u n : matches r u n -> matches (Grp i r) u ((i, u) :: n).

(** What a result of the matcher is: a split of the input and a match of
    the pattern on the part consumed. *)
Definition sound_at (r : regex) : Prop :=
  forall t c t' c', In (t', c') (rmatch r t c) ->
    exists u n, t = u ++ t' /\ c' = n ++ c /\ matches r u n.

End MatchSpec.

Module RawSpec.
Import PyStr Py.
Local Open Scope string_scope.
Local Open Scope list_scope.

(** The dict [_extract_entry_data] returns, from the values of its fifteen
    keys. *)
Definition raw_record
    (program_name university comments date_added url : pystr)
    (applicant_status acceptance_date rejection_date : pystr)
    (semester_year international_american gre_score gre_verbal : pystr)
    (degree_type gpa gre_aw : pystr) : dict :=
  <["gre_aw" := PStr gre_aw]>
  (<["gpa" := PStr gpa]>
  (<["degree_type" := PStr degree_type]>
  (<["gre_verbal" := PStr gre_verbal]>
  (<["gre_score" := PStr gre_score]>
  (<["international_american" := PStr international_american]>
  (<["semester_year" := PStr semester_year]>
  (<["rejection_date" := PStr rejection_date]>
  (<["acceptance_date" := PStr acceptance_date]>
  (<["applicant_status" := PStr applicant_status]>
  (<["url" := PStr url]>
  (<["date_added" := PStr date_added]>
  (<["comments" := PStr comments]>
  (<["university" := PStr university]>
  (<["program_name" := PStr program_name]> ∅)))))))))))))).

(** The value of [gre_score]. *)
Definition gre_score_of (gre_verbal gre_quant : pystr) : pystr :=
  if Scrape.nonempty gre_verbal || Scrape.nonempty gre_quant
  then "V:" ++ gre_verbal ++ ", Q:" ++ gre_quant
  else "".

Definition decision_labels : list string :=
  ["Accepted"; "Rejected"; "Waitlisted"; "Interview"].

Definition semester_labels : list string :=
  ["Fall"; "Spring"; "Summer"; "Winter"].

End RawSpec.

Module PipelineSpec.
Import PyStr Re Py Scrape Clean RawSpec.
Local Open Scope string_scope.
Local Open Scope list_scope.

Definition digit_chars : pystr := "0123456789".

(** The year the cleaner keeps: one that starts with [20]. *)
Definition year_of (year : pystr) : pystr :=
  if startswith "20" year then year else "".

Definition pair_eqb (x y : pystr * pystr) : bool :=
  str_eqb (fst x) (fst y) && str_eqb (snd x) (snd y).

(** The degree keywords of the scraper and the label the cleaner gives
    each of them. *)
Definition degree_table : list (string * string) :=
  [("", ""); ("Masters", "Masters"); ("PhD", "PhD"); ("MS", "Masters");
   ("MA", "Masters"); ("Doctorate", "PhD"); ("Bachelors", "Bachelors");
   ("BS", "Bachelors"); ("BA", "Bachelors")].

(** A primary row and its detail row. *)
Definition primary_row : tr :=
  mkTr ["MIT" : pystr; "Computer SciencePhD" : pystr; "12 Jan" : pystr;
        "Accepted on 1 Jun" : pystr]
       [Some ("/result/123" : pystr)]
       "MITComputer SciencePhD12 JanAccepted on 1 Jun".

Definition detail_text : pystr :=
  "Fall 2025 International GPA 3.8 GRE V 165 GRE Q 160 GRE AW 4.5".

Definition detail_row : tr := mkTr [detail_text] [] detail_text.

End PipelineSpec.

Module NumberSpec.
Import PyStr Re ScanSpec.
Local Open Scope string_scope.
Local Open Scope list_scope.

(** The first run of digits of [t]. *)
Fixpoint first_digits (t : pystr) : option pystr :=
  match t with
  | a :: t' => if isdigit a then Some (take_while isdigit t) else first_digits t'
  | [] => None
  end.

(** The two ranges of a GRE section score. *)
Definition valid_score (n : Z) : bool :=
  ((130 <=? n) && (n <=? 170) || (200 <=? n) && (n <=? 800))%Z.

(** [n / 100] written as [d.dd], and [n / 10] written as [d.d]. *)
Definition two_decimals (n : Z) : pystr :=
  [digit_char (Z.to_nat (n / 100)); "."%char;
   digit_char (Z.to_nat (n / 10 mod 10)); digit_char (Z.to_nat (n mod 10))].

Definition one_decimal (n : Z) : pystr :=
  [digit_char (Z.to_nat (n / 10)); "."%char; digit_char (Z.to_nat (n mod 10))].

End NumberSpec.

Module TextSpec.
Import PyStr Re Clean.
Local Open Scope string_scope.
Local Open Scope list_scope.

(** Every whitespace character of [t] is a space, and what follows it, if
    anything, is not whitespace. *)
Fixpoint single_spaced (t : pystr) : bool :=
  match t with
  | [] => true
  | a :: t' =>
      (if isspace a
       then Ascii.eqb a " "
            && match t' with
               | b :: _ => negb (isspace b)
               | [] => true
               end
       else true)
      && single_spaced t'
  end.

(** A text in the form [_clean_text] aims at: kept characters only, single
    spaces between the words, no whitespace at the ends. *)
Definition normal (t : pystr) : bool :=
  forallb kept t && single_spaced t && str_eqb (strip t) t.

End TextSpec.

Module EntrySpec.
Import PyStr Py.
Local Open Scope string_scope.

(** The keys of a raw record whose value goes to a parser as it is. *)
Definition parsed_keys : list string :=
  ["program_name"; "university"; "comments"; "applicant_status";
   "date_added"; "acceptance_date"; "rejection_date"; "semester_year";
   "international_american"; "gpa"; "gre_verbal"; "gre_aw"; "degree_type"].

(** The values on which [in] and [split] can both go through. *)
Definition is_container (v : pyval) : bool :=
  match v with
  | PStr _ | PList _ | PDict _ => true
  | _ => false
  end.

(** A record with no [university]. *)
Definition nameless_record : dict :=
  <["program_name" := PStr "Physics"]> ∅.

End EntrySpec.

Module SchemaSpec.
Import PyStr Py Clean RawSpec FloatSpec RecleanSpec.
Local Open Scope string_scope.
Local Open Scope list_scope.

(** The texts a cleaned record holds in its fields. *)
Definition nonblank (t : pystr) : Prop := strip t <> [].

Definition semester_text (s : pystr) : Prop :=
  s = [] \/ exists l : string, In l semester_labels /\ s = l.

Definition year_text (y : pystr) : Prop :=
  y = [] \/ exists c d, isdigit c = true /\ isdigit d = true
                        /\ y = ("20" : pystr) ++ [c; d].

Definition international_text (s : pystr) : Prop :=
  s = [] \/ s = ("International" : pystr) \/ s = ("American" : pystr).

Definition gpa_text (g : pystr) : Prop :=
  g = [] \/ exists n, (0 <= n <= 400)%Z /\ g = fixed_of 2 n.

Definition aw_text (a : pystr) : Prop :=
  a = [] \/ exists n, (0 <= n <= 60)%Z /\ a = fixed_of 1 n.

Definition score_text (s : pystr) : Prop :=
  s = [] \/ exists n, (130 <= n <= 170 \/ 200 <= n <= 800)%Z
                      /\ s = str_of_Z n.

End SchemaSpec.

Module Robots.
Import PyStr.
Local Open Scope string_scope.

(** What [_check_robots_txt] gets back: the request raises, or it gives a
    status and a body, whose decoding as UTF-8 may raise ([None]). *)
Inductive reply : Type :=
| RequestFailed
| Reply (status : nat) (body : option pystr).

(** [_check_robots_txt], as a function of what the network and the file
    system do: [saved] tells whether writing the content to
    [robots_txt_content.txt] went through.  Every exception ends in the
    [except] branch, which allows. *)
Definition _check_robots_txt (r : reply) (saved : bool) : bool :=
  match r with
  | RequestFailed => true
  | Reply status body =>
      if (status =? 200)%nat then
        match body with
        | None => true
        | Some robots_content =>
            if saved then
              if contains "/survey/" robots_content
                 && contains "Disallow: /survey/" robots_content
              then false
              else true
            else true
        end
      else true
  end.

End Robots.

Module NetworkSpec.
Import PyStr Py Scrape PipelineSpec.

(** A network whose first page holds one primary row with its detail row,
    and that has no further page. *)
Definition one_page (o : nat) (w : unit) : page * unit :=
  (if (o =? 0)%nat
   then Table [mkTr [] [] []; primary_row; detail_row]
   else NoContent, w).

(** What the loop has added to [scraped], with the counts of the log. *)
Definition collected {World : Type} (scraped : list dict) (st : run World)
  : Prop :=
  exists new,
    scraped_data World st = scraped ++ new
    /\ length new = total_entries World st
    /\ total_entries World st = list_sum (map snd (log World st)).

End NetworkSpec.

Module Report.
Import PyStr Py.
Local Open Scope string_scope.
Local Open Scope list_scope.

(** ** main.py: [GradCafeApplication.generate_summary_report]

    The report is computed from the records of [applicant_data.json].  The
    embedding covers the records whose counted fields hold strings, which
    is what the cleaner writes: a record is a [gmap string pystr].  A
    [dict] from strings to integers is an association list in insertion
    order, which is the order Python iterates it in. *)
Abbreviation record := (gmap string pystr).

Definition counts : Type := list (pystr * nat).

(** [cs.get(k, 0)] *)
Fixpoint count_of (k : pystr) (cs : counts) : nat :=
  match cs with
  | [] => 0
  | (k', n) :: cs' => if str_eqb k k' then n else count_of k cs'
  end.

(** [cs[k] = n]: the value of a key that is present is replaced where it
    is, a new key goes to the end. *)
Fixpoint set_count (k : pystr) (n : nat) (cs : counts) : counts :=
  match cs with
  | [] => [(k, n)]
  | (k', n') :: cs' =>
      if str_eqb k k' then (k', n) :: cs'
      else (k', n') :: set_count k n cs'
  end.

(** [entry.get(field, 'Unknown')] *)
Definition field_or_unknown (field : string) (entry : record) : pystr :=
  default ("Unknown" : pystr) (entry !! field).

(** One iteration of a counting loop:
    [v = entry.get(field, 'Unknown'); cs[v] = cs.get(v, 0) + 1]. *)
Definition count_step (field : string) (cs : counts) (entry : record)
  : counts :=
  let v := field_or_unknown field entry in
  set_count v (count_of v cs + 1) cs.

Definition count_by (field : string) (data : list record) : counts :=
  fold_left (count_step field) data [].

(** [sorted(items, key=lambda x: x[1], reverse=True)]: the stable sort by
    decreasing count, as an insertion sort; an item goes before the items
    that follow it in the input and have the same count. *)
Fixpoint insert_desc (x : pystr * nat) (l : counts) : counts :=
  match l with
  | [] => [x]
  | y :: l' => if (snd x <? snd y)%nat then y :: insert_desc x l' else x :: l
  end.

Definition sorted_desc (l : counts) : counts := fold_right insert_desc [] l.

(** [sum(1 for entry in data if entry.get(field))] *)
Definition entries_with (field : string) (data : list record) : nat :=
  length (List.filter
            (fun entry : record =>
               negb (length (default [] (entry !! field)) =? 0)%nat)
            data).

(** The report, without its [generation_date]. *)
Record report : Type := mkReport {
  total_entries : nat;
  status_distribution : counts;
  degree_type_distribution : counts;
  top_10_universities : counts;
  entries_with_gpa : nat;
  entries_with_gre : nat;
  entries_with_comments : nat
}.

(** The report that is written to [data_summary_report.json], the entries
    of its [data_quality] object being fields of the record; [None] when
    there is no data: no report is written. *)
Definition generate_summary_report (data : list record) : option report :=
  if (length data =? 0)%nat then None
  else
    let university_counts := count_by "university" data in
    let top_universities := firstn 10 (sorted_desc university_counts) in
    Some {| total_entries := length data;
            status_distribution := count_by "applicant_status" data;
            degree_type_distribution := count_by "degree_type" data;
            top_10_universities := top_universities;
            entries_with_gpa := entries_with "gpa" data;
            entries_with_gre := entries_with "gre_verbal" data;
            entries_with_comments := entries_with "comments" data |}.

(** The string fields of a cleaned record, as [json.load] gives them back
    to the report. *)
Definition texts (c : dict) : record :=
  omap (fun v => match v with PStr t => Some t | _ => None end) c.

(** The records of [data] that hold [k] in [field]. *)
Definition holding (field : string) (k : pystr) (data : list record)
  : list record :=
  List.filter (fun entry => str_eqb k (field_or_unknown field entry)) data.

(** The items of [l] with the count [n]. *)
Definition with_count (n : nat) (l : counts) : counts :=
  List.filter (fun x => (snd x =? n)%nat) l.

(** The counts of [l] never increase along the list. *)
Fixpoint descending (l : counts) : Prop :=
  match l with
  | [] => True
  | x :: l' => Forall (fun y => snd y <= snd x) l' /\ descending l'
  end.

(** Three records of two universities. *)
Definition three_records : list record :=
  [ <["university" := ("MIT" : pystr)]> ∅;
    <["university" := ("Yale" : pystr)]> ∅;
    <["university" := ("MIT" : pystr)]> ∅ ].

End Report.

Module CaseSpec.
Import PyStr Re.

(** A pattern without groups whose character classes do not tell a letter
    from its lower-case form. *)
Fixpoint case_blind (r : regex) : Prop :=
  match r with
  | Eps => True
  | Cls p => forall a, p (lower_char a) = p a
  | Seq r1 r2 => case_blind r1 /\ case_blind r2
  | Alt r1 r2 => case_blind r1 /\ case_blind r2
  | Star r1 => case_blind r1
  | Grp _ _ => False
  end.

(** A result of the matcher, with the remaining input in lower case. *)
Definition lower_rest (x : pystr * caps) : pystr * caps :=
  (lower (fst x), snd x).

End CaseSpec.

Module DateSpec.
Import PyStr Re StatusSpec.
Local Open Scope string_scope.
Local Open Scope list_scope.

(** A run of [lo] to [hi] digits; three word characters; a run of
    whitespace. *)
Definition digits_between (lo hi : nat) (u : pystr) : Prop :=
  forallb isdigit u = true /\ lo <= length u <= hi.

Definition three_word_chars (u : pystr) : Prop :=
  forallb isword u = true /\ length u = 3.

Definition blanks (u : pystr) : Prop :=
  forallb isspace u = true /\ u <> [].

(** [date_result text o]: [o] is what one of the four date patterns makes
    of a date that occurs in [text]. *)
Definition date_result (text o : pystr) : Prop :=
  (exists day month year s1 s2,
     digits_between 1 2 day /\ three_word_chars month
     /\ digits_between 4 4 year /\ blanks s1 /\ blanks s2
     /\ occurs_in (day ++ s1 ++ month ++ s2 ++ year) text
     /\ o = day ++ " " ++ month ++ " " ++ year)
  \/ (exists month day year s1 comma s2,
        three_word_chars month /\ digits_between 1 2 day
        /\ digits_between 4 4 year /\ blanks s1 /\ blanks s2
        /\ (comma = [] \/ comma = ("," : pystr))
        /\ occurs_in (month ++ s1 ++ day ++ comma ++ s2 ++ year) text
        /\ o = day ++ " " ++ month ++ " " ++ year)
  \/ (exists month day year,
        digits_between 1 2 month /\ digits_between 1 2 day
        /\ digits_between 4 4 year
        /\ occurs_in (month ++ "/" ++ day ++ "/" ++ year) text
        /\ o = zfill 2 day ++ "/" ++ zfill 2 month ++ "/" ++ year)
  \/ (exists year month day,
        digits_between 4 4 year /\ digits_between 1 2 month
        /\ digits_between 1 2 day
        /\ occurs_in (year ++ "-" ++ month ++ "-" ++ day) text
        /\ o = day ++ "/" ++ month ++ "/" ++ year).

End DateSpec.

Module PageCleanSpec.
Import PyStr Py Clean Scrape.
Local Open Scope string_scope.

(** [t] holds a character that is not whitespace. *)
Definition nonblankb (t : pystr) : bool :=
  negb ((length t =? 0)%nat || str_eqb (strip t) "").

(** A row that ends up in the cleaned data: a primary row on whose links
    [urljoin] does not raise, and whose institution and program name are
    not blank after text cleaning. *)
Definition cleanable_row (urljoin : pystr -> pystr -> option pystr)
    (row : tr) : bool :=
  PageSpec.extracted urljoin row
  && nonblankb (_clean_text (nth 0 (cells row) []))
  && nonblankb (_clean_text (fst (parse_program (nth 1 (cells row) [])))).

End PageCleanSpec.

Module ChainSpec.
Import PyStr.
Local Open Scope string_scope.

(** The degree labels of cleaned scraped data. *)
Definition degree_labels : list pystr :=
  ["" : pystr; "PhD" : pystr; "Masters" : pystr; "Bachelors" : pystr].

End ChainSpec.

(** ** Facts about the string operations *)

Module StrFacts.
Import PyStr StatusSpec.
Local Open Scope string_scope.
Local Open Scope list_scope.

(** A property of characters checked on each of the 256 of them. *)
Ltac by_cases_on_char c :=
  destruct c as [[] [] [] [] [] [] [] []]; vm_compute; reflexivity.

Lemma isspace_lower_char c : isspace (lower_char c) = isspace c.
Proof. by_cases_on_char c. Qed.

Lemma iscased_lower_char c : iscased (lower_char c) = iscased c.
Proof. by_cases_on_char c. Qed.

Lemma lower_char_idem c : lower_char (lower_char c) = lower_char c.
Proof. by_cases_on_char c. Qed.

Lemma upper_lower_char c : upper_char (lower_char c) = upper_char c.
Proof. by_cases_on_char c. Qed.

Lemma lower_upper_char c : lower_char (upper_char c) = lower_char c.
Proof. by_cases_on_char c. Qed.

(** *** [startswith], [contains] *)

Lemma startswith_spec p t :
  startswith p t = true <-> exists after, t = p ++ after.
Proof.
  revert t. induction p as [|a p IH]; intros t; simpl.
  - split; [eauto|done].
  - destruct t as [|b t].
    + split; [done|]. intros [after H]. discriminate.
    + rewrite andb_true_iff, IH. split.
      * intros [Hab [after ->]]. apply Ascii.eqb_eq in Hab. subst. eauto.
      * intros [after H]. injection H as -> ->.
        split; [apply Ascii.eqb_refl|eauto].
Qed.

Lemma contains_unfold p t :
  contains p t
  = startswith p t || match t with [] => false | _ :: t' => contains p t' end.
Proof. by destruct t. Qed.

Lemma contains_spec p t : contains p t = true <-> occurs_in p t.
Proof.
  unfold occurs_in. induction t as [|c t IH].
  - simpl. rewrite orb_false_r, startswith_spec. split.
    + intros [after H]. exists [], after. done.
    + intros (before & after & H). destruct before; [|discriminate].
      eauto.
  - rewrite contains_unfold, orb_true_iff, startswith_spec, IH. split.
    + intros [[after ->]|(before & after & ->)].
      * by exists [], after.
      * by exists (c :: before), after.
    + intros ([|b before] & after & H).
      * left. eauto.
      * right. injection H as -> ->. eauto.
Qed.

Lemma contains_rev p t : contains (rev p) (rev t) = contains p t.
Proof.
  apply eq_true_iff_eq. rewrite !contains_spec. unfold occurs_in. split.
  - intros (before & after & H). exists (rev after), (rev before).
    apply (f_equal (@rev ascii)) in H.
    rewrite rev_involutive, !rev_app_distr, rev_involutive in H.
    by rewrite H, app_assoc.
  - intros (before & after & ->). exists (rev after), (rev before).
    by rewrite !rev_app_distr, app_assoc.
Qed.

(** *** [strip] *)

Lemma contains_lstrip a p t :
  isspace a = false -> contains (a :: p) (lstrip t) = contains (a :: p) t.
Proof.
  intros Ha. induction t as [|c t IH]; [reflexivity|].
  cbn [lstrip]. destruct (isspace c) eqn:Hc; [|reflexivity].
  rewrite IH. rewrite (contains_unfold _ (c :: t)).
  cbn [startswith].
  destruct (Ascii.eqb_spec a c) as [->|_]; [congruence|reflexivity].
Qed.

Lemma contains_rstrip p a t :
  isspace a = false ->
  contains (p ++ [a]) (rstrip t) = contains (p ++ [a]) t.
Proof.
  intros Ha. unfold rstrip.
  rewrite <- (contains_rev (p ++ [a]) (rev _)), rev_involutive.
  rewrite rev_app_distr. simpl.
  rewrite contains_lstrip by done.
  rewrite <- (contains_rev _ t). by rewrite rev_app_distr.
Qed.

Lemma contains_strip p t :
  solid p = true -> contains p (strip t) = contains p t.
Proof.
  unfold solid, strip. intros Hp.
  destruct p as [|a p']; [done|].
  destruct (rev (a :: p')) as [|b q] eqn:Hrev; [done|].
  apply andb_true_iff in Hp as [Ha Hb].
  apply negb_true_iff in Ha, Hb.
  assert (Hlast : a :: p' = rev q ++ [b]).
  { apply (f_equal (@rev ascii)) in Hrev.
    by rewrite rev_involutive in Hrev. }
  rewrite Hlast at 1. rewrite contains_rstrip by done.
  rewrite <- Hlast. by apply contains_lstrip.
Qed.

Lemma lstrip_lower t : lstrip (lower t) = lower (lstrip t).
Proof.
  induction t as [|c t IH]; [reflexivity|].
  simpl. rewrite isspace_lower_char. by destruct (isspace c).
Qed.

Lemma rev_lower t : rev (lower t) = lower (rev t).
Proof. unfold lower. symmetry. apply map_rev. Qed.

Lemma strip_lower t : strip (lower t) = lower (strip t).
Proof.
  unfold strip, rstrip.
  by rewrite lstrip_lower, rev_lower, lstrip_lower, rev_lower.
Qed.

Lemma lstrip_idem t : lstrip (lstrip t) = lstrip t.
Proof.
  induction t as [|c t IH]; [reflexivity|].
  simpl. destruct (isspace c) eqn:Hc; [done|]. simpl. by rewrite Hc.
Qed.

(** *** [lower], [title] *)

Lemma title_from_lower b t : title_from b (lower t) = title_from b t.
Proof.
  revert b. induction t as [|c t IH]; intros b; [reflexivity|].
  simpl. rewrite iscased_lower_char, IH.
  by rewrite lower_char_idem, upper_lower_char.
Qed.

Lemma title_lower t : title (lower t) = title t.
Proof. apply title_from_lower. Qed.

Lemma lower_title_from b t : lower (title_from b t) = lower t.
Proof.
  revert b. induction t as [|c t IH]; intros b; [reflexivity|].
  simpl. rewrite IH. f_equal.
  destruct b; [apply lower_char_idem|apply lower_upper_char].
Qed.

Lemma lower_idem t : lower (lower t) = lower t.
Proof.
  unfold lower. rewrite map_map. apply map_ext. apply lower_char_idem.
Qed.

(** *** More on [strip] *)

Lemma lstrip_all_space t : forallb isspace t = true -> lstrip t = [].
Proof.
  induction t as [|c t IH]; [reflexivity|]. simpl.
  intros [Hc Ht]%andb_true_iff. rewrite Hc. auto.
Qed.

Lemma lstrip_app a b :
  lstrip (a ++ b) = if forallb isspace a then lstrip b else lstrip a ++ b.
Proof.
  induction a as [|c a IH]; [reflexivity|]. simpl.
  destruct (isspace c); [exact IH|reflexivity].
Qed.

Lemma forallb_rev {A} (p : A -> bool) l : forallb p (rev l) = forallb p l.
Proof.
  induction l as [|x l IH]; [reflexivity|]. simpl.
  rewrite forallb_app, IH. simpl. rewrite andb_true_r. apply andb_comm.
Qed.

Lemma existsb_rev {A} (p : A -> bool) l : existsb p (rev l) = existsb p l.
Proof.
  induction l as [|x l IH]; [reflexivity|]. simpl.
  rewrite existsb_app, IH. simpl. rewrite orb_false_r. apply orb_comm.
Qed.

Lemma rstrip_cons c t :
  rstrip (c :: t)
  = if forallb isspace t
    then (if isspace c then [] else [c])
    else c :: rstrip t.
Proof.
  unfold rstrip. simpl. rewrite lstrip_app, forallb_rev.
  destruct (forallb isspace t).
  - simpl. by destruct (isspace c).
  - by rewrite rev_app_distr.
Qed.

Lemma lstrip_rstrip t : lstrip (rstrip t) = rstrip (lstrip t).
Proof.
  induction t as [|c t IH]; [reflexivity|].
  rewrite rstrip_cons. simpl.
  destruct (isspace c) eqn:Hc.
  - destruct (forallb isspace t) eqn:Ht.
    + by rewrite (lstrip_all_space t Ht).
    + simpl. by rewrite Hc.
  - rewrite rstrip_cons.
    destruct (forallb isspace t); simpl; by rewrite Hc.
Qed.

Lemma rstrip_idem t : rstrip (rstrip t) = rstrip t.
Proof. unfold rstrip. by rewrite rev_involutive, lstrip_idem. Qed.

Lemma strip_idem t : strip (strip t) = strip t.
Proof.
  unfold strip.
  by rewrite lstrip_rstrip, lstrip_idem, rstrip_idem.
Qed.

(** A class of characters that holds no whitespace is found in [t] as
    much as in [strip t]. *)
Section Solid.
Variable cls : ascii -> bool.
Hypothesis cls_solid : forall a, isspace a = true -> cls a = false.

Lemma existsb_lstrip t : existsb cls (lstrip t) = existsb cls t.
Proof.
  induction t as [|c t IH]; [reflexivity|]. simpl.
  destruct (isspace c) eqn:Hc; [|reflexivity].
  by rewrite IH, (cls_solid c Hc).
Qed.

Lemma existsb_strip t : existsb cls (strip t) = existsb cls t.
Proof.
  unfold strip, rstrip.
  by rewrite existsb_rev, existsb_lstrip, existsb_rev, existsb_lstrip.
Qed.
End Solid.

Lemma strip_nonempty t :
  strip t <> [] <-> existsb (fun a => negb (isspace a)) t = true.
Proof.
  split.
  - intros Hne. destruct (existsb _ t) eqn:Hex; [reflexivity|].
    exfalso. apply Hne.
    assert (Hall : forallb isspace t = true).
    { apply forallb_forall. intros a Ha.
      destruct (isspace a) eqn:Hsp; [reflexivity|].
      assert (existsb (fun a => negb (isspace a)) t = true); [|congruence].
      apply existsb_exists. exists a. by rewrite Hsp. }
    unfold strip. by rewrite (lstrip_all_space t Hall).
  - intros Hex Hnil.
    rewrite <- (existsb_strip (fun a => negb (isspace a))) in Hex.
    + by rewrite Hnil in Hex.
    + by intros a ->.
Qed.

End StrFacts.

(** ** Facts about the matcher *)

Module ReFacts.
Import PyStr Re ScanSpec.
Local Open Scope string_scope.
Local Open Scope list_scope.

Lemma take_drop_while p t : take_while p t ++ drop_while p t = t.
Proof.
  induction t as [|a t IH]; [reflexivity|].
  simpl. destruct (p a); [simpl; by rewrite IH|reflexivity].
Qed.

Lemma drop_while_length p t : length (drop_while p t) <= length t.
Proof.
  induction t as [|a t IH]; [done|]. simpl. destruct (p a); simpl; lia.
Qed.

Lemma drop_while_head p t a t' : drop_while p t = a :: t' -> p a = false.
Proof.
  induction t as [|b t IH]; [done|]. simpl.
  destruct (p b) eqn:Hb; [exact IH|]. by intros [= <- <-].
Qed.

(** *** The equations of the matcher *)

Lemma rmatch_seq r1 r2 t c :
  rmatch (Seq r1 r2) t c
  = flat_map (fun '(t1, c1) => rmatch r2 t1 c1) (rmatch r1 t c).
Proof. reflexivity. Qed.

Lemma rmatch_alt r1 r2 t c :
  rmatch (Alt r1 r2) t c = rmatch r1 t c ++ rmatch r2 t c.
Proof. reflexivity. Qed.

Lemma rmatch_eps t c : rmatch Eps t c = [(t, c)].
Proof. reflexivity. Qed.

Lemma rmatch_cls p t c :
  rmatch (Cls p) t c
  = match t with
    | a :: t' => if p a then [(t', c)] else []
    | [] => []
    end.
Proof. reflexivity. Qed.

Lemma rmatch_grp i r t c :
  rmatch (Grp i r) t c
  = map (fun '(t1, c1) => (t1, (i, firstn (length t - length t1) t) :: c1))
        (rmatch r t c).
Proof. reflexivity. Qed.

(** *** Greedy runs of a character class *)

Lemma star_loop_class p : forall fuel t c,
  length t <= fuel ->
  star_loop (rmatch (Cls p)) fuel t c = star_results p t c.
Proof.
  induction fuel as [|fuel IH]; intros t c Hfuel.
  - destruct t; [reflexivity|simpl in Hfuel; lia].
  - destruct t as [|a t]; [reflexivity|].
    cbn [star_loop rmatch star_results]. destruct (p a); [|reflexivity].
    cbn [flat_map]. rewrite app_nil_r.
    destruct (Nat.ltb_spec (length t) (length (a :: t))) as [_|H];
      [|simpl in H; lia].
    rewrite IH; [reflexivity|]. simpl in Hfuel. lia.
Qed.

Lemma rmatch_star_class p t c :
  rmatch (Star (Cls p)) t c = star_results p t c.
Proof. simpl. by apply star_loop_class. Qed.

Lemma star_results_head p t c :
  exists others, star_results p t c = (drop_while p t, c) :: others.
Proof.
  induction t as [|a t [others IH]]; [by exists []|].
  simpl. destruct (p a); [|by exists []].
  rewrite IH. by eexists.
Qed.

Lemma rmatch_plus_class p t c :
  rmatch (Plus (Cls p)) t c
  = match t with
    | a :: t' => if p a then star_results p t' c else []
    | [] => []
    end.
Proof.
  unfold Plus. cbn [rmatch]. destruct t as [|a t]; [reflexivity|].
  destruct (p a); [|reflexivity]. cbn [flat_map]. rewrite app_nil_r.
  by apply star_loop_class.
Qed.

Lemma match_here_plus_class p t :
  match_here (Plus (Cls p)) t
  = match t with
    | a :: t' => if p a then Some (drop_while p t', []) else None
    | [] => None
    end.
Proof.
  unfold match_here. rewrite rmatch_plus_class.
  destruct t as [|a t]; [reflexivity|]. destruct (p a); [|reflexivity].
  by destruct (star_results_head p t []) as [others ->].
Qed.

(** *** [re.sub] with the three patterns of [_clean_text] *)

(** Removing the characters of a class is a filter. *)
Lemma sub_loop_class p : forall fuel t,
  length t <= fuel ->
  sub_loop fuel (Cls p) [] t = List.filter (fun a => negb (p a)) t.
Proof.
  induction fuel as [|fuel IH]; intros t Hfuel.
  - destruct t; [reflexivity|simpl in Hfuel; lia].
  - destruct t as [|a t]; [reflexivity|].
    cbn [sub_loop List.filter]. unfold match_here. cbn [rmatch].
    simpl in Hfuel. destruct (p a); cbn [head negb].
    + destruct (Nat.ltb_spec (length t) (length (a :: t))) as [_|H];
        [|simpl in H; lia].
      simpl. apply IH. lia.
    + f_equal. apply IH. lia.
Qed.

Lemma sub_class p t :
  sub (Cls p) [] t = List.filter (fun a => negb (p a)) t.
Proof. by apply sub_loop_class. Qed.

(** A pattern that starts with a character that does not occur in the
    text leaves the text as it is. *)
Lemma sub_loop_absent a r repl : forall fuel t,
  existsb (Ascii.eqb a) t = false ->
  sub_loop fuel (Seq (Chr a) r) repl t = t.
Proof.
  induction fuel as [|fuel IH]; intros t Habs; [reflexivity|].
  destruct t as [|b t]; [reflexivity|].
  simpl in Habs. apply orb_false_iff in Habs as [Hb Ht].
  cbn [sub_loop]. unfold match_here, Chr. cbn [rmatch]. rewrite Hb.
  cbn [flat_map head]. by rewrite IH.
Qed.

Lemma sub_absent a r repl t :
  existsb (Ascii.eqb a) t = false -> sub (Seq (Chr a) r) repl t = t.
Proof. apply sub_loop_absent. Qed.

(** Collapsing the whitespace keeps the characters that are not
    whitespace. *)
Lemma sub_loop_space_exists (good : ascii -> bool) repl :
  (forall a, isspace a = true -> good a = false) ->
  existsb good repl = false ->
  forall fuel t, length t <= fuel ->
    existsb good (sub_loop fuel (Plus space) repl t) = existsb good t.
Proof.
  intros Hgood Hrepl.
  assert (Hdrop : forall t, existsb good (drop_while isspace t)
                            = existsb good t).
  { induction t as [|a t IH]; [reflexivity|]. simpl.
    destruct (isspace a) eqn:Ha; [|reflexivity].
    by rewrite IH, (Hgood a Ha). }
  induction fuel as [|fuel IH]; intros t Hfuel.
  - destruct t; [reflexivity|simpl in Hfuel; lia].
  - destruct t as [|a t]; [reflexivity|]. simpl in Hfuel.
    cbn [sub_loop]. unfold space. rewrite match_here_plus_class.
    destruct (isspace a) eqn:Ha.
    + pose proof (drop_while_length isspace t) as Hlen.
      destruct (Nat.ltb_spec (length (drop_while isspace t))
                  (length (a :: t))) as [_|H]; [|simpl in H; lia].
      rewrite existsb_app, Hrepl. cbn [orb existsb].
      fold space. rewrite IH by lia.
      by rewrite Hdrop, (Hgood a Ha).
    + cbn [existsb]. fold space. by rewrite IH by lia.
Qed.

Lemma sub_space_exists (good : ascii -> bool) repl t :
  (forall a, isspace a = true -> good a = false) ->
  existsb good repl = false ->
  existsb good (sub (Plus space) repl t) = existsb good t.
Proof. intros Hgood Hrepl. by apply sub_loop_space_exists. Qed.

(** *** [re.search] with the number pattern *)

Lemma drop_while_idem p t : drop_while p (drop_while p t) = drop_while p t.
Proof.
  induction t as [|a t IH]; [reflexivity|]. simpl.
  destruct (p a) eqn:Ha; [exact IH|]. simpl. by rewrite Ha.
Qed.

Lemma firstn_split (t p r : pystr) :
  p ++ r = t -> firstn (length t - length r) t = p.
Proof.
  intros <-. rewrite length_app, Nat.add_sub. apply take_app_length.
Qed.

Lemma decimal_split t : decimal_prefix t ++ decimal_rest t = t.
Proof.
  unfold decimal_prefix, decimal_rest.
  rewrite <- (take_drop_while isdigit t) at 4.
  rewrite <- app_assoc. f_equal.
  destruct (drop_while isdigit t) as [|a t']; [reflexivity|].
  destruct (Ascii.eqb "." a); [|reflexivity].
  simpl. by rewrite take_drop_while.
Qed.

(** [\.?\d*] after the leading digits. *)
Lemma rmatch_point_digits t c :
  exists others,
    rmatch (Seq (Opt (Chr ".")) (Star digit)) (drop_while isdigit t) c
    = (decimal_rest t, c) :: others.
Proof.
  unfold decimal_rest, digit, Opt, Chr.
  rewrite rmatch_seq, rmatch_alt, rmatch_eps, rmatch_cls.
  destruct (drop_while isdigit t) as [|a t'] eqn:Hrest.
  - by exists [].
  - destruct (Ascii.eqb "." a).
    + cbn [app flat_map]. rewrite rmatch_star_class.
      destruct (star_results_head isdigit t' c) as [o ->]. by eexists.
    + cbn [app flat_map]. rewrite rmatch_star_class.
      destruct (star_results_head isdigit (a :: t') c) as [o ->].
      rewrite <- Hrest, drop_while_idem, Hrest. by eexists.
Qed.

Lemma match_here_decimal t :
  match_here Clean.gpa_re t
  = match t with
    | a :: _ =>
        if isdigit a
        then Some (decimal_rest t, [(1, decimal_prefix t)])
        else None
    | [] => None
    end.
Proof.
  unfold match_here, Clean.gpa_re.
  rewrite rmatch_grp, rmatch_seq.
  change (Plus digit) with (Plus (Cls isdigit)). rewrite rmatch_plus_class.
  destruct t as [|a t]; [reflexivity|].
  destruct (isdigit a) eqn:Ha; [|reflexivity].
  destruct (star_results_head isdigit t []) as [others ->].
  assert (Hrest : drop_while isdigit t = drop_while isdigit (a :: t)).
  { simpl. by rewrite Ha. }
  destruct (rmatch_point_digits (a :: t) []) as [others' Hinner].
  rewrite <- Hrest in Hinner.
  cbn [flat_map]. rewrite Hinner.
  cbn [app map head]. f_equal. f_equal. f_equal. f_equal.
  apply firstn_split, decimal_split.
Qed.

Lemma search_decimal t :
  search Clean.gpa_re t
  = option_map (fun num => [(1, num)]) (first_decimal t).
Proof.
  induction t as [|a t IH].
  - reflexivity.
  - cbn [search first_decimal]. rewrite match_here_decimal.
    destruct (isdigit a); [reflexivity|exact IH].
Qed.

End ReFacts.

(** ** Facts about the floats *)

Module FloatFacts.
Import PyStr PyFloat FloatSpec.
Local Open Scope Z_scope.


Lemma digits2_size p : digits2_pos p = Pos.size p.
Proof. induction p; simpl; congruence. Qed.

Lemma digits_gt p : Zpos p < 2 ^ Zpos (digits2_pos p).
Proof.
  rewrite digits2_size.
  pose proof (Pos.size_gt p) as H.
  apply Pos2Z.pos_lt_pos in H. by rewrite Pos2Z.inj_pow in H.
Qed.

Lemma digits_le p : 2 ^ (Zpos (digits2_pos p) - 1) <= Zpos p.
Proof.
  rewrite digits2_size.
  pose proof (Pos.size_le p) as H.
  apply Pos2Z.pos_le_pos in H. rewrite Pos2Z.inj_pow in H.
  replace (Zpos (Pos.size p)) with (1 + (Zpos (Pos.size p) - 1)) in H by lia.
  rewrite Z.pow_add_r in H by lia.
  change (2 ^ 1) with 2 in H. lia.
Qed.

(** [Zdigits2 m] bounds a non-negative [m]. *)
Lemma Zdigits2_gt m : 0 <= m -> m < 2 ^ Zdigits2 m.
Proof.
  destruct m as [|p|p]; intros Hm; [by vm_compute| |lia].
  apply digits_gt.
Qed.

Lemma Zdigits2_nonneg m : 0 <= Zdigits2 m.
Proof. destruct m; simpl; lia. Qed.

Lemma Zdigits2_le_of_lt m k : 0 <= m -> 0 <= k -> m < 2 ^ k -> Zdigits2 m <= k.
Proof.
  destruct m as [|p|p]; intros Hm Hk Hlt; simpl; [lia| |lia].
  pose proof (digits_le p) as Hle.
  destruct (Z_le_gt_dec (Zpos (digits2_pos p)) k) as [|Hgt]; [done|].
  assert (2 ^ k <= 2 ^ (Zpos (digits2_pos p) - 1))
    by (apply Z.pow_le_mono_r; lia).
  lia.
Qed.

(** *** Shifting a mantissa to the right *)

Lemma shr_1_div mrs : 0 <= shr_m mrs -> shr_m (shr_1 mrs) = shr_m mrs / 2.
Proof.
  destruct mrs as [m r s]. simpl. intros Hm.
  destruct m as [|[p|p|]|p]; try lia; simpl;
    rewrite <- ?Z.div2_div; reflexivity.
Qed.

Lemma div_pow2_nonneg m p : 0 <= m -> 0 <= m / 2 ^ Zpos p.
Proof.
  intros Hm. apply Z.div_pos; [done|]. apply Z.pow_pos_nonneg; lia.
Qed.

Lemma pow2_xO p : 2 ^ Zpos p~0 = 2 ^ Zpos p * 2 ^ Zpos p.
Proof.
  replace (Zpos p~0) with (Zpos p + Zpos p) by lia. apply Z.pow_add_r; lia.
Qed.

Lemma pow2_xI p : 2 ^ Zpos p~1 = 2 * (2 ^ Zpos p * 2 ^ Zpos p).
Proof.
  replace (Zpos p~1) with (1 + (Zpos p + Zpos p)) by lia.
  rewrite !Z.pow_add_r by lia. reflexivity.
Qed.

Lemma iter_shr_div p : forall mrs,
  0 <= shr_m mrs ->
  shr_m (SpecFloat.iter_pos shr_1 p mrs) = shr_m mrs / 2 ^ Zpos p.
Proof.
  induction p as [p IH|p IH|]; intros mrs Hm; simpl;
    try (assert (Hpos : 0 < 2 ^ Zpos p) by (apply Z.pow_pos_nonneg; lia)).
  - assert (H1 : 0 <= shr_m (shr_1 mrs)).
    { rewrite shr_1_div by done. apply Z.div_pos; lia. }
    assert (H2 : 0 <= shr_m (SpecFloat.iter_pos shr_1 p (shr_1 mrs))).
    { rewrite IH by done. by apply div_pow2_nonneg. }
    rewrite IH, IH, shr_1_div by done.
    rewrite !Z.div_div by lia.
    f_equal. rewrite pow2_xI. lia.
  - assert (H2 : 0 <= shr_m (SpecFloat.iter_pos shr_1 p mrs)).
    { rewrite IH by done. by apply div_pow2_nonneg. }
    rewrite IH, IH by done.
    rewrite Z.div_div by lia.
    f_equal. by rewrite pow2_xO.
  - rewrite shr_1_div by done. reflexivity.
Qed.

Lemma shr_m_of_loc m l : shr_m (shr_record_of_loc m l) = m.
Proof. by destruct l as [|[]]. Qed.

Lemma shr_spec m l e n mrs e' :
  0 <= m ->
  shr (shr_record_of_loc m l) e n = (mrs, e') ->
  shr_m mrs = m / 2 ^ Z.max n 0 /\ e' = e + Z.max n 0.
Proof.
  intros Hm. unfold shr. destruct n as [|p|p]; intros [= <- <-].
  - rewrite shr_m_of_loc. simpl. rewrite Z.div_1_r. lia.
  - rewrite iter_shr_div by (by rewrite shr_m_of_loc).
    rewrite shr_m_of_loc. by rewrite Z.max_l by lia.
  - rewrite shr_m_of_loc. simpl. rewrite Z.div_1_r. lia.
Qed.


(** *** Rounding to binary64 *)

Lemma fexp_eq x : fexp prec emax x = Z.max (x - 53) (-1074).
Proof. reflexivity. Qed.

Lemma shr_fexp_spec m e l mrs e' :
  0 <= m ->
  shr_fexp prec emax m e l = (mrs, e') ->
  0 <= shr_m mrs < 2 ^ 53
  /\ e' = Z.max e (fexp prec emax (Zdigits2 m + e))
  /\ shr_m mrs * 2 ^ (e' - e) <= m.
Proof.
  intros Hm Hshr. unfold shr_fexp in Hshr.
  apply shr_spec in Hshr as [Hmrs He']; [|done].
  set (n := fexp prec emax (Zdigits2 m + e) - e) in *.
  set (k := Z.max n 0) in *.
  assert (Hk : 0 <= k) by lia.
  assert (Hpow : 0 < 2 ^ k) by (apply Z.pow_pos_nonneg; lia).
  assert (Hd : Zdigits2 m <= 53 + k).
  { unfold k, n. rewrite fexp_eq. lia. }
  pose proof (Zdigits2_gt m Hm) as Hlt.
  pose proof (Zdigits2_nonneg m) as Hdn.
  assert (Hle : 2 ^ Zdigits2 m <= 2 ^ (53 + k))
    by (apply Z.pow_le_mono_r; lia).
  rewrite Z.pow_add_r in Hle by lia.
  rewrite Hmrs. repeat split.
  - apply Z.div_pos; lia.
  - apply Z.div_lt_upper_bound; lia.
  - lia.
  - replace (e' - e) with k by lia. rewrite Z.mul_comm.
    apply Z.mul_div_le. lia.
Qed.

Lemma rne_bounds m l :
  m <= round_nearest_even m l <= m + 1.
Proof.
  unfold round_nearest_even.
  destruct l as [|[]]; try destruct (Z.even m); lia.
Qed.

(** What [binary_round_aux] returns for a non-negative mantissa: never a
    NaN; a finite result has a mantissa of at most 53 bits, an exponent at
    most one above the exponent [e1] of the first shift, and a value at
    most one unit of [e1] above the value it rounds. *)
Lemma binary_round_aux_spec sx mx ex lx :
  0 <= mx ->
  let e1 := Z.max ex (fexp prec emax (Zdigits2 mx + ex)) in
  match binary_round_aux prec emax sx mx ex lx with
  | S754_zero s => s = sx
  | S754_infinity s => s = sx /\ 971 < e1 + 1
  | S754_nan => False
  | S754_finite s m e =>
      s = sx /\ Zpos m < 2 ^ 53 /\ e1 <= e <= e1 + 1 /\ e <= 971
      /\ Zpos m * 2 ^ (e - ex) <= mx + 2 ^ (e1 - ex)
  end.
Proof.
  intros Hmx e1. unfold binary_round_aux.
  destruct (shr_fexp prec emax mx ex lx) as [mrs1 e1'] eqn:H1.
  apply shr_fexp_spec in H1 as (Hm1 & He1 & Hv1); [|done].
  fold e1 in He1. subst e1'.
  set (m1 := shr_m mrs1) in *.
  pose proof (rne_bounds m1 (loc_of_shr_record mrs1)) as Hrne.
  set (m1' := round_nearest_even m1 (loc_of_shr_record mrs1)) in *.
  destruct (shr_fexp prec emax m1' e1 loc_Exact) as [mrs2 e2] eqn:H2.
  apply shr_fexp_spec in H2 as (Hm2 & He2 & Hv2); [|lia].
  set (m2 := shr_m mrs2) in *.
  assert (Hd' : Zdigits2 m1' <= 54).
  { apply Zdigits2_le_of_lt; [lia|lia|].
    change (2 ^ 54) with (2 * 2 ^ 53). lia. }
  pose proof (Zdigits2_nonneg m1') as Hd0.
  assert (Hmin : -1074 <= e1) by (unfold e1; rewrite fexp_eq; lia).
  rewrite fexp_eq in He2.
  assert (He12 : e1 <= e2 <= e1 + 1) by lia.
  assert (Hex : ex <= e1) by (unfold e1; lia).
  assert (Hchain : m2 * 2 ^ (e2 - ex) <= mx + 2 ^ (e1 - ex)).
  { replace (e2 - ex) with ((e2 - e1) + (e1 - ex)) by lia.
    rewrite Z.pow_add_r by lia.
    assert (0 < 2 ^ (e1 - ex)) by (apply Z.pow_pos_nonneg; lia).
    assert (0 <= 2 ^ (e2 - e1)) by (apply Z.pow_nonneg; lia).
    nia. }
  destruct m2 as [|p|p] eqn:Hm2eq; [done| |lia].
  destruct (Z.leb_spec e2 (emax - prec)) as [Hle|Hgt].
  - repeat split; try lia. change (emax - prec) with 971 in Hle. lia.
  - change (emax - prec) with 971 in Hgt. split; [done|]. lia.
Qed.



(** *** Division *)

Lemma div_core_spec m1 e1 m2 e2 :
  0 < m1 -> 0 < m2 ->
  let e' := Z.min (fexp prec emax (Zdigits2 m1 + e1 - (Zdigits2 m2 + e2)))
                  (e1 - e2) in
  exists l,
    SFdiv_core_binary prec emax m1 e1 m2 e2
    = (m1 * 2 ^ (e1 - e2 - e') / m2, e', l).
Proof.
  intros Hm1 Hm2 e'. unfold SFdiv_core_binary. fold e'.
  set (s := e1 - e2 - e').
  assert (Hs : 0 <= s) by (unfold s, e'; lia).
  assert (Hm' : match s with
                | Zpos _ => Z.shiftl m1 s
                | Z0 => m1
                | Zneg _ => 0
                end = m1 * 2 ^ s).
  { destruct s as [|p|p] eqn:Hseq; [simpl; lia| |lia].
    by rewrite Z.shiftl_mul_pow2 by lia. }
  rewrite Hm'.
  destruct (Z.div_eucl (m1 * 2 ^ s) m2) as [q r] eqn:Hqr.
  exists (new_location m2 r). f_equal. f_equal.
  unfold Z.div. by rewrite Hqr.
Qed.

(** A float read from a decimal literal is plain. *)
Lemma of_decimal_plain num k : plain (of_decimal num k).
Proof.
  unfold of_decimal. destruct num as [|p|p]; [done| |done].
  unfold SFdiv.
  set (q := Z.to_pos (10 ^ Z.of_nat k)).
  destruct (div_core_spec (Zpos p) 0 (Zpos q) 0) as [l ->]; [lia|lia|].
  match goal with |- plain (binary_round_aux _ _ _ ?mz ?ez ?lz) =>
    assert (Hmz : 0 <= mz) by (apply Z.div_pos; [|lia];
      apply Z.mul_nonneg_nonneg; [lia|apply Z.pow_nonneg; lia]);
    pose proof (binary_round_aux_spec false mz ez lz Hmz) as Hspec;
    destruct (binary_round_aux prec emax (xorb false false) mz ez lz)
      eqn:Hr
  end; simpl in *; change (xorb false false) with false in Hr;
    rewrite Hr in Hspec; tauto.
Qed.

Lemma float_of_str_plain t x : float_of_str t = Some x -> plain x.
Proof.
  unfold float_of_str.
  destruct (span_digits t) as [ip rest].
  destruct rest as [|c rest'].
  - destruct ip; [done|]. intros [= <-]. apply of_decimal_plain.
  - destruct (span_digits rest') as [fp rest''].
    destruct (Ascii.eqb c "."); [|done].
    destruct rest''; [|done].
    destruct (ip ++ fp)%list; [done|].
    intros [= <-]. destruct fp; apply of_decimal_plain.
Qed.

(** *** Comparison *)

Lemma leb_finite m e cm ce :
  leb (S754_finite false m e) (S754_finite false cm ce) = true ->
  e < ce \/ (e = ce /\ Zpos m <= Zpos cm).
Proof.
  unfold leb, SFleb, SFcompare.
  destruct (Z.compare_spec e ce) as [->|Hlt|Hgt]; [|auto|done].
  rewrite Pos.compare_cont_spec. simpl.
  destruct (Pos.compare_spec m cm); intros Hc; try done; right; lia.
Qed.

Lemma ltb_finite m e cm ce :
  ltb (S754_finite false cm ce) (S754_finite false m e) = true ->
  ce < e \/ (e = ce /\ Zpos cm < Zpos m).
Proof.
  unfold ltb, SFltb, SFcompare.
  destruct (Z.compare_spec ce e) as [->|Hlt|Hgt]; [|auto|done].
  rewrite Pos.compare_cont_spec. simpl.
  destruct (Pos.compare_spec cm m); intros Hc; try done; right; lia.
Qed.

(** *** Formatting *)

Lemma round_scaled_bounds m e k N :
  e < 0 ->
  2 * (Zpos m * 10 ^ Z.of_nat k) < (2 * N + 1) * 2 ^ (- e) ->
  0 <= round_scaled m e k <= N.
Proof.
  intros He Hlt. unfold round_scaled.
  destruct e as [|p|p]; [lia|lia|].
  change (- Zneg p) with (Zpos p) in Hlt.
  set (n := Zpos m * 10 ^ Z.of_nat k) in *.
  assert (Hn : 0 <= n).
  { unfold n. apply Z.mul_nonneg_nonneg; [lia|]. apply Z.pow_nonneg. lia. }
  set (dv := 2 ^ Zpos p) in *.
  assert (Hdv : 0 < dv) by (apply Z.pow_pos_nonneg; lia).
  pose proof (Z.div_mod n dv ltac:(lia)) as Hdm.
  pose proof (Z.mod_pos_bound n dv Hdv) as Hr.
  assert (Hq : 0 <= n / dv) by (apply Z.div_pos; lia).
  set (q := n / dv) in *. set (r := n mod dv) in *.
  destruct (Z.ltb_spec (2 * r) dv); [nia|].
  destruct (Z.ltb_spec dv (2 * r)); [nia|].
  destruct (Z.even q); nia.
Qed.



Lemma format_fixed_finite k m e :
  format_fixed k (S754_finite false m e) = fixed_of k (round_scaled m e k).
Proof. reflexivity. Qed.

(** A float at most [cm * 2^-50] prints as at most [N / 10^k]. *)
Lemma format_below k N cm m e :
  Zpos m < 2 ^ 53 ->
  leb (S754_finite false m e) (S754_finite false cm (-50)) = true ->
  2 * (Zpos cm * 10 ^ Z.of_nat k) < (2 * N + 1) * 2 ^ 50 ->
  2 * (2 ^ 53 * 10 ^ Z.of_nat k) <= (2 * N + 1) * 2 ^ 51 ->
  0 <= round_scaled m e k <= N.
Proof.
  intros Hm Hle Hc Hmax.
  assert (Hk : 0 < 10 ^ Z.of_nat k) by (apply Z.pow_pos_nonneg; lia).
  apply leb_finite in Hle as [He|[-> Hmc]].
  - apply round_scaled_bounds; [lia|].
    assert (Hp : 2 ^ 51 <= 2 ^ (- e)) by (apply Z.pow_le_mono_r; lia).
    nia.
  - apply round_scaled_bounds; [lia|].
    change (2 ^ (- -50)) with (2 ^ 50). nia.
Qed.

(** The rescaling [value / 10 * 4] of a float in (4, 10] prints as at
    most 4.00. *)
Lemma rescaled_below m e :
  Zpos m < 2 ^ 53 ->
  ltb (of_Z 4) (S754_finite false m e) = true ->
  leb (S754_finite false m e) (of_Z 10) = true ->
  match mul (div (S754_finite false m e) (of_Z 10)) (of_Z 4) with
  | S754_zero s => s = false
  | S754_finite s mc ec => s = false /\ 0 <= round_scaled mc ec 2 <= 400
  | _ => False
  end.
Proof.
  intros Hm Hgt Hle.
  change (of_Z 4) with (S754_finite false 4503599627370496 (-50)) in *.
  change (of_Z 10) with (S754_finite false 5629499534213120 (-49)) in *.
  apply ltb_finite in Hgt. apply leb_finite in Hle.
  set (T := 5629499534213120) in *.
  assert (He : (e = -50 /\ Zpos m <= 2 * T) \/ (e = -49 /\ Zpos m <= T)).
  { unfold T. lia. }
  clear Hgt Hle.
  (* the division *)
  unfold div, SFdiv.
  destruct (div_core_spec (Zpos m) e T (-49)) as [l Hcore]; [lia|done|].
  change (Zpos 5629499534213120) with T. rewrite Hcore. clear Hcore.
  set (d1 := Zdigits2 (Zpos m)) in *.
  assert (Hd1 : 1 <= d1 <= 53).
  { split; [unfold d1; simpl; lia|].
    apply Zdigits2_le_of_lt; lia. }
  change (Zdigits2 T) with 53.
  set (e0 := Z.min (fexp prec emax (d1 + e - (53 + -49))) (e - -49)).
  assert (He0 : e0 = d1 + e - 57) by (unfold e0; rewrite fexp_eq; lia).
  set (s := e - -49 - e0). assert (Hs : s = 106 - d1) by lia.
  set (X := 2 ^ s).
  assert (HX : 0 < X) by (apply Z.pow_pos_nonneg; lia).
  set (q := Zpos m * X / T).
  assert (Hq0 : 0 <= q) by (apply Z.div_pos; [nia|done]).
  assert (HqT : q * T <= Zpos m * X).
  { unfold q. rewrite Z.mul_comm. apply Z.mul_div_le. done. }
  assert (HmX : Zpos m * X < 2 ^ 106).
  { pose proof (Zdigits2_gt (Zpos m) ltac:(lia)) as Hlt. fold d1 in Hlt.
    replace 106 with (d1 + s) by lia. rewrite Z.pow_add_r by lia.
    fold X. nia. }
  assert (Hq54 : q < 2 ^ 54).
  { change (2 ^ 106) with (2 ^ 54 * 4503599627370496) in HmX.
    unfold T in HqT. nia. }
  set (B := 2 ^ (- e0)).
  assert (HB : 2 ^ 53 <= B).
  { unfold B. apply Z.pow_le_mono_r; lia. }
  assert (HqB : q <= B).
  { destruct He as [[-> Hm2]|[-> Hm1]].
    - assert (B = 2 * X) as ->.
      { unfold B, X. replace (- e0) with (1 + s) by lia.
        rewrite Z.pow_add_r by lia. reflexivity. }
      nia.
    - assert (B = X) as -> by (unfold B, X; f_equal; lia).
      nia. }
  pose proof (binary_round_aux_spec false q e0 l Hq0) as Hw.
  cbv zeta in Hw.
  assert (Hdq : Zdigits2 q <= 54) by (apply Zdigits2_le_of_lt; lia).
  pose proof (Zdigits2_nonneg q) as Hdq0.
  set (e1q := Z.max e0 (fexp prec emax (Zdigits2 q + e0))) in *.
  assert (He1q : e0 <= e1q <= e0 + 1).
  { unfold e1q. rewrite fexp_eq. lia. }
  change (xorb false false) with false.
  destruct (binary_round_aux prec emax false q e0 l) as [sw|sw| |sw mw ew];
    [by subst|lia|done|].
  destruct Hw as (-> & Hmw & Hew & _ & Hvw).
  (* the multiplication *)
  unfold mul, SFmul. change (xorb false false) with false.
  set (M := Zpos (mw * 4503599627370496)).
  assert (HM : M = Zpos mw * 2 ^ 52) by reflexivity.
  set (E := ew + -50).
  pose proof (binary_round_aux_spec false M E loc_Exact ltac:(lia)) as Hc.
  cbv zeta in Hc.
  assert (HdM : Zdigits2 M <= 105).
  { apply Zdigits2_le_of_lt; [lia|lia|].
    change (2 ^ 105) with (2 ^ 53 * 2 ^ 52). nia. }
  pose proof (Zdigits2_nonneg M) as HdM0.
  set (e1c := Z.max E (fexp prec emax (Zdigits2 M + E))) in *.
  assert (He1c : E <= e1c <= E + 52).
  { unfold e1c. rewrite fexp_eq. lia. }
  destruct (binary_round_aux prec emax false M E loc_Exact)
    as [sc|sc| |sc mc ec]; [by subst|lia|done|].
  destruct Hc as (-> & Hmc & Hec & _ & Hvc).
  split; [done|].
  apply round_scaled_bounds; [lia|].
  change (10 ^ Z.of_nat 2) with 100.
  (* all the powers in terms of [B] *)
  set (b := ew - e0) in *. set (a := ec - E) in *.
  assert (Hb : 0 <= b <= 2) by lia.
  assert (Ha : 0 <= a) by lia.
  assert (HBb : 1 <= 2 ^ b <= 4).
  { split; [apply (Z.pow_le_mono_r 2 0 b); lia|].
    apply (Z.pow_le_mono_r 2 b 2); lia. }
  assert (H2e1q : 2 ^ (e1q - e0) <= 2).
  { apply (Z.pow_le_mono_r 2 (e1q - e0) 1); lia. }
  assert (H2e1c : 2 ^ (e1c - E) <= 2 ^ 52).
  { apply Z.pow_le_mono_r; lia. }
  assert (HA : 0 < 2 ^ a) by (apply Z.pow_pos_nonneg; lia).
  assert (HD : 2 ^ (- ec) * (2 ^ a * 2 ^ b) = 2 ^ 50 * B).
  { unfold B. rewrite <- !Z.pow_add_r by lia. f_equal. lia. }
  set (D := 2 ^ (- ec)) in *. set (A := 2 ^ a) in *. set (Bb := 2 ^ b) in *.
  assert (HD0 : 0 < D) by (apply Z.pow_pos_nonneg; lia).
  assert (H1 : Zpos mc * A <= (Zpos mw + 1) * 2 ^ 52) by nia.
  assert (H2 : Zpos mw * Bb <= B + 2) by lia.
  assert (H3 : 200 * (Zpos mc * A * Bb) <= 200 * 2 ^ 52 * (B + 6)) by nia.
  assert (H4 : 200 * 2 ^ 52 * (B + 6) < 801 * (2 ^ 50 * B)) by lia.
  assert (H5 : 200 * Zpos mc * (A * Bb) < 801 * D * (A * Bb)) by nia.
  assert (H6 : 0 < A * Bb) by nia.
  apply Z.mul_lt_mono_pos_r in H5; lia.
Qed.

End FloatFacts.

(** ** [_standardize_decision_status] *)

Module StatusFacts.
Import PyStr Clean StatusSpec StrFacts.
Local Open Scope string_scope.
Local Open Scope list_scope.

Lemma any_in_strip words t :
  forallb (fun word : string => solid word) words = true ->
  any_in words (strip t) = any_in words t.
Proof.
  unfold any_in. induction words as [|word words IH]; [reflexivity|].
  simpl. intros [Hword Hwords]%andb_true_iff.
  by rewrite contains_strip, IH.
Qed.

Lemma standardize_keywords status :
  status <> [] ->
  _standardize_decision_status status
  = default (title (strip (lower status))) (keyword_label (lower status)).
Proof.
  intros Hne. unfold _standardize_decision_status, keyword_label.
  destruct status as [|c status]; [done|]. cbn [length Nat.eqb].
  rewrite !any_in_strip by reflexivity. unfold any_in. cbn [existsb].
  rewrite !orb_false_r.
  repeat match goal with
         | |- context [if ?b then _ else _] => destruct b; simpl; try done
         end.
Qed.

(** C7, as the specification states it, fails on an input with leading
    whitespace: the code title-cases the stripped text. *)
Lemma standardize_as_stated_fails :
  _standardize_decision_status " foo" = ("Foo" : pystr)
  /\ standardize_as_stated " foo" = (" Foo" : pystr)
  /\ _standardize_decision_status " foo" <> standardize_as_stated " foo".
Proof. vm_compute. repeat split. discriminate. Qed.

(** C7, amended: the keyword classes are looked for, in order, in the
    lower-cased input, and the fallback is the title-cased form of the
    lower-cased input without its leading and trailing whitespace. *)
Theorem standardize_decision_status_spec (status : pystr) :
  _standardize_decision_status status = standardize_stripped status
  /\ _standardize_decision_status "accepted" = ("Accepted" : pystr)
  /\ _standardize_decision_status "wait listed" = ("Waitlisted" : pystr)
  /\ _standardize_decision_status "foo" = ("Foo" : pystr).
Proof.
  split; [|by vm_compute].
  destruct status as [|c status]; [reflexivity|].
  rewrite standardize_keywords by done.
  reflexivity.
Qed.

End StatusFacts.

(** ** [_clean_text] and [_clean_gpa] *)

Module TextFacts.
Import PyStr Re Clean ScanSpec GpaSpec StrFacts ReFacts.
Local Open Scope string_scope.
Local Open Scope list_scope.

(** What [_clean_text] returns holds only characters of the kept set. *)
Lemma clean_text_kept t : forallb kept (_clean_text t) = true.
Proof.
  unfold _clean_text. destruct (_ || _); [reflexivity|].
  unfold special_re. rewrite sub_class.
  apply forallb_forall. intros a [_ Ha]%filter_In.
  by rewrite negb_involutive in Ha.
Qed.

(** C9: after the whitespace is collapsed and the ends are stripped, the
    removal of the special characters brings whitespace together again,
    and to the ends. *)
Theorem clean_text_leaves_whitespace :
  _clean_text "a @ b" = ("a  b" : pystr)
  /\ _clean_text "@ a" = (" a" : pystr)
  /\ _clean_text "a @" = ("a " : pystr).
Proof. by vm_compute. Qed.

Lemma span_digits_spec t :
  PyFloat.span_digits t = (take_while isdigit t, drop_while isdigit t).
Proof.
  induction t as [|a t IH]; [reflexivity|]. simpl.
  destruct (isdigit a); [by rewrite IH|reflexivity].
Qed.

Lemma take_while_all p t : drop_while p (take_while p t) = [].
Proof.
  induction t as [|a t IH]; [reflexivity|]. simpl.
  destruct (p a) eqn:Ha; [|reflexivity]. simpl. by rewrite Ha.
Qed.

Lemma take_while_idem p t : take_while p (take_while p t) = take_while p t.
Proof.
  induction t as [|a t IH]; [reflexivity|]. simpl.
  destruct (p a) eqn:Ha; [|reflexivity]. simpl. by rewrite Ha, IH.
Qed.

Lemma take_while_app_stop p t a t' :
  p a = false -> take_while p (take_while p t ++ a :: t') = take_while p t.
Proof.
  intros Ha. induction t as [|b t IH]; simpl; [by rewrite Ha|].
  destruct (p b) eqn:Hb; simpl; [by rewrite Hb, IH|by rewrite Ha].
Qed.

Lemma drop_while_app_stop p t a t' :
  p a = false -> drop_while p (take_while p t ++ a :: t') = a :: t'.
Proof.
  intros Ha. induction t as [|b t IH]; simpl; [by rewrite Ha|].
  destruct (p b) eqn:Hb; simpl; [by rewrite Hb, IH|by rewrite Ha].
Qed.

(** The number the pattern extracts is always a literal [float] accepts:
    the [ValueError] handler of the parsers is never entered. *)
Lemma float_of_first_decimal t num :
  first_decimal t = Some num -> is_Some (PyFloat.float_of_str num).
Proof.
  induction t as [|a t IH]; [done|]. cbn [first_decimal].
  destruct (isdigit a) eqn:Ha; [|exact IH]. intros [= <-].
  unfold PyFloat.float_of_str, decimal_prefix.
  set (u := a :: t).
  assert (Hip : exists ip, take_while isdigit u = a :: ip).
  { unfold u. simpl. rewrite Ha. by eexists. }
  destruct Hip as [ip Hip].
  destruct (drop_while isdigit u) as [|b rest] eqn:Hrest.
  - rewrite app_nil_r, span_digits_spec, take_while_all, take_while_idem.
    rewrite Hip. by eexists.
  - pose proof (drop_while_head _ _ _ _ Hrest) as Hb.
    destruct (Ascii.eqb_spec "." b) as [<-|Hne].
    + rewrite span_digits_spec, take_while_app_stop, drop_while_app_stop
        by done.
      rewrite span_digits_spec, take_while_all, take_while_idem.
      rewrite Ascii.eqb_refl, Hip. simpl. by eexists.
    + rewrite app_nil_r, span_digits_spec, take_while_all, take_while_idem.
      rewrite Hip. by eexists.
Qed.

Lemma clean_gpa_first_decimal t :
  _clean_gpa t = gpa_of_text (_clean_text t).
Proof.
  unfold _clean_gpa, gpa_of_text, gpa_of_number.
  destruct t as [|a t]; [reflexivity|]. cbn [length Nat.eqb].
  rewrite search_decimal.
  by destruct (first_decimal _).
Qed.

(** C4, as the specification states it, fails when text cleaning changes
    the digits: the number is looked for in the cleaned text. *)
Lemma gpa_of_input_text_fails :
  _clean_gpa "3@5" = ([] : pystr)
  /\ gpa_of_text "3@5" = ("3.00" : pystr)
  /\ _clean_gpa "3@5" <> gpa_of_text "3@5".
Proof. by vm_compute. Qed.

(** C4, amended: the GPA is that of the first decimal number of the input
    after text cleaning. *)
Theorem clean_gpa_spec (gpa_str : pystr) :
  _clean_gpa gpa_str = gpa_of_text (_clean_text gpa_str)
  /\ _clean_gpa "3.75" = ("3.75" : pystr)
  /\ _clean_gpa "8.0" = ("3.20" : pystr)
  /\ _clean_gpa "11" = ([] : pystr).
Proof. split; [apply clean_gpa_first_decimal|by vm_compute]. Qed.

End TextFacts.

(** ** The admission rule of [clean_entry] *)

Module AdmissionFacts.
Import PyStr Re Py Clean AdmissionSpec StrFacts.
Local Open Scope string_scope.
Local Open Scope list_scope.

Lemma str_eqb_spec s t : str_eqb s t = true <-> s = t.
Proof.
  unfold str_eqb. rewrite andb_true_iff, Nat.eqb_eq, startswith_spec. split.
  - intros [Hlen [after ->]]. rewrite length_app in Hlen.
    destruct after; [by rewrite app_nil_r|simpl in Hlen; lia].
  - intros ->. split; [done|]. exists []. by rewrite app_nil_r.
Qed.

Lemma blank_spec t :
  (length t =? 0)%nat || str_eqb (strip t) "" = true <-> strip t = [].
Proof.
  rewrite orb_true_iff, Nat.eqb_eq, str_eqb_spec. split; [|auto].
  intros [Hlen|H]; [|done]. by destruct t.
Qed.

Lemma get_as_raw r k : get (as_raw r) k = PStr (text_of r k).
Proof.
  unfold get, as_raw, text_of. rewrite lookup_fmap.
  by destruct (r !! k).
Qed.

Lemma quant_fragment_as_raw r :
  quant_fragment (as_raw r) = Ok (quant_of (text_of r "gre_score")).
Proof.
  unfold quant_fragment, quant_of. rewrite get_as_raw. simpl.
  by destruct (contains _ _).
Qed.

Lemma clean_entry_as_raw r :
  exists c,
    c !! "university" = Some (PStr (_clean_text (text_of r "university")))
    /\ c !! "program_name" = Some (PStr (_clean_text (text_of r "program_name")))
    /\ clean_entry_try (as_raw r)
       = (valid ← _validate_entry c; if valid : bool then Ok (Some c) else Ok None).
Proof.
  unfold clean_entry_try. rewrite !get_as_raw, quant_fragment_as_raw.
  cbn [dyn mbind exc_bind].
  eexists. split; [|split; [|reflexivity]].
  - rewrite !lookup_insert_ne by discriminate. apply lookup_insert_eq.
  - rewrite !lookup_insert_ne by discriminate. apply lookup_insert_eq.
Qed.

Lemma validate_strings (c : dict) u p :
  c !! "university" = Some (PStr u) ->
  c !! "program_name" = Some (PStr p) ->
  _validate_entry c
  = Ok (negb ((length u =? 0)%nat || str_eqb (strip u) "")
        && negb ((length p =? 0)%nat || str_eqb (strip p) "")).
Proof.
  intros Hu Hp. unfold _validate_entry, field_missing. rewrite Hu, Hp.
  cbn [dyn mbind exc_bind].
  destruct ((length u =? 0)%nat || str_eqb (strip u) ""); [reflexivity|].
  by destruct ((length p =? 0)%nat || str_eqb (strip p) "").
Qed.

Lemma clean_entry_strings r :
  (is_Some (clean_entry (as_raw r)) <-> admitted r)
  /\ forall c, clean_entry (as_raw r) = Some c ->
       c !! "university" = Some (PStr (_clean_text (text_of r "university")))
       /\ c !! "program_name"
          = Some (PStr (_clean_text (text_of r "program_name"))).
Proof.
  destruct (clean_entry_as_raw r) as (c & Hu & Hp & Htry).
  unfold clean_entry, admitted. rewrite Htry, (validate_strings c _ _ Hu Hp).
  cbn [mbind exc_bind].
  destruct (_ || _) eqn:Hbu; simpl.
  - apply blank_spec in Hbu. split; [|done].
    split; [by intros [? ?]|]. intros [? _]. done.
  - destruct (_ || _) eqn:Hbp in |- *; simpl.
    + apply blank_spec in Hbp. split; [|done].
      split; [by intros [? ?]|]. intros [_ ?]. done.
    + split.
      * split; [|eauto]. intros _.
        split; intros H%blank_spec;
          change (list_ascii_of_string "") with (@nil ascii) in *; congruence.
      * intros c' [= <-]. done.
Qed.

(** Whatever [clean_entry] returns has the sixteen keys. *)
Lemma clean_entry_kept entry c :
  clean_entry entry = Some c -> is_kept (Some c) = true.
Proof.
  unfold clean_entry, clean_entry_try.
  repeat match goal with
         | |- context [mbind _ ?m] =>
             destruct m; cbn [mbind exc_bind]; [|discriminate]
         end.
  match goal with |- context [if ?b then _ else _] => destruct b end;
    [|discriminate].
  intros [= <-]. unfold is_kept.
  apply negb_true_iff, Nat.eqb_neq. intros Hsz%map_size_empty_inv.
  apply (f_equal (fun m : dict => m !! "degree_type")) in Hsz.
  rewrite lookup_insert_eq, lookup_empty in Hsz. discriminate.
Qed.

Lemma clean_step_data self entry :
  cleaned_data (clean_step self entry)
  = cleaned_data self ++ option_list (clean_entry entry).
Proof.
  unfold clean_step. destruct (clean_entry entry) as [c|] eqn:Hc.
  - rewrite (clean_entry_kept _ _ Hc). reflexivity.
  - simpl. by rewrite app_nil_r.
Qed.

Lemma fold_clean_step_data raw_data : forall self,
  cleaned_data (fold_left clean_step raw_data self)
  = cleaned_data self ++ omap clean_entry raw_data.
Proof.
  induction raw_data as [|entry raw_data IH]; intros self; simpl.
  - by rewrite app_nil_r.
  - rewrite IH, clean_step_data, <- app_assoc. f_equal.
    by destruct (clean_entry entry).
Qed.

(** [clean_data] returns the cleaned records of the admitted entries, in
    the order of the input. *)
Lemma clean_data_returns self raw_data :
  snd (clean_data self raw_data) = omap clean_entry raw_data.
Proof. unfold clean_data. simpl. apply fold_clean_step_data. Qed.

(** C1, as the specification states it, fails: a university that cleans
    to a single space is not empty, and the record is dropped. *)
Lemma admission_as_stated_fails :
  admitted_as_stated Samples.blank_university
  /\ snd (clean_data __init__ [as_raw Samples.blank_university]) = [].
Proof. split; [split; by vm_compute|by vm_compute]. Qed.

(** C1, amended: on string-valued raw records, [clean_data] returns the
    cleaned records of exactly those inputs whose [university] and
    [program_name], after text cleaning, hold a character that is not
    whitespace; nothing else in the record is looked at. *)
Theorem admission_rule (self : cleaner) (raw_data : list (gmap string pystr)) :
  (forall c, c ∈ snd (clean_data self (as_raw <$> raw_data)) <->
     exists r, r ∈ raw_data /\ clean_entry (as_raw r) = Some c)
  /\ (forall r,
       (is_Some (clean_entry (as_raw r)) <-> admitted r)
       /\ forall c, clean_entry (as_raw r) = Some c ->
            c !! "university"
              = Some (PStr (_clean_text (text_of r "university")))
            /\ c !! "program_name"
              = Some (PStr (_clean_text (text_of r "program_name"))))
  /\ (forall r r',
       text_of r "university" = text_of r' "university" ->
       text_of r "program_name" = text_of r' "program_name" ->
       (is_Some (clean_entry (as_raw r))
        <-> is_Some (clean_entry (as_raw r')))).
Proof.
  split; [|split; [apply clean_entry_strings|]].
  2:{ intros r r' Hu Hp.
      destruct (clean_entry_strings r) as [-> _].
      destruct (clean_entry_strings r') as [-> _].
      unfold admitted. by rewrite Hu, Hp. }
  intros c. rewrite clean_data_returns, list_elem_of_omap. split.
  - intros (e & [r [-> Hr]]%list_elem_of_fmap & Hc). eauto.
  - intros (r & Hr & Hc). exists (as_raw r). split; [|done].
    apply list_elem_of_fmap. eauto.
Qed.

End AdmissionFacts.

(** ** Failures stay within one record *)

Module FailureFacts.
Import PyStr Re Py Clean FailureSpec AdmissionFacts.
Local Open Scope string_scope.
Local Open Scope list_scope.

Lemma clean_step_stats self entry :
  let st := cleaning_stats self in
  let st' := cleaning_stats (clean_step self entry) in
  total_entries st' = total_entries st
  /\ cleaned_entries st'
     = cleaned_entries st + length (option_list (clean_entry entry))
  /\ removed_entries st' + length (option_list (clean_entry entry))
     = removed_entries st + 1.
Proof.
  unfold clean_step. destruct (clean_entry entry) as [c|] eqn:Hc.
  - rewrite (clean_entry_kept _ _ Hc). simpl. lia.
  - simpl. lia.
Qed.

Lemma fold_clean_step_stats raw_data : forall self,
  let st := cleaning_stats self in
  let st' := cleaning_stats (fold_left clean_step raw_data self) in
  total_entries st' = total_entries st
  /\ cleaned_entries st'
     = cleaned_entries st + length (omap clean_entry raw_data)
  /\ removed_entries st' + length (omap clean_entry raw_data)
     = removed_entries st + length raw_data.
Proof.
  induction raw_data as [|entry raw_data IH]; intros self.
  - simpl. lia.
  - assert (Hlen : length (omap clean_entry (entry :: raw_data))
                   = length (option_list (clean_entry entry))
                     + length (omap clean_entry raw_data)).
    { simpl. by destruct (clean_entry entry). }
    cbn [fold_left length]. rewrite Hlen.
    destruct (IH (clean_step self entry)) as (H1 & H2 & H3).
    destruct (clean_step_stats self entry) as (G1 & G2 & G3).
    cbv zeta in *. lia.
Qed.

Lemma stats_after_spec self raw_data :
  total_entries (stats_after self raw_data) = length raw_data
  /\ cleaned_entries (stats_after self raw_data)
     = cleaned_entries (cleaning_stats self)
       + length (omap clean_entry raw_data)
  /\ removed_entries (stats_after self raw_data)
       + length (omap clean_entry raw_data)
     = removed_entries (cleaning_stats self) + length raw_data.
Proof.
  unfold stats_after, clean_data. simpl.
  match goal with |- context [fold_left clean_step raw_data ?s] =>
    destruct (fold_clean_step_stats raw_data s) as (H1 & H2 & H3) end.
  simpl in *. auto.
Qed.

(** C8: when the cleaning of a record raises, [clean_entry] returns
    [None]; [clean_data] then returns what it returns without that record
    and counts it as removed, the other records being cleaned as before.
    A parser applied to a string returns a string, and it returns the
    empty string when [int] or [float] refuses the number. *)
Theorem record_failure_is_contained
    (self : cleaner) (before after : list dict) (bad : dict) (e : exn) :
  clean_entry_try bad = Raise e ->
  clean_entry bad = None
  /\ snd (clean_data self (before ++ bad :: after))
     = snd (clean_data self (before ++ after))
  /\ total_entries (stats_after self (before ++ bad :: after))
     = length (before ++ bad :: after)
  /\ cleaned_entries (stats_after self (before ++ bad :: after))
     = cleaned_entries (stats_after self (before ++ after))
  /\ removed_entries (stats_after self (before ++ bad :: after))
     = S (removed_entries (stats_after self (before ++ after)))
  /\ (forall (parser : pystr -> pystr) (t : pystr),
        dyn parser (PStr t) = Ok (parser t))
  /\ (forall t m,
        search score_re (_clean_text t) = Some m ->
        int_of_str (group 1 m) = None ->
        _clean_gre_score t = [])
  /\ (forall t m,
        search gpa_re (_clean_text t) = Some m ->
        PyFloat.float_of_str (group 1 m) = None ->
        _clean_gpa t = [] /\ _clean_gre_aw t = []).
Proof.
  intros Hraise.
  assert (Hnone : clean_entry bad = None).
  { unfold clean_entry. by rewrite Hraise. }
  assert (Homap : omap clean_entry (before ++ bad :: after)
                  = omap clean_entry (before ++ after)).
  { rewrite !omap_app. simpl. by rewrite Hnone. }
  split; [done|]. split.
  { by rewrite !clean_data_returns. }
  destruct (stats_after_spec self (before ++ bad :: after)) as (T1 & C1 & R1).
  destruct (stats_after_spec self (before ++ after)) as (T2 & C2 & R2).
  rewrite Homap in *. rewrite !length_app in *. simpl in *.
  repeat split; try lia.
  - intros t m Hm Hint. unfold _clean_gre_score.
    destruct t as [|c t]; [reflexivity|]. cbn [length Nat.eqb].
    by rewrite Hm, Hint.
  - unfold _clean_gpa. destruct t as [|c t]; [reflexivity|].
    cbn [length Nat.eqb].
    match goal with
    | Hm : search gpa_re _ = _, Hf : PyFloat.float_of_str _ = _ |- _ =>
        by rewrite Hm, Hf
    end.
  - unfold _clean_gre_aw. destruct t as [|c t]; [reflexivity|].
    cbn [length Nat.eqb].
    match goal with
    | Hm : search gpa_re _ = _, Hf : PyFloat.float_of_str _ = _ |- _ =>
        by rewrite Hm, Hf
    end.
Qed.

Lemma record_failure_is_contained_witness :
  clean_entry_try numeric_gpa_record = Raise AttributeError
  /\ snd (clean_data __init__
            ([Samples.valid_record] ++ numeric_gpa_record
               :: [Samples.valid_record]))
     = snd (clean_data __init__ ([Samples.valid_record] ++ [Samples.valid_record]))
  /\ _clean_gre_score long_score = [].
Proof.
  assert (H : clean_entry_try numeric_gpa_record = Raise AttributeError)
    by (vm_compute; reflexivity).
  destruct (record_failure_is_contained __init__ [Samples.valid_record]
              [Samples.valid_record] numeric_gpa_record AttributeError H)
    as (_ & Hdata & _ & _ & _ & _ & Hint & _).
  split; [exact H|]. split; [exact Hdata|].
  apply (Hint long_score [(1, long_score)]); vm_compute; reflexivity.
Defined.
End FailureFacts.

(** ** The counters of [clean_data] *)

Module CounterFacts.
Import PyStr Re Py Clean CounterSpec.
Local Open Scope string_scope.
Local Open Scope list_scope.

Lemma clean_step_counted self entry :
  counted (cleaning_stats (clean_step self entry))
    = S (counted (cleaning_stats self))
  /\ total_entries (cleaning_stats (clean_step self entry))
    = total_entries (cleaning_stats self).
Proof.
  unfold clean_step, counted.
  destruct (clean_entry entry) as [c|]; [destruct (is_kept (Some c))|];
    simpl; split; lia.
Qed.

Lemma fold_clean_step_counted raw_data : forall self,
  counted (cleaning_stats (fold_left clean_step raw_data self))
    = counted (cleaning_stats self) + length raw_data
  /\ total_entries (cleaning_stats (fold_left clean_step raw_data self))
    = total_entries (cleaning_stats self).
Proof.
  induction raw_data as [|entry raw_data IH]; intros self; simpl.
  - split; lia.
  - destruct (IH (clean_step self entry)) as [-> ->].
    destruct (clean_step_counted self entry) as [-> ->]. split; lia.
Qed.

Lemma clean_data_counted self raw_data :
  let st := cleaning_stats (fst (clean_data self raw_data)) in
  total_entries st = length raw_data
  /\ counted st = counted (cleaning_stats self) + length raw_data.
Proof.
  unfold clean_data; simpl.
  match goal with |- context [fold_left clean_step raw_data ?s] =>
    destruct (fold_clean_step_counted raw_data s) as [H1 H2] end.
  rewrite H1, H2. simpl. split; reflexivity.
Qed.

Lemma clean_data_fresh raw_data :
  let st := cleaning_stats (fst (clean_data __init__ raw_data)) in
  cleaned_entries st + removed_entries st = total_entries st.
Proof.
  destruct (clean_data_counted __init__ raw_data) as [H1 H2].
  simpl in *. unfold counted in H2. simpl in H2. lia.
Qed.

(** C2: the counters account for every record of a run on a new object,
    [clean_data_fresh]; but [clean_data] sets [total_entries] anew and goes
    on adding to [cleaned_entries] and [removed_entries], so that after a
    second run on the same object the two no longer add up to
    [total_entries]. *)
Theorem second_run_breaks_counters :
  let first := fst (clean_data __init__ [Samples.valid_record]) in
  let second := fst (clean_data first [Samples.valid_record]) in
  cleaning_stats first = mkStats 1 1 0
  /\ cleaning_stats second = mkStats 1 2 0
  /\ cleaned_entries (cleaning_stats second)
       + removed_entries (cleaning_stats second)
     <> total_entries (cleaning_stats second).
Proof.
  vm_compute. repeat split; try reflexivity. discriminate.
Qed.
End CounterFacts.

(** ** The row loop of [_scrape_page] *)

Module RowFacts.
Import PyStr Re Py Scrape PageSpec.
Local Open Scope string_scope.
Local Open Scope list_scope.

Section WithUrljoin.
Variable urljoin : pystr -> pystr -> option pystr.

(** A row of at least four cells gives a record exactly when the loop over
    its links ends without [urljoin] raising. *)
Lemma extract_cases row next :
  (4 <=? length (cells row))%nat = true ->
  match first_result_link urljoin (hrefs row) with
  | Some entry_url =>
      exists e, _extract_entry_data urljoin row next = Some e
                /\ e !! "url" = Some (PStr entry_url)
  | None => _extract_entry_data urljoin row next = None
  end.
Proof.
  intros H. apply Nat.leb_le in H. unfold _extract_entry_data.
  destruct (Nat.ltb_spec (length (cells row)) 4) as [Hlt|_]; [lia|].
  destruct (first_result_link urljoin (hrefs row)); [|reflexivity].
  eexists. split; [reflexivity|].
  rewrite !lookup_insert_ne by discriminate. apply lookup_insert_eq.
Qed.

Lemma extract_primary row next e :
  _extract_entry_data urljoin row next = Some e ->
  (size e =? 0)%nat = false
  /\ e !! "program_name"
     = Some (PStr (fst (parse_program (nth 1 (cells row) [])))).
Proof.
  unfold _extract_entry_data.
  destruct (length (cells row) <? 4)%nat; [discriminate|].
  destruct (first_result_link urljoin (hrefs row)); [|discriminate].
  intros [= <-]. split.
  - apply Nat.eqb_neq. intros Hsz. apply map_size_empty_inv in Hsz.
    apply (f_equal (fun m : dict => m !! "gre_aw")) in Hsz.
    rewrite lookup_insert_eq, lookup_empty in Hsz. discriminate.
  - rewrite !lookup_insert_ne by discriminate. apply lookup_insert_eq.
Qed.

Lemma row_records_detail row next :
  (length (cells row) =? 1)%nat = true -> row_records urljoin row next = [].
Proof.
  intros H. apply Nat.eqb_eq in H. unfold row_records.
  destruct (Nat.leb_spec 4 (length (cells row))); [lia|reflexivity].
Qed.

(** What one primary row adds to [page_data]. *)
Lemma page_data_step row detail_row (page_data : list dict) :
  match _extract_entry_data urljoin row detail_row with
  | Some entry_data =>
      if negb (size entry_data =? 0)%nat
      then page_data ++ [entry_data]
      else page_data
  | None => page_data
  end
  = page_data ++ match _extract_entry_data urljoin row detail_row with
                 | Some e => [e]
                 | None => []
                 end.
Proof.
  destruct (_extract_entry_data urljoin row detail_row) as [e|] eqn:He.
  - by destruct (extract_primary _ _ _ He) as [-> _].
  - by rewrite app_nil_r.
Qed.

Lemma rows_loop_spec rows : forall fuel i page_data,
  length rows - i <= fuel ->
  rows_loop urljoin fuel rows i page_data
    = Some (page_data ++ records_of_rows urljoin (drop i rows)).
Proof.
  induction fuel as [|fuel IH]; intros i page_data Hfuel.
  - simpl. destruct (Nat.ltb_spec i (length rows)); [lia|].
    rewrite drop_ge by lia. simpl. by rewrite app_nil_r.
  - simpl. destruct (Nat.ltb_spec i (length rows)) as [Hi|Hi].
    2:{ rewrite drop_ge by lia. simpl. by rewrite app_nil_r. }
    destruct (lookup_lt_is_Some_2 rows i Hi) as [row Hrow].
    rewrite (drop_S _ _ _ Hrow). simpl.
    unfold rows_step. rewrite Hrow. unfold row_records at 1.
    replace (i + 1) with (S i) by lia.
    destruct (4 <=? length (cells row))%nat eqn:Hprim.
    2:{ by rewrite IH by lia. }
    assert (Hhead : head (drop (S i) rows) = rows !! S i).
    { destruct (rows !! S i) eqn:Hn.
      - by rewrite (drop_S _ _ _ Hn).
      - rewrite drop_ge; [done|]. by apply lookup_ge_None. }
    rewrite Hhead.
    destruct (rows !! S i) as [nr|] eqn:Hnext; simpl.
    + destruct (length (cells nr) =? 1)%nat eqn:Hone.
      * rewrite page_data_step, IH by lia.
        replace (S (i + 1)) with (S (S i)) by lia.
        rewrite (drop_S _ _ _ Hnext). simpl.
        rewrite (row_records_detail nr _ Hone). simpl.
        rewrite <- app_assoc.
        by replace (S (i + 1)) with (S (S i)) by lia.
      * rewrite page_data_step, IH by lia. rewrite <- app_assoc.
        by replace (i + 1) with (S i) by lia.
    + rewrite page_data_step, IH by lia. rewrite <- app_assoc.
      by replace (i + 1) with (S i) by lia.
Qed.

Lemma row_records_length row next :
  length (row_records urljoin row next)
  = if extracted urljoin row then 1 else 0.
Proof.
  unfold row_records, extracted, is_primary, link_joined.
  destruct (4 <=? length (cells row))%nat eqn:Hprim; [|reflexivity].
  pose proof (extract_cases row (detail_of next) Hprim) as H.
  destruct (first_result_link urljoin (hrefs row)).
  - by destruct H as (e & -> & _).
  - by rewrite H.
Qed.

Lemma records_of_rows_length rows :
  length (records_of_rows urljoin rows)
    = length (List.filter (extracted urljoin) rows).
Proof.
  induction rows as [|row rest IH]; [reflexivity|].
  simpl. rewrite length_app, IH, row_records_length.
  by destruct (extracted urljoin row).
Qed.

Lemma extracted_primary rows :
  length (List.filter (extracted urljoin) rows)
  <= length (List.filter is_primary rows).
Proof.
  induction rows as [|row rest IH]; [reflexivity|].
  simpl. unfold extracted at 1.
  destruct (is_primary row), (link_joined urljoin row); simpl; lia.
Qed.

(** C5, amended: the page loop returns, in the order of the rows, one
    record for each row of at least four cells on whose links [urljoin]
    does not raise, extracted with the row that follows it as detail row
    exactly when that row has one cell; the other rows give nothing, and
    skipping a row taken as detail changes nothing, since a row of one cell
    gives nothing.  There are at most as many records as rows of at least
    four cells. *)
Theorem page_extraction_pairs_rows header rows :
  scrape_rows urljoin (Table (header :: rows))
    = Some (records_of_rows urljoin rows)
  /\ length (records_of_rows urljoin rows)
     = length (List.filter (extracted urljoin) rows)
  /\ length (List.filter (extracted urljoin) rows)
     <= length (List.filter is_primary rows).
Proof.
  split; [|split; [apply records_of_rows_length|apply extracted_primary]].
  simpl. rewrite rows_loop_spec by lia. by rewrite drop_0.
Qed.

End WithUrljoin.

(** C5, as the specification states it, fails on a page whose row of four
    cells carries a link on which [urljoin] raises: the [except] branch of
    [_extract_entry_data] returns [None] and the page gives no record. *)
Lemma page_extraction_skips_failed_row :
  List.filter is_primary [Samples.bad_link_row] = [Samples.bad_link_row]
  /\ Samples.join_url base_url "//[result" = None
  /\ scrape_rows Samples.join_url
       (Table [Samples.header_row; Samples.bad_link_row]) = Some []
  /\ ~ (exists page_data,
          scrape_rows Samples.join_url
            (Table [Samples.header_row; Samples.bad_link_row])
          = Some page_data
          /\ one_per_primary [Samples.bad_link_row] page_data).
Proof.
  split; [reflexivity|]. split; [reflexivity|]. split; [reflexivity|].
  intros (page_data & [= <-] & H). discriminate H.
Qed.

End RowFacts.

(** ** The page loop of [scrape_data] *)

Module LoopFacts.
Import PyStr Re Py Scrape LoopSpec.

Section Network.
Variable urljoin : pystr -> pystr -> option pystr.
Variable World : Type.
Variable _check_robots_txt : World -> bool * World.
Variable request : nat -> World -> page * World.

Abbreviation loop := (scrape_loop urljoin World request).

Lemma stops_first_pages max total pn lg :
  stops_first max total pn lg ->
  1 <= pn <= 1000 ->
  length lg <= 1001 - pn /\ map fst lg = seq pn (length lg).
Proof.
  induction 1 as [total pn _|total pn c _ _|total pn c lg _ _ _ Hpn _ IH];
    intros Hrange; simpl.
  - split; [lia|reflexivity].
  - split; [lia|reflexivity].
  - destruct IH as [IH1 IH2]; [lia|]. split; [lia|].
    rewrite IH2. by replace (pn + 1) with (S pn) by lia.
Qed.

Lemma scrape_loop_stops max : forall fuel st,
  1 <= page_num World st <= 1000 ->
  1001 - page_num World st <= fuel ->
  exists st' lg,
    loop fuel max st = Some st'
    /\ log World st' = log World st ++ lg
    /\ stops_first max (total_entries World st) (page_num World st) lg.
Proof.
  induction fuel as [|fuel IH]; intros st Hrange Hfuel; [lia|].
  simpl. unfold scrape_iter.
  destruct (Z.ltb_spec (Z.of_nat (total_entries World st)) max) as [Hlt|Hge].
  2:{ exists st, []. rewrite app_nil_r. repeat split. by constructor. }
  destruct (_scrape_page urljoin World request (page_num World st)
              (world World st)) as [page_data w].
  destruct (Nat.eqb_spec (length page_data) 0) as [Hempty|Hne].
  { eexists _, [_]. simpl. repeat split. rewrite Hempty.
    apply sf_last; [done|]. by left. }
  destruct (Z.leb_spec max
              (Z.of_nat (total_entries World st + length page_data)))
    as [Hmax|Hmore].
  { eexists _, [_]. simpl. repeat split.
    apply sf_last; [done|]. right; by left. }
  destruct (Nat.ltb_spec 1000 (page_num World st + 1)) as [Hlim|Hok].
  { eexists _, [_]. simpl. repeat split.
    apply sf_last; [done|]. right; right; lia. }
  edestruct (IH (mkRun World (page_num World st + 1)
                   (total_entries World st + length page_data)
                   (scraped_data World st ++ page_data) w
                   (log World st ++ [(page_num World st, length page_data)])))
    as (st' & lg & Hloop & Hlog & Hsf); simpl; [lia|lia|].
  exists st', ((page_num World st, length page_data) :: lg).
  split; [exact Hloop|]. split.
  - rewrite Hlog. simpl. by rewrite <- app_assoc.
  - simpl in Hsf. apply sf_more; try done. lia.
Qed.

(** C6: whatever the network answers, the loop of [scrape_data] is left
    within 1000 iterations; it asks for the pages 1, 2, ... in order, at
    most 1000 of them, and stops at the first page that is empty, brings
    the total to [max_entries], or is page 1000.  When [robots.txt]
    forbids scraping, no page is asked for. *)
Theorem scrape_data_terminates fuel scraped max_entries w :
  1000 <= fuel ->
  exists out st,
    scrape_data urljoin World _check_robots_txt request
                fuel scraped max_entries w = Some (out, st)
    /\ length (log World st) <= 1000
    /\ map fst (log World st) = seq 1 (length (log World st))
    /\ (if fst (_check_robots_txt w)
        then out = scraped_data World st
             /\ stops_first max_entries 0 1 (log World st)
        else out = [] /\ log World st = []).
Proof.
  intros Hfuel. unfold scrape_data.
  destruct (_check_robots_txt w) as [allowed w'] eqn:Hrobots.
  destruct allowed; simpl.
  - destruct (scrape_loop_stops max_entries fuel
                (mkRun World 1 0 scraped w' [])) as (st & lg & -> & Hlog & Hsf);
      simpl; [lia|lia|].
    simpl in Hlog, Hsf. subst lg.
    destruct (stops_first_pages _ _ _ _ Hsf) as [Hlen Hpages]; [lia|].
    exists (scraped_data World st), st. repeat split; try done; lia.
  - eexists _, _. split; [reflexivity|]. simpl.
    repeat split; try done; lia.
Qed.
End Network.

Lemma scrape_data_terminates_witness :
  1000 <= 1000
  /\ exists out st,
       scrape_data Samples.join_url unit Samples.robots_allow Samples.no_table
                   1000 [] 10000 tt = Some (out, st)
       /\ length (log unit st) <= 1000.
Proof.
  split; [lia|].
  destruct (scrape_data_terminates Samples.join_url unit Samples.robots_allow
              Samples.no_table 1000 [] 10000 tt) as (out & st & H & Hlen & _);
    [lia|].
  exists out, st. split; [exact H|exact Hlen].
Defined.

End LoopFacts.

(** ** Program and degree of a primary row *)

Module ProgramFacts.
Import PyStr Re Py Scrape.
Local Open Scope string_scope.
Local Open Scope list_scope.

Lemma split_from_nonempty sep s : forall skip cur,
  1 <= length (split_from sep skip cur s).
Proof.
  induction s as [|c s IH]; intros skip cur; simpl; [lia|].
  destruct skip; [|apply IH].
  destruct (startswith sep (c :: s)); simpl; [lia|apply IH].
Qed.

Lemma startswith_nil_r sep : sep <> [] -> startswith sep [] = false.
Proof. by destruct sep. Qed.

Lemma split_from_contains sep s : sep <> [] -> forall skip cur,
  contains sep (drop skip s) = true ->
  2 <= length (split_from sep skip cur s).
Proof.
  intros Hsep. induction s as [|c s IH]; intros skip cur Hin.
  - rewrite drop_nil in Hin. simpl in Hin.
    rewrite startswith_nil_r in Hin by done. discriminate.
  - simpl. destruct skip as [|k]; [|apply IH, Hin].
    rewrite drop_0 in Hin. simpl in Hin.
    change (match sep with
            | [] => true
            | a :: p' => Ascii.eqb a c && startswith p' s
            end) with (startswith sep (c :: s)) in Hin.
    destruct (startswith sep (c :: s)); simpl.
    + pose proof (split_from_nonempty sep s (length sep - 1) []). lia.
    + apply IH. by rewrite drop_0.
Qed.

Lemma split_contains sep s :
  sep <> [] -> contains sep s = true -> 2 <= length (split sep s).
Proof.
  intros Hsep Hin. apply split_from_contains; [done|]. by rewrite drop_0.
Qed.

(** The keyword loop picks the first keyword, in list order, that occurs
    in the text, and splits on it. *)
Lemma split_degree_first keywords program_text :
  Forall (fun k : string => (k : pystr) <> []) keywords ->
  split_degree keywords program_text
  = match List.find (fun k : string => contains k program_text) keywords with
    | Some degree =>
        (strip (List.hd [] (split degree program_text)), degree : pystr)
    | None => ([], [])
    end.
Proof.
  induction 1 as [|k keywords Hk _ IH]; cbn [split_degree List.find];
    [reflexivity|].
  destruct (contains k program_text) eqn:Hin; [|exact IH].
  pose proof (split_contains k program_text Hk Hin) as Hlen.
  destruct (Nat.leb_spec 2 (length (split k program_text))); [reflexivity|lia].
Qed.

Lemma degree_keywords_nonempty :
  Forall (fun k : string => (k : pystr) <> []) degree_keywords.
Proof. repeat constructor; discriminate. Qed.

Lemma nonempty_spec t : nonempty t = true <-> t <> [].
Proof. destruct t; simpl; split; try done. Qed.

Section WithUrljoin.
Variable urljoin : pystr -> pystr -> option pystr.

(** C10: the record of a primary row whose program cell is not empty has
    a [program_name] that is not empty: it is the text before the first
    degree keyword of the list that occurs in the cell, stripped, or the
    whole cell when that text is empty or no keyword occurs. *)
Theorem extracted_program_name_nonempty (row : tr) (next : option tr)
    (e : dict) :
  4 <= length (cells row) ->
  nth 1 (cells row) [] <> [] ->
  _extract_entry_data urljoin row next = Some e ->
  exists p,
    e !! "program_name" = Some (PStr p)
    /\ p <> []
    /\ match List.find (fun k : string => contains k (nth 1 (cells row) []))
                       degree_keywords with
       | Some degree =>
           let before :=
             strip (List.hd [] (split degree (nth 1 (cells row) []))) in
           p = (if nonempty before then before else nth 1 (cells row) [])
           /\ e !! "degree_type" = Some (PStr degree)
       | None =>
           p = nth 1 (cells row) [] /\ e !! "degree_type" = Some (PStr [])
       end.
Proof.
  intros Hcells Htext. set (program_text := nth 1 (cells row) []) in *.
  unfold _extract_entry_data.
  destruct (Nat.ltb_spec (length (cells row)) 4) as [|_]; [lia|].
  fold program_text.
  destruct (first_result_link urljoin (hrefs row)); [|discriminate].
  intros [= <-].
  exists (fst (parse_program program_text)).
  split.
  { rewrite !lookup_insert_ne by discriminate. apply lookup_insert_eq. }
  rewrite !(lookup_insert_ne _ "gre_aw"), !(lookup_insert_ne _ "gpa")
    by discriminate.
  rewrite lookup_insert_eq.
  unfold parse_program.
  apply nonempty_spec in Htext. rewrite Htext.
  rewrite (split_degree_first _ _ degree_keywords_nonempty).
  destruct (List.find _ degree_keywords) as [degree|]; simpl.
  - split; [|done].
    destruct (nonempty (strip _)) eqn:Hpre; apply nonempty_spec; done.
  - split; [|done]. by apply nonempty_spec.
Qed.
End WithUrljoin.

Lemma extracted_program_name_nonempty_witness :
  4 <= length (cells Samples.degree_only_row)
  /\ nth 1 (cells Samples.degree_only_row) [] <> []
  /\ exists e p,
       _extract_entry_data Samples.join_url Samples.degree_only_row None
         = Some e
       /\ e !! "program_name" = Some (PStr p) /\ p <> [].
Proof.
  assert (H1 : 4 <= length (cells Samples.degree_only_row)) by (simpl; lia).
  assert (H2 : nth 1 (cells Samples.degree_only_row) [] <> [])
    by discriminate.
  assert (H3 : _extract_entry_data Samples.join_url Samples.degree_only_row
                 None
               = Some (default ∅ (_extract_entry_data Samples.join_url
                                    Samples.degree_only_row None)))
    by reflexivity.
  split; [exact H1|]. split; [exact H2|].
  destruct (extracted_program_name_nonempty Samples.join_url
              Samples.degree_only_row None _ H1 H2 H3) as (p & Hp & Hne & _).
  eexists _, p. split; [exact H3|]. auto.
Defined.

(** A row whose program is only a degree keyword gives a record that the
    cleaner admits, with the keyword as program name. *)
Lemma degree_only_row_admitted :
  let cleaned :=
    _extract_entry_data Samples.join_url Samples.degree_only_row None
      ≫= Clean.clean_entry in
  RecleanSpec.field cleaned "program_name" = Some ("PhD" : pystr)
  /\ RecleanSpec.field cleaned "degree_type" = Some ("PhD" : pystr)
  /\ RecleanSpec.field cleaned "university" = Some ("MIT" : pystr).
Proof. by vm_compute. Qed.

End ProgramFacts.

(** ** The numbers the parsers print are fixed points *)

Module NumberFacts.
Import PyStr Re Clean PyFloat FloatSpec FloatFacts AdmissionFacts.
Local Open Scope Z_scope.


Lemma hundredths_fixed :
  forallb (fun n => str_eqb (_clean_gpa (fixed_of 2 n)) (fixed_of 2 n))
          hundredths = true.
Proof. by vm_compute. Qed.

Lemma tenths_fixed :
  forallb (fun n => str_eqb (_clean_gre_aw (fixed_of 1 n)) (fixed_of 1 n))
          tenths = true.
Proof. by vm_compute. Qed.

Lemma in_hundredths n : 0 <= n <= 400 -> In n hundredths.
Proof.
  intros Hn. apply in_map_iff. exists (Z.to_nat n).
  split; [lia|]. apply in_seq. lia.
Qed.

Lemma in_tenths n : 0 <= n <= 60 -> In n tenths.
Proof.
  intros Hn. apply in_map_iff. exists (Z.to_nat n).
  split; [lia|]. apply in_seq. lia.
Qed.

(** A float within [0, 4] prints as one of 0.00 .. 4.00. *)
Lemma format_unit_range v :
  plain v ->
  leb v (of_Z 4) = true ->
  exists n, 0 <= n <= 400 /\ format_fixed 2 v = fixed_of 2 n.
Proof.
  change (of_Z 4) with (S754_finite false 4503599627370496 (-50)).
  intros Hv Hle. destruct v as [s|s| |s m e]; simpl in Hv.
  - subst s. exists 0. split; [lia|reflexivity].
  - subst s. discriminate.
  - done.
  - destruct Hv as [-> Hm]. exists (round_scaled m e 2).
    split; [|apply format_fixed_finite].
    apply (format_below 2 400 4503599627370496 m e Hm Hle); by vm_compute.
Qed.

(** A float within [0, 6] prints as one of 0.0 .. 6.0. *)
Lemma format_aw_range v :
  plain v ->
  leb v (of_Z 6) = true ->
  exists n, 0 <= n <= 60 /\ format_fixed 1 v = fixed_of 1 n.
Proof.
  change (of_Z 6) with (S754_finite false 6755399441055744 (-50)).
  intros Hv Hle. destruct v as [s|s| |s m e]; simpl in Hv.
  - subst s. exists 0. split; [lia|reflexivity].
  - subst s. discriminate.
  - done.
  - destruct Hv as [-> Hm]. exists (round_scaled m e 1).
    split; [|apply format_fixed_finite].
    apply (format_below 1 60 6755399441055744 m e Hm Hle); by vm_compute.
Qed.

(** The rescaled value of a float within (4, 10] prints as one of
    0.00 .. 4.00. *)
Lemma format_rescaled_range v :
  plain v ->
  ltb (of_Z 4) v = true ->
  leb v (of_Z 10) = true ->
  exists n, 0 <= n <= 400
            /\ format_fixed 2 (mul (div v (of_Z 10)) (of_Z 4)) = fixed_of 2 n.
Proof.
  intros Hv Hgt Hle. destruct v as [s|s| |s m e]; simpl in Hv.
  - subst s. discriminate.
  - subst s. discriminate.
  - done.
  - destruct Hv as [-> Hm].
    pose proof (rescaled_below m e Hm Hgt Hle) as Hc.
    destruct (mul _ _) as [sc|sc| |sc mc ec]; try done.
    + subst sc. exists 0. split; [lia|reflexivity].
    + destruct Hc as [-> Hn]. exists (round_scaled mc ec 2).
      split; [done|apply format_fixed_finite].
Qed.

Lemma clean_gpa_cases t :
  _clean_gpa t = []
  \/ exists n, 0 <= n <= 400 /\ _clean_gpa t = fixed_of 2 n.
Proof.
  unfold _clean_gpa.
  destruct (length t =? 0)%nat; [by left|].
  destruct (search _ _); [|by left].
  destruct (float_of_str _) as [v|] eqn:Hv; [|by left].
  apply float_of_str_plain in Hv.
  destruct (leb (of_Z 0) v && leb v (of_Z 4)) eqn:H1.
  - apply andb_true_iff in H1 as [_ H1].
    right. by apply format_unit_range.
  - destruct (ltb (of_Z 4) v && leb v (of_Z 10)) eqn:H2; [|by left].
    apply andb_true_iff in H2 as [H2 H3].
    right. by apply format_rescaled_range.
Qed.

Lemma clean_gre_aw_cases t :
  _clean_gre_aw t = []
  \/ exists n, 0 <= n <= 60 /\ _clean_gre_aw t = fixed_of 1 n.
Proof.
  unfold _clean_gre_aw.
  destruct (length t =? 0)%nat; [by left|].
  destruct (search _ _); [|by left].
  destruct (float_of_str _) as [v|] eqn:Hv; [|by left].
  apply float_of_str_plain in Hv.
  destruct (leb (of_Z 0) v && leb v (of_Z 6)) eqn:H1; [|by left].
  apply andb_true_iff in H1 as [_ H1].
  right. by apply format_aw_range.
Qed.

Lemma gpa_idem t : _clean_gpa (_clean_gpa t) = _clean_gpa t.
Proof.
  destruct (clean_gpa_cases t) as [-> | (n & Hn & ->)]; [reflexivity|].
  pose proof hundredths_fixed as Hfix. rewrite forallb_forall in Hfix.
  by apply str_eqb_spec, Hfix, in_hundredths.
Qed.

Lemma gre_aw_idem t : _clean_gre_aw (_clean_gre_aw t) = _clean_gre_aw t.
Proof.
  destruct (clean_gre_aw_cases t) as [-> | (n & Hn & ->)]; [reflexivity|].
  pose proof tenths_fixed as Hfix. rewrite forallb_forall in Hfix.
  by apply str_eqb_spec, Hfix, in_tenths.
Qed.

End NumberFacts.

(** ** Cleaning a cleaned record again *)

Module RecleanFacts.
Import PyStr Re Py Clean RecleanSpec StatusSpec StrFacts ReFacts TextFacts.
Import StatusFacts AdmissionFacts NumberFacts.
Local Open Scope string_scope.
Local Open Scope list_scope.

(** *** A record that was admitted is admitted again *)

Lemma good_solid a : isspace a = true -> good a = false.
Proof. unfold good. by intros ->. Qed.

Lemma existsb_good_kept t :
  forallb kept t = true ->
  existsb good t = existsb (fun a => negb (isspace a)) t.
Proof.
  intros Hall. induction t as [|a t IH]; [reflexivity|].
  simpl in *. apply andb_true_iff in Hall as [Ha Ht].
  unfold good at 1. by rewrite Ha, andb_true_r, IH.
Qed.

Lemma existsb_good_filter t :
  existsb good (List.filter kept t) = existsb good t.
Proof.
  induction t as [|a t IH]; [reflexivity|]. simpl.
  destruct (kept a) eqn:Ha; simpl; rewrite IH; [reflexivity|].
  unfold good. by rewrite Ha, andb_false_r.
Qed.

Lemma kept_no_tag t :
  forallb kept t = true -> existsb (Ascii.eqb "<") t = false.
Proof.
  intros Hall. induction t as [|a t IH]; [reflexivity|].
  cbn [forallb existsb] in *. apply andb_true_iff in Hall as [Ha Ht].
  rewrite (IH Ht), orb_false_r.
  destruct (Ascii.eqb "<" a) eqn:Heq; [|reflexivity].
  apply Ascii.eqb_eq in Heq. subst a. by vm_compute in Ha.
Qed.

Lemma filter_negb_negb {A} (p : A -> bool) l :
  List.filter (fun a => negb (negb (p a))) l = List.filter p l.
Proof.
  induction l as [|x l IH]; [reflexivity|]. simpl.
  rewrite negb_involutive, IH. reflexivity.
Qed.

Lemma readmitted t :
  strip (_clean_text t) <> [] -> strip (_clean_text (_clean_text t)) <> [].
Proof.
  set (u := _clean_text t). intros Hu.
  pose proof (clean_text_kept t) as Hkept. fold u in Hkept.
  assert (Hgood : existsb good u = true).
  { rewrite existsb_good_kept by done. by apply strip_nonempty. }
  apply strip_nonempty.
  unfold _clean_text.
  destruct ((length u =? 0)%nat || str_eqb (strip u) "") eqn:Hblank.
  { apply blank_spec in Hblank. done. }
  unfold tag_re. rewrite sub_absent by (by apply kept_no_tag).
  unfold special_re. rewrite sub_class, filter_negb_negb.
  assert (Hfinal : existsb good
            (List.filter kept (strip (sub ws_re " " u))) = true).
  { rewrite existsb_good_filter, existsb_strip by apply good_solid.
    unfold ws_re. rewrite sub_space_exists; try done.
    apply good_solid. }
  apply existsb_exists in Hfinal as (a & Hin & Ha).
  apply existsb_exists. exists a. split; [done|].
  unfold good in Ha. by apply andb_true_iff in Ha as [-> _].
Qed.

(** *** The decision status *)

Lemma keyword_label_strip t : keyword_label (strip t) = keyword_label t.
Proof.
  unfold keyword_label. by rewrite !contains_strip by reflexivity.
Qed.

Lemma keyword_label_values t l :
  keyword_label t = Some l ->
  l = ("Accepted" : pystr) \/ l = ("Rejected" : pystr)
  \/ l = ("Waitlisted" : pystr) \/ l = ("Interview" : pystr).
Proof.
  unfold keyword_label.
  repeat match goal with
         | |- context [if ?b then _ else _] => destruct b
         end; intros [= <-]; auto.
Qed.

Lemma standardize_idem status :
  _standardize_decision_status (_standardize_decision_status status)
  = _standardize_decision_status status.
Proof.
  destruct status as [|c status]; [reflexivity|].
  rewrite (standardize_keywords (c :: status)) by done.
  set (s := c :: status).
  destruct (keyword_label (lower s)) as [l|] eqn:Hl; cbn [from_option id].
  - destruct (keyword_label_values _ _ Hl) as [-> | [-> | [-> | ->]]];
      by vm_compute.
  - set (y := strip (lower s)).
    destruct (title y) as [|a r] eqn:Hy; [reflexivity|].
    rewrite standardize_keywords by done. rewrite <- Hy.
    unfold title. rewrite lower_title_from.
    assert (Hlow : lower y = y).
    { unfold y. by rewrite <- strip_lower, lower_idem. }
    rewrite Hlow. unfold y at 2. rewrite keyword_label_strip, Hl.
    cbn [from_option id]. unfold y. by rewrite strip_idem.
Qed.

(** *** The international status *)

Lemma international_idem intl_status :
  international_of (_clean_text (international_of intl_status))
  = international_of intl_status.
Proof.
  unfold international_of at 2 3.
  destruct (one_of _ _); [by vm_compute|].
  destruct (one_of _ _); by vm_compute.
Qed.

(** *** The GRE scores *)

Lemma valid_scores_fixed :
  forallb (fun n => str_eqb (_clean_gre_score (str_of_Z n)) (str_of_Z n))
          valid_scores = true.
Proof. by vm_compute. Qed.

Lemma valid_scores_range n :
  (130 <= n <= 170 \/ 200 <= n <= 800)%Z -> In n valid_scores.
Proof.
  intros Hn. unfold valid_scores. apply in_map_iff.
  exists (Z.to_nat n). split; [lia|].
  apply in_app_iff. rewrite !in_seq. lia.
Qed.

Lemma gre_score_idem t :
  _clean_gre_score (_clean_gre_score t) = _clean_gre_score t.
Proof.
  assert (Hcases : _clean_gre_score t = []
                   \/ exists n, In n valid_scores
                                /\ _clean_gre_score t = str_of_Z n).
  { unfold _clean_gre_score.
    destruct (length t =? 0)%nat; [by left|].
    destruct (search _ _); [|by left].
    destruct (int_of_str _) as [n|]; [|by left].
    destruct (_ && _) eqn:H1.
    - right. exists n. split; [|done]. apply valid_scores_range. lia.
    - destruct (_ && _) eqn:H2 in |- *; [|by left].
      right. exists n. split; [|done]. apply valid_scores_range. lia. }
  destruct Hcases as [-> | (n & Hn & ->)]; [reflexivity|].
  pose proof valid_scores_fixed as Hfix.
  rewrite forallb_forall in Hfix. by apply str_eqb_spec, Hfix.
Qed.



(** *** The second cleaning of a cleaned record *)

Lemma dyn_inv {A} (f : pystr -> A) v x : dyn f v = Ok x -> exists t, x = f t.
Proof.
  destruct v; simpl;
    try (match goal with |- context [if ?b then _ else _] => destruct b end);
    intros [= <-]; eauto.
Qed.

Section Record.
Variables (pn un cm : pystr) (url : pyval).
Variables (st da ad rd se ye ia gp gv gq aw dg : pystr).

Abbreviation rec :=
  (cleaned_record pn un cm url st da ad rd se ye ia gp gv gq aw dg).

Lemma get_program_name : get rec "program_name" = PStr pn.
Proof. reflexivity. Qed.

Lemma get_university : get rec "university" = PStr un.
Proof. reflexivity. Qed.

Lemma get_comments : get rec "comments" = PStr cm.
Proof. reflexivity. Qed.

Lemma get_url : get rec "url" = url.
Proof. reflexivity. Qed.

Lemma get_applicant_status : get rec "applicant_status" = PStr st.
Proof. reflexivity. Qed.

Lemma get_date_added : get rec "date_added" = PStr da.
Proof. reflexivity. Qed.

Lemma get_acceptance_date : get rec "acceptance_date" = PStr ad.
Proof. reflexivity. Qed.

Lemma get_rejection_date : get rec "rejection_date" = PStr rd.
Proof. reflexivity. Qed.

Lemma get_semester : get rec "semester" = PStr se.
Proof. reflexivity. Qed.

Lemma get_year : get rec "year" = PStr ye.
Proof. reflexivity. Qed.

Lemma get_international_american : get rec "international_american" = PStr ia.
Proof. reflexivity. Qed.

Lemma get_gpa : get rec "gpa" = PStr gp.
Proof. reflexivity. Qed.

Lemma get_gre_verbal : get rec "gre_verbal" = PStr gv.
Proof. reflexivity. Qed.

Lemma get_gre_quantitative : get rec "gre_quantitative" = PStr gq.
Proof. reflexivity. Qed.

Lemma get_gre_aw : get rec "gre_aw" = PStr aw.
Proof. reflexivity. Qed.

Lemma get_degree_type : get rec "degree_type" = PStr dg.
Proof. reflexivity. Qed.

Lemma get_semester_year : get rec "semester_year" = PStr [].
Proof. reflexivity. Qed.

Lemma get_gre_score : get rec "gre_score" = PStr [].
Proof. reflexivity. Qed.


Lemma lookup_university : rec !! "university" = Some (PStr un).
Proof. reflexivity. Qed.

Lemma lookup_program_name : rec !! "program_name" = Some (PStr pn).
Proof. reflexivity. Qed.

(** A cleaned record holds no [semester_year] and no [gre_score]; its
    other keys are cleaned once more. *)
Lemma reclean_try :
  clean_entry_try rec
  = (valid ← _validate_entry
               (cleaned_record (_clean_text pn) (_clean_text un)
                  (_clean_text cm) url (_standardize_decision_status st)
                  (_clean_date da) (_clean_date ad) (_clean_date rd)
                  [] [] (international_of (_clean_text ia))
                  (_clean_gpa gp) (_clean_gre_score gv) []
                  (_clean_gre_aw aw) (_clean_degree_type dg));
     if valid : bool
     then Ok (Some (cleaned_record (_clean_text pn) (_clean_text un)
                  (_clean_text cm) url (_standardize_decision_status st)
                  (_clean_date da) (_clean_date ad) (_clean_date rd)
                  [] [] (international_of (_clean_text ia))
                  (_clean_gpa gp) (_clean_gre_score gv) []
                  (_clean_gre_aw aw) (_clean_degree_type dg)))
     else Ok None).
Proof.
  unfold clean_entry_try, quant_fragment.
  rewrite get_program_name, get_university, get_comments, get_url,
    get_applicant_status, get_date_added, get_acceptance_date,
    get_rejection_date, get_semester_year, get_international_american,
    get_gpa, get_gre_verbal, !get_gre_score, get_gre_aw, get_degree_type.
  reflexivity.
Qed.

End Record.

Lemma reclean pn un cm url st da ad rd se ye ia gp gv gq aw dg :
  strip (_clean_text un) <> [] -> strip (_clean_text pn) <> [] ->
  clean_entry (cleaned_record pn un cm url st da ad rd se ye ia gp gv gq aw dg)
  = Some (cleaned_record (_clean_text pn) (_clean_text un)
            (_clean_text cm) url (_standardize_decision_status st)
            (_clean_date da) (_clean_date ad) (_clean_date rd)
            [] [] (international_of (_clean_text ia))
            (_clean_gpa gp) (_clean_gre_score gv) []
            (_clean_gre_aw aw) (_clean_degree_type dg)).
Proof.
  intros Hun Hpn. unfold clean_entry. rewrite reclean_try.
  erewrite validate_strings
    by (apply lookup_university || apply lookup_program_name).
  destruct (_ || _) eqn:Hu; [by apply blank_spec in Hu|].
  destruct (_ || _) eqn:Hp in |- *; [by apply blank_spec in Hp|].
  reflexivity.
Qed.

(** What the first cleaning returns. *)
Lemma clean_entry_inv entry c :
  clean_entry entry = Some c ->
  exists pn un cm st da ad rd sy ia gp gv gq aw dg,
    c = cleaned_record (_clean_text pn) (_clean_text un) (_clean_text cm)
          (get entry "url") (_standardize_decision_status st)
          (_clean_date da) (_clean_date ad) (_clean_date rd)
          (fst (_clean_semester_year sy)) (snd (_clean_semester_year sy))
          (international_of (_clean_text ia))
          (_clean_gpa gp) (_clean_gre_score gv) (_clean_gre_score gq)
          (_clean_gre_aw aw) (_clean_degree_type dg)
    /\ strip (_clean_text un) <> [] /\ strip (_clean_text pn) <> [].
Proof.
  unfold clean_entry, clean_entry_try.
  repeat match goal with
         | |- context [mbind _ (dyn ?f ?v)] =>
             let H := fresh "H" in
             destruct (dyn f v) eqn:H; cbn [mbind exc_bind];
             [apply dyn_inv in H as [? ->]|discriminate]
         | |- context [mbind _ (quant_fragment ?e)] =>
             destruct (quant_fragment e); cbn [mbind exc_bind];
             [|discriminate]
         end.
  erewrite validate_strings
    by (rewrite !lookup_insert_ne by discriminate; apply lookup_insert_eq).
  cbn [mbind exc_bind].
  destruct (_ || _) eqn:Hu; [discriminate|].
  destruct (_ || _) eqn:Hp in |- *; [discriminate|].
  cbn [negb andb]. intros [= <-].
  do 14 eexists. split; [reflexivity|].
  split; intros Hnil%blank_spec;
    change (list_ascii_of_string "") with (@nil ascii) in *; congruence.
Qed.

(** C3, as the specification states it, fails: the cleaned record has no
    [semester_year] and no [gre_score] key, so a second cleaning empties
    [semester], [year] and [gre_quantitative]; it also swaps day and month
    of a date and collapses the whitespace the first cleaning left. *)
Lemma recleaning_changes_fields :
  field (once example_raw) "semester" = Some ("Fall" : pystr)
  /\ field (twice example_raw) "semester" = Some []
  /\ field (once example_raw) "year" = Some ("2025" : pystr)
  /\ field (twice example_raw) "year" = Some []
  /\ field (once example_raw) "gre_quantitative" = Some ("160" : pystr)
  /\ field (twice example_raw) "gre_quantitative" = Some []
  /\ field (once example_raw) "acceptance_date" = Some ("01/06/2025" : pystr)
  /\ field (twice example_raw) "acceptance_date" = Some ("06/01/2025" : pystr)
  /\ field (once example_raw) "comments" = Some ("top  choice" : pystr)
  /\ field (twice example_raw) "comments" = Some ("top choice" : pystr).
Proof. by vm_compute. Qed.

(** C3, amended: a second cleaning admits every record of the first one
    again and leaves [url], [international_american], [gpa], [gre_verbal]
    and [gre_aw] as they are, and [applicant_status] as well when the
    status of the raw record is ASCII text, while it resets [semester],
    [year] and [gre_quantitative] to the empty string. *)
Theorem recleaning_keeps_stable_fields (entry c : dict) :
  clean_entry entry = Some c ->
  exists c',
    clean_entry c = Some c'
    /\ (forall k, In k stable_keys -> c' !! k = c !! k)
    /\ (ascii_status entry = true ->
        c' !! "applicant_status" = c !! "applicant_status")
    /\ (forall k, In k reset_keys -> c' !! k = Some (PStr [])).
Proof.
  intros Hc.
  destruct (clean_entry_inv _ _ Hc)
    as (pn & un & cm & st & da & ad & rd & sy & ia & gp & gv & gq & aw & dg
        & -> & Hun & Hpn).
  eexists. split; [apply reclean; by apply readmitted|]. split; [|split].
  - intros k Hk. simpl in Hk.
    destruct Hk as [<-|[<-|[<-|[<-|[<-|[]]]]]].
    + reflexivity.
    + change (Some (PStr (international_of
                            (_clean_text (international_of (_clean_text ia)))))
              = Some (PStr (international_of (_clean_text ia)))).
      by rewrite international_idem.
    + change (Some (PStr (_clean_gpa (_clean_gpa gp)))
              = Some (PStr (_clean_gpa gp))).
      by rewrite gpa_idem.
    + change (Some (PStr (_clean_gre_score (_clean_gre_score gv)))
              = Some (PStr (_clean_gre_score gv))).
      by rewrite gre_score_idem.
    + change (Some (PStr (_clean_gre_aw (_clean_gre_aw aw)))
              = Some (PStr (_clean_gre_aw aw))).
      by rewrite gre_aw_idem.
  - intros _.
    change (Some (PStr (_standardize_decision_status
                          (_standardize_decision_status st)))
            = Some (PStr (_standardize_decision_status st))).
    by rewrite standardize_idem.
  - intros k Hk. simpl in Hk.
    destruct Hk as [<-|[<-|[<-|[]]]]; reflexivity.
Qed.

Lemma recleaning_keeps_stable_fields_witness :
  exists c,
    clean_entry example_raw = Some c
    /\ ascii_status example_raw = true
    /\ exists c',
         clean_entry c = Some c'
         /\ (forall k, In k stable_keys -> c' !! k = c !! k)
         /\ c' !! "applicant_status" = c !! "applicant_status"
         /\ (forall k, In k reset_keys -> c' !! k = Some (PStr [])).
Proof.
  assert (H : clean_entry example_raw
              = Some (default ∅ (clean_entry example_raw)))
    by (vm_compute; reflexivity).
  assert (Ha : ascii_status example_raw = true) by reflexivity.
  exists (default ∅ (clean_entry example_raw)).
  split; [exact H|]. split; [exact Ha|].
  destruct (recleaning_keeps_stable_fields _ _ H) as (c' & H1 & H2 & H3 & H4).
  exists c'. split; [exact H1|]. split; [exact H2|].
  split; [exact (H3 Ha)|exact H4].
Defined.

End RecleanFacts.

(** * Properties of the code around the specification

    ** The matches of the regular-expression engine *)

Module MatchFacts.
Import PyStr Re MatchSpec ReFacts.
Local Open Scope string_scope.
Local Open Scope list_scope.

Lemma star_loop_sound r :
  sound_at r ->
  forall fuel t c t' c', In (t', c') (star_loop (rmatch r) fuel t c) ->
    exists u n, t = u ++ t' /\ c' = n ++ c /\ matches (Star r) u n.
Proof.
  intros Hr. induction fuel as [|fuel IH]; intros t c t' c' Hin.
  - destruct Hin as [[= <- <-]|[]]. exists [], []. repeat split. constructor.
  - cbn [star_loop] in Hin. apply in_app_iff in Hin as [Hin|Hin].
    + apply in_flat_map in Hin as ([t1 c1] & H1 & H2).
      destruct (length t1 <? length t)%nat; [|destruct H2].
      apply Hr in H1 as (u1 & n1 & -> & -> & Hm1).
      apply IH in H2 as (u2 & n2 & -> & -> & Hm2).
      exists (u1 ++ u2), (n2 ++ n1). rewrite <- !app_assoc.
      repeat split. by constructor.
    + destruct Hin as [[= <- <-]|[]]. exists [], []. repeat split. constructor.
Qed.

Lemma rmatch_sound r : sound_at r.
Proof.
  induction r as [|p|r1 IH1 r2 IH2|r1 IH1 r2 IH2|r IH|i r IH];
    intros t c t' c' Hin.
  - destruct Hin as [[= <- <-]|[]]. exists [], []. repeat split. constructor.
  - rewrite rmatch_cls in Hin. destruct t as [|a t]; [destruct Hin|].
    destruct (p a) eqn:Hp; [|destruct Hin].
    destruct Hin as [[= <- <-]|[]]. exists [a], []. repeat split.
    by constructor.
  - rewrite rmatch_seq in Hin.
    apply in_flat_map in Hin as ([t1 c1] & H1 & H2).
    apply IH1 in H1 as (u1 & n1 & -> & -> & Hm1).
    apply IH2 in H2 as (u2 & n2 & -> & -> & Hm2).
    exists (u1 ++ u2), (n2 ++ n1). rewrite <- !app_assoc.
    repeat split. by constructor.
  - rewrite rmatch_alt in Hin. apply in_app_iff in Hin as [Hin|Hin].
    + apply IH1 in Hin as (u & n & -> & -> & Hm). exists u, n.
      repeat split. by apply m_alt_l.
    + apply IH2 in Hin as (u & n & -> & -> & Hm). exists u, n.
      repeat split. by apply m_alt_r.
  - exact (star_loop_sound r IH _ _ _ _ _ Hin).
  - rewrite rmatch_grp in Hin.
    apply in_map_iff in Hin as ([t1 c1] & [= <- <-] & H1).
    apply IH in H1 as (u & n & -> & -> & Hm).
    exists u, ((i, u) :: n). split; [done|]. split.
    + simpl. do 2 f_equal. by apply firstn_split.
    + by constructor.
Qed.

Lemma match_here_sound r t rest c :
  match_here r t = Some (rest, c) ->
  exists u, t = u ++ rest /\ matches r u c.
Proof.
  unfold match_here. intros H.
  destruct (rmatch r t []) as [|[t1 c1] l] eqn:Hm; [discriminate|].
  simpl in H. injection H as -> ->.
  destruct (rmatch_sound r t [] rest c) as (u & n & -> & -> & Hu).
  { rewrite Hm. by left. }
  exists u. by rewrite app_nil_r.
Qed.

(** [re.search]: the groups are those of a match of the pattern on a
    slice of the text. *)
Lemma search_sound r : forall t c,
  search r t = Some c ->
  exists before u after, t = before ++ u ++ after /\ matches r u c.
Proof.
  induction t as [|a t IH]; intros c; cbn [search].
  - destruct (match_here r []) as [[rest c1]|] eqn:Hm; [|discriminate].
    intros [= <-]. apply match_here_sound in Hm as (u & -> & Hu).
    by exists [], u, rest.
  - destruct (match_here r (a :: t)) as [[rest c1]|] eqn:Hm.
    + intros [= <-]. apply match_here_sound in Hm as (u & -> & Hu).
      by exists [], u, rest.
    + intros (before & u & after & -> & Hu)%IH.
      by exists (a :: before), u, after.
Qed.

(** *** What the derived forms match *)

Lemma matches_seq r1 r2 u n :
  matches (Seq r1 r2) u n ->
  exists u1 u2 n1 n2,
    u = u1 ++ u2 /\ n = n2 ++ n1 /\ matches r1 u1 n1 /\ matches r2 u2 n2.
Proof. inversion 1; subst. eauto 10. Qed.

Lemma matches_alt r1 r2 u n :
  matches (Alt r1 r2) u n -> matches r1 u n \/ matches r2 u n.
Proof. inversion 1; subst; auto. Qed.

Lemma matches_grp i r u n :
  matches (Grp i r) u n -> exists n', n = (i, u) :: n' /\ matches r u n'.
Proof. inversion 1; subst. eauto. Qed.

Lemma matches_lit s : forall u n, matches (Lit s) u n -> u = s /\ n = [].
Proof.
  induction s as [|a s IH]; intros u n H; cbn [Lit] in H.
  - by inversion H.
  - inversion H as [| |? ? u1 u2 n1 n2 H1 H2| | | | |]; subst.
    apply IH in H2 as [-> ->].
    inversion H1 as [|? b Hb| | | | | |]; subst.
    apply Ascii.eqb_eq in Hb as ->. done.
Qed.

Lemma matches_cls p u n : matches (Cls p) u n ->
  exists a, u = [a] /\ p a = true /\ n = [].
Proof. inversion 1; subst. eauto. Qed.

Lemma matches_star_class p u n :
  matches (Star (Cls p)) u n -> forallb p u = true /\ n = [].
Proof.
  remember (Star (Cls p)) as r eqn:Hr. intros H.
  induction H; try discriminate; injection Hr as ->.
  - done.
  - destruct (IHmatches2 eq_refl) as [Hall ->].
    apply matches_cls in H as (a & -> & Ha & ->).
    simpl. by rewrite Ha, Hall.
Qed.

Lemma matches_plus_class p u n :
  matches (Plus (Cls p)) u n -> forallb p u = true /\ u <> [] /\ n = [].
Proof.
  unfold Plus. inversion 1 as [| |? ? u1 u2 n1 n2 H1 H2| | | | |]; subst.
  apply matches_cls in H1 as (a & -> & Ha & ->).
  apply matches_star_class in H2 as [Hall ->].
  simpl. by rewrite Ha, Hall.
Qed.

Lemma matches_rep_class p k : forall u n,
  matches (Rep k (Cls p)) u n ->
  forallb p u = true /\ length u = k /\ n = [].
Proof.
  induction k as [|k IH]; intros u n H; cbn [Rep] in H.
  - by inversion H.
  - inversion H as [| |? ? u1 u2 n1 n2 H1 H2| | | | |]; subst.
    apply matches_cls in H1 as (a & -> & Ha & ->).
    apply IH in H2 as (Hall & <- & ->).
    simpl. by rewrite Ha, Hall.
Qed.

Lemma matches_rep12_class p u n :
  matches (Rep12 (Cls p)) u n ->
  forallb p u = true /\ 1 <= length u <= 2 /\ n = [].
Proof.
  unfold Rep12, Opt.
  inversion 1 as [| |? ? u1 u2 n1 n2 H1 H2| | | | |]; subst.
  apply matches_cls in H1 as (a & -> & Ha & ->).
  inversion H2 as [| | |? ? ? ? H3|? ? ? ? H3| | |]; subst.
  - apply matches_cls in H3 as (b & -> & Hb & ->).
    simpl. rewrite Ha, Hb. repeat split; lia.
  - inversion H3; subst. simpl. rewrite Ha. repeat split; lia.
Qed.

End MatchFacts.

(** ** What the scraper reads off a row *)

Module ScrapedFacts.
Import PyStr Re Py Scrape MatchSpec MatchFacts RawSpec StrFacts AdmissionFacts.
Local Open Scope string_scope.
Local Open Scope list_scope.

Ltac seq_in H a b :=
  let u1 := fresh "u" in let u2 := fresh "u" in
  let n1 := fresh "n" in let n2 := fresh "n" in
  apply matches_seq in H as (u1 & u2 & n1 & n2 & -> & -> & a & b).

Ltac grp_in H :=
  let n' := fresh "n" in apply matches_grp in H as (n' & -> & H).

Lemma matches_labels (l1 l2 l3 l4 : string) u n :
  matches (Alt (Lit l1) (Alt (Lit l2) (Alt (Lit l3) (Lit l4)))) u n ->
  (exists l : string, In l [l1; l2; l3; l4] /\ u = l) /\ n = [].
Proof.
  intros [H|[H|[H|H]%matches_alt]%matches_alt]%matches_alt;
    apply matches_lit in H as [-> ->]; (split; [|done]);
    eexists; (split; [|reflexivity]); simpl; auto.
Qed.

Lemma decision_groups text m :
  search decision_re text = Some m ->
  (exists l : string, In l decision_labels /\ group 1 m = l)
  /\ group 2 m <> []
  /\ forallb (fun a => negb (Ascii.eqb "010" a)) (group 2 m) = true.
Proof.
  intros (before & u & after & _ & H)%search_sound.
  unfold decision_re in H.
  seq_in H H1 H. seq_in H H2 H. seq_in H H3 H. seq_in H H4 H.
  grp_in H1. grp_in H.
  apply matches_labels in H1 as [Hl ->].
  apply matches_plus_class in H2 as (_ & _ & ->).
  apply matches_lit in H3 as [-> ->].
  apply matches_plus_class in H4 as (_ & _ & ->).
  apply matches_plus_class in H as (Hall & Hne & ->).
  done.
Qed.

Lemma semester_groups text m :
  search semester_re text = Some m ->
  (exists l : string, In l semester_labels /\ group 1 m = l)
  /\ forallb isdigit (group 2 m) = true /\ length (group 2 m) = 4.
Proof.
  intros (before & u & after & _ & H)%search_sound.
  unfold semester_re in H.
  seq_in H H1 H. seq_in H H2 H. grp_in H1. grp_in H.
  apply matches_labels in H1 as [Hl ->].
  apply matches_plus_class in H2 as (_ & _ & ->).
  apply matches_rep_class in H as (Hall & Hlen & ->).
  done.
Qed.

(** The group of a pattern [GRE\s+X[:\s]*(..+)] or [GPA\s+(..+)]. *)
Lemma tagged_group tag (cls : ascii -> bool) text m :
  search (Seq (Lit "GRE") (Seq (Plus space) (Seq (Lit tag)
            (Seq (Star (Cls colon_or_space)) (Grp 1 (Plus (Cls cls)))))))
         text = Some m ->
  forallb cls (group 1 m) = true /\ group 1 m <> [].
Proof.
  intros (before & u & after & _ & H)%search_sound.
  seq_in H H1 H. seq_in H H2 H. seq_in H H3 H. seq_in H H4 H. grp_in H.
  apply matches_lit in H1 as [-> ->].
  apply matches_plus_class in H2 as (_ & _ & ->).
  apply matches_lit in H3 as [-> ->].
  apply matches_star_class in H4 as (_ & ->).
  apply matches_plus_class in H as (Hall & Hne & ->).
  done.
Qed.

Lemma gpa_group text m :
  search gpa_detail_re text = Some m ->
  forallb digit_or_dot (group 1 m) = true /\ group 1 m <> [].
Proof.
  intros (before & u & after & _ & H)%search_sound.
  unfold gpa_detail_re in H.
  seq_in H H1 H. seq_in H H2 H. grp_in H.
  apply matches_lit in H1 as [-> ->].
  apply matches_plus_class in H2 as (_ & _ & ->).
  apply matches_plus_class in H as (Hall & Hne & ->).
  done.
Qed.

Lemma group_or_empty_all cls r text :
  (forall m, search r text = Some m -> forallb cls (group 1 m) = true) ->
  forallb cls (group_or_empty 1 (search r text)) = true.
Proof.
  intros H. destruct (search r text) as [m|]; [by apply H|reflexivity].
Qed.

(** The numbers read off the detail row are made of digits, and of digits
    and points. *)
Lemma detail_numbers next :
  forallb isdigit (gre_verbal (parse_detail next)) = true
  /\ forallb isdigit (gre_quant (parse_detail next)) = true
  /\ forallb digit_or_dot (gpa (parse_detail next)) = true
  /\ forallb digit_or_dot (gre_aw (parse_detail next)) = true.
Proof.
  unfold parse_detail. destruct next as [nr|]; [|done].
  destruct (length (cells nr) =? 1)%nat; [|done].
  cbn [gre_verbal gre_quant gpa gre_aw].
  repeat split; apply group_or_empty_all; intros m Hm.
  - by apply (tagged_group "V" isdigit) in Hm as [? _].
  - by apply (tagged_group "Q" isdigit) in Hm as [? _].
  - by apply gpa_group in Hm as [? _].
  - by apply (tagged_group "AW" digit_or_dot) in Hm as [? _].
Qed.

End ScrapedFacts.

(** ** From the scraper to the cleaner *)

Module PipelineFacts.
Import PyStr Re Py Scrape Clean MatchSpec MatchFacts RawSpec StrFacts.
Import AdmissionSpec AdmissionFacts RecleanSpec ScrapedFacts ProgramFacts.
Local Open Scope string_scope.
Local Open Scope list_scope.

(** *** [split] on a text whose head is free of the separator *)

Lemma split_from_free (c0 : ascii) sep' : forall a cur t,
  existsb (Ascii.eqb c0) a = false ->
  split_from (c0 :: sep') 0 cur (a ++ t)
  = split_from (c0 :: sep') 0 (rev a ++ cur) t.
Proof.
  induction a as [|x a IH]; intros cur t Hfree; [reflexivity|].
  cbn [existsb] in Hfree. apply orb_false_iff in Hfree as [Hx Ha].
  cbn [app split_from startswith]. rewrite Hx. cbn [andb].
  rewrite IH by done. cbn [rev]. by rewrite <- app_assoc.
Qed.

Lemma split_free (c0 : ascii) sep' a :
  existsb (Ascii.eqb c0) a = false -> split (c0 :: sep') a = [a].
Proof.
  intros Hfree. unfold split.
  rewrite <- (app_nil_r a) at 1. rewrite split_from_free by done.
  simpl. by rewrite app_nil_r, rev_involutive.
Qed.

Lemma digits_free (c0 : ascii) t :
  isdigit c0 = false -> forallb isdigit t = true ->
  existsb (Ascii.eqb c0) t = false.
Proof.
  intros Hc Hall. induction t as [|x t IH]; [reflexivity|].
  cbn [forallb existsb] in *. apply andb_true_iff in Hall as [Hx Ht].
  rewrite (IH Ht), orb_false_r.
  destruct (Ascii.eqb c0 x) eqn:Heq; [|reflexivity].
  apply Ascii.eqb_eq in Heq. congruence.
Qed.

(** The cleaner reads the quantitative score back from the [gre_score]
    text the scraper writes. *)
Lemma quant_of_gre_score v q :
  forallb isdigit v = true -> forallb isdigit q = true ->
  quant_of (gre_score_of v q) = q.
Proof.
  intros Hv Hq. unfold gre_score_of.
  destruct (nonempty v || nonempty q) eqn:Hne.
  2:{ apply orb_false_iff in Hne as [_ Hq0]. by destruct q. }
  unfold quant_of.
  assert (Hin : contains "Q:" ("V:" ++ v ++ ", Q:" ++ q) = true).
  { apply contains_spec. exists ("V:" ++ v ++ ", "), q.
    by rewrite <- !app_assoc. }
  rewrite Hin.
  assert (Hsplit : split "Q:" ("V:" ++ v ++ ", Q:" ++ q)
                   = ["V:" ++ v ++ ", "; q]).
  { unfold split.
    change (list_ascii_of_string "Q:") with ("Q"%char :: [":"%char]).
    replace ((("V:" : pystr) ++ v ++ ", Q:" ++ q))
      with ((("V:" : pystr) ++ v ++ ", ") ++ ("Q:" ++ q))
      by (by rewrite <- !app_assoc).
    rewrite split_from_free.
    2:{ rewrite !existsb_app, (digits_free "Q" v) by done. reflexivity. }
    cbn -[rev]. rewrite app_nil_r, rev_involutive. f_equal.
    rewrite <- (app_nil_r q) at 1.
    rewrite split_from_free by (by apply digits_free).
    simpl. by rewrite app_nil_r, rev_involutive. }
  rewrite Hsplit. cbn [List.last].
  change (list_ascii_of_string ",") with [","%char].
  rewrite split_free by (by apply digits_free). reflexivity.
Qed.

Section WithUrljoin.
Variable urljoin : pystr -> pystr -> option pystr.

(** The record of a primary row. *)
Lemma extract_raw row next :
  4 <= length (cells row) ->
  let decision := parse_decision (nth 3 (cells row) []) in
  let dt := parse_detail next in
  _extract_entry_data urljoin row next
  = match first_result_link urljoin (hrefs row) with
    | Some entry_url =>
        Some (raw_record
                (fst (parse_program (nth 1 (cells row) [])))
                (nth 0 (cells row) []) [] (nth 2 (cells row) [])
                entry_url
                (fst decision)
                (if str_eqb (lower (fst decision)) "accepted"
                 then snd decision else [])
                (if str_eqb (lower (fst decision)) "rejected"
                 then snd decision else [])
                (semester_year dt) (international_status dt)
                (gre_score_of (gre_verbal dt) (gre_quant dt))
                (gre_verbal dt)
                (snd (parse_program (nth 1 (cells row) [])))
                (gpa dt) (gre_aw dt))
    | None => None
    end.
Proof.
  intros Hcells. unfold _extract_entry_data.
  destruct (Nat.ltb_spec (length (cells row)) 4) as [|_]; [lia|].
  reflexivity.
Qed.

Lemma extract_inv row next e :
  _extract_entry_data urljoin row next = Some e -> 4 <= length (cells row).
Proof.
  unfold _extract_entry_data.
  destruct (Nat.ltb_spec (length (cells row)) 4) as [|H]; [discriminate|].
  done.
Qed.

End WithUrljoin.

(** The cleaning of a record made by the scraper. *)
Lemma clean_raw_try pn un cm da url st ad rd sy ia gs gv dg gp aw :
  let c :=
    cleaned_record (_clean_text pn) (_clean_text un) (_clean_text cm)
      (PStr url) (_standardize_decision_status st)
      (_clean_date da) (_clean_date ad) (_clean_date rd)
      (fst (_clean_semester_year sy)) (snd (_clean_semester_year sy))
      (international_of (_clean_text ia))
      (_clean_gpa gp) (_clean_gre_score gv) (_clean_gre_score (quant_of gs))
      (_clean_gre_aw aw) (_clean_degree_type dg) in
  clean_entry_try (raw_record pn un cm da url st ad rd sy ia gs gv dg gp aw)
  = Ok (if negb ((length (_clean_text un) =? 0)%nat
                 || str_eqb (strip (_clean_text un)) "")
           && negb ((length (_clean_text pn) =? 0)%nat
                    || str_eqb (strip (_clean_text pn)) "")
        then Some c else None).
Proof.
  intros c. unfold clean_entry_try, quant_fragment.
  replace (get (raw_record pn un cm da url st ad rd sy ia gs gv dg gp aw)
               "program_name") with (PStr pn) by reflexivity.
  replace (get (raw_record pn un cm da url st ad rd sy ia gs gv dg gp aw)
               "university") with (PStr un) by reflexivity.
  replace (get (raw_record pn un cm da url st ad rd sy ia gs gv dg gp aw)
               "comments") with (PStr cm) by reflexivity.
  replace (get (raw_record pn un cm da url st ad rd sy ia gs gv dg gp aw)
               "url") with (PStr url) by reflexivity.
  replace (get (raw_record pn un cm da url st ad rd sy ia gs gv dg gp aw)
               "applicant_status") with (PStr st) by reflexivity.
  replace (get (raw_record pn un cm da url st ad rd sy ia gs gv dg gp aw)
               "date_added") with (PStr da) by reflexivity.
  replace (get (raw_record pn un cm da url st ad rd sy ia gs gv dg gp aw)
               "acceptance_date") with (PStr ad) by reflexivity.
  replace (get (raw_record pn un cm da url st ad rd sy ia gs gv dg gp aw)
               "rejection_date") with (PStr rd) by reflexivity.
  replace (get (raw_record pn un cm da url st ad rd sy ia gs gv dg gp aw)
               "semester_year") with (PStr sy) by reflexivity.
  replace (get (raw_record pn un cm da url st ad rd sy ia gs gv dg gp aw)
               "international_american") with (PStr ia) by reflexivity.
  replace (get (raw_record pn un cm da url st ad rd sy ia gs gv dg gp aw)
               "gpa") with (PStr gp) by reflexivity.
  replace (get (raw_record pn un cm da url st ad rd sy ia gs gv dg gp aw)
               "gre_verbal") with (PStr gv) by reflexivity.
  replace (get (raw_record pn un cm da url st ad rd sy ia gs gv dg gp aw)
               "gre_score") with (PStr gs) by reflexivity.
  replace (get (raw_record pn un cm da url st ad rd sy ia gs gv dg gp aw)
               "gre_aw") with (PStr aw) by reflexivity.
  replace (get (raw_record pn un cm da url st ad rd sy ia gs gv dg gp aw)
               "degree_type") with (PStr dg) by reflexivity.
  cbn [dyn py_in py_split mbind exc_bind].
  fold (international_of (_clean_text ia)).
  replace (if contains "Q:" gs
           then Ok (List.hd [] (split "," (List.last (split "Q:" gs) [])))
           else Ok []) with (@Ok pystr (quant_of gs))
    by (unfold quant_of; by destruct (contains "Q:" gs)).
  cbn [mbind exc_bind].
  erewrite validate_strings
    by (rewrite !lookup_insert_ne by discriminate; apply lookup_insert_eq).
  cbn [mbind exc_bind]. subst c. unfold cleaned_record.
  by destruct (_ && _).
Qed.

End PipelineFacts.

(** ** The cleaning of a scraped record *)

Module PipelineThms.
Import PyStr Re Py Scrape Clean MatchSpec MatchFacts RawSpec StrFacts.
Import AdmissionSpec AdmissionFacts RecleanSpec ScrapedFacts ProgramFacts.
Import PipelineSpec PipelineFacts.
Local Open Scope string_scope.
Local Open Scope list_scope.

Lemma forallb_In {A} (f : A -> bool) l x :
  forallb f l = true -> In x l -> f x = true.
Proof. intros H. by apply forallb_forall. Qed.

(** The cleaning of [semester year] for every label and every year of four
    digits. *)
Lemma semester_table :
  forallb (fun l : string =>
    forallb (fun a => forallb (fun b => forallb (fun c => forallb (fun d =>
      pair_eqb (_clean_semester_year (l ++ " " ++ [a; b; c; d]))
               (l : pystr, year_of [a; b; c; d]))
      digit_chars) digit_chars) digit_chars) digit_chars)
    semester_labels = true.
Proof. vm_compute. reflexivity. Qed.

Lemma digit_in_chars a : isdigit a = true -> In a digit_chars.
Proof.
  destruct a as [[] [] [] [] [] [] [] []]; vm_compute; intros H;
    try discriminate; tauto.
Qed.

Lemma pair_eqb_spec x y : pair_eqb x y = true -> x = y.
Proof.
  destruct x, y. unfold pair_eqb. simpl.
  intros [H1%str_eqb_spec H2%str_eqb_spec]%andb_true_iff. congruence.
Qed.

Lemma clean_semester_label (l : string) y :
  In l semester_labels -> forallb isdigit y = true -> length y = 4 ->
  _clean_semester_year (l ++ " " ++ y) = (l : pystr, year_of y).
Proof.
  intros Hl Hy Hlen.
  destruct y as [|a [|b [|c [|d [|]]]]]; try discriminate.
  cbn [forallb] in Hy.
  apply andb_true_iff in Hy as [Ha Hy]. apply andb_true_iff in Hy as [Hb Hy].
  apply andb_true_iff in Hy as [Hc Hy]. apply andb_true_iff in Hy as [Hd _].
  apply pair_eqb_spec.
  exact (forallb_In _ _ d (forallb_In _ _ c (forallb_In _ _ b
           (forallb_In _ _ a (forallb_In _ _ l semester_table Hl)
              (digit_in_chars a Ha)) (digit_in_chars b Hb))
              (digit_in_chars c Hc)) (digit_in_chars d Hd)).
Qed.

(** The [semester_year] of the detail row and its cleaning. *)
Lemma detail_semester next :
  let dt := parse_detail next in
  (semester_year dt = [] /\ _clean_semester_year (semester_year dt) = ([], []))
  \/ exists (l : string) y,
       In l semester_labels /\ forallb isdigit y = true /\ length y = 4
       /\ semester_year dt = l ++ " " ++ y
       /\ _clean_semester_year (semester_year dt) = (l : pystr, year_of y).
Proof.
  unfold parse_detail. destruct next as [nr|]; [|by left].
  destruct (length (cells nr) =? 1)%nat; [|by left].
  cbn [semester_year].
  destruct (search semester_re (row_text nr)) as [m|] eqn:Hm; [|by left].
  apply semester_groups in Hm as ((l & Hl & ->) & Hy & Hlen).
  right. exists l, (group 2 m). repeat split; try done.
  by apply clean_semester_label.
Qed.

Lemma detail_international next :
  let ia := international_status (parse_detail next) in
  international_of (_clean_text ia) = ia.
Proof.
  unfold parse_detail. destruct next as [nr|]; [|by vm_compute].
  destruct (length (cells nr) =? 1)%nat; [|by vm_compute].
  cbn [international_status].
  destruct (contains "International" _); [by vm_compute|].
  destruct (_ || _); by vm_compute.
Qed.

Lemma program_degree text :
  exists p, In p degree_table
            /\ snd (parse_program text) = (fst p : pystr)
            /\ _clean_degree_type (fst p) = (snd p : pystr).
Proof.
  unfold parse_program. destruct (nonempty text).
  2:{ exists ("", ""). split; [by left|]. by vm_compute. }
  rewrite (split_degree_first _ _ degree_keywords_nonempty).
  destruct (List.find _ degree_keywords) as [degree|] eqn:Hfind.
  2:{ exists ("", ""). split; [by left|]. by vm_compute. }
  apply find_some in Hfind as [Hin _]. simpl in Hin.
  destruct Hin as [<-|[<-|[<-|[<-|[<-|[<-|[<-|[<-|[]]]]]]]]];
    [exists ("Masters", "Masters")|exists ("PhD", "PhD")
    |exists ("MS", "Masters")|exists ("MA", "Masters")
    |exists ("Doctorate", "PhD")|exists ("Bachelors", "Bachelors")
    |exists ("BS", "Bachelors")|exists ("BA", "Bachelors")];
    (split; [simpl; tauto|by vm_compute]).
Qed.

Lemma decision_label_standard (l : string) :
  In l decision_labels -> _standardize_decision_status l = l.
Proof.
  simpl. intros [<-|[<-|[<-|[<-|[]]]]]; by vm_compute.
Qed.

Lemma parse_decision_spec text :
  let d := parse_decision text in
  snd d = []
  \/ (exists l : string, In l decision_labels /\ fst d = l).
Proof.
  unfold parse_decision. destruct (nonempty text); [|by left].
  destruct (search decision_re text) as [m|] eqn:Hm; [|by left].
  apply decision_groups in Hm as (Hl & _). by right.
Qed.



Section WithUrljoin.
Variable urljoin : pystr -> pystr -> option pystr.

Lemma extracted_is_raw row next e :
  _extract_entry_data urljoin row next = Some e ->
  let decision := parse_decision (nth 3 (cells row) []) in
  let dt := parse_detail next in
  e = raw_record
        (fst (parse_program (nth 1 (cells row) [])))
        (nth 0 (cells row) []) [] (nth 2 (cells row) [])
        (default [] (first_result_link urljoin (hrefs row)))
        (fst decision)
        (if str_eqb (lower (fst decision)) "accepted"
         then snd decision else [])
        (if str_eqb (lower (fst decision)) "rejected"
         then snd decision else [])
        (semester_year dt) (international_status dt)
        (gre_score_of (gre_verbal dt) (gre_quant dt))
        (gre_verbal dt)
        (snd (parse_program (nth 1 (cells row) [])))
        (gpa dt) (gre_aw dt).
Proof.
  intros He. pose proof (extract_inv urljoin _ _ _ He) as Hcells.
  rewrite (extract_raw urljoin row next Hcells) in He. cbv zeta in He.
  destruct (first_result_link urljoin (hrefs row)); [|discriminate].
  by injection He.
Qed.

Lemma cleaned_raw pn un cm da url st ad rd sy ia gs gv dg gp aw c :
  clean_entry (raw_record pn un cm da url st ad rd sy ia gs gv dg gp aw)
  = Some c ->
  c = cleaned_record (_clean_text pn) (_clean_text un) (_clean_text cm)
        (PStr url) (_standardize_decision_status st)
        (_clean_date da) (_clean_date ad) (_clean_date rd)
        (fst (_clean_semester_year sy)) (snd (_clean_semester_year sy))
        (international_of (_clean_text ia))
        (_clean_gpa gp) (_clean_gre_score gv) (_clean_gre_score (quant_of gs))
        (_clean_gre_aw aw) (_clean_degree_type dg).
Proof.
  unfold clean_entry. rewrite clean_raw_try. cbv zeta.
  destruct (_ && _); [|discriminate]. by intros [= <-].
Qed.

(** X17: the cleaner raises on no record of the scraper, and keeps the
    record of a row exactly when the institution cell and the program name
    hold a character that is not whitespace after text cleaning. *)
Theorem scraped_record_is_cleanable (row : tr) (next : option tr) (e : dict) :
  _extract_entry_data urljoin row next = Some e ->
  (exists r, clean_entry_try e = Ok r)
  /\ (is_Some (clean_entry e)
      <-> strip (_clean_text (nth 0 (cells row) [])) <> []
          /\ strip (_clean_text (fst (parse_program (nth 1 (cells row) []))))
             <> []).
Proof.
  intros He. rewrite (extracted_is_raw _ _ _ He). cbv zeta.
  unfold clean_entry. rewrite clean_raw_try. cbv zeta.
  split; [eauto|].
  destruct (_ || _) eqn:Hu; cbn [negb andb].
  { apply blank_spec in Hu. split; [by intros [? ?]|]. by intros [? _]. }
  destruct (_ || _) eqn:Hp in |- *; cbn [negb andb].
  { apply blank_spec in Hp. split; [by intros [? ?]|]. by intros [_ ?]. }
  split; [|eauto]. intros _.
  split; intros H%blank_spec;
    change (list_ascii_of_string "") with (@nil ascii) in *; congruence.
Qed.

(** X18: the quantitative score that the scraper writes into the text
    [V:.., Q:..] of [gre_score] is the one the cleaner reads back: the
    [gre_quantitative] of the cleaned record is the cleaned [gre_quant] of
    the detail row. *)
Theorem quantitative_score_round_trip
    (row : tr) (next : option tr) (e c : dict) :
  _extract_entry_data urljoin row next = Some e ->
  clean_entry e = Some c ->
  e !! "gre_score"
  = Some (PStr (gre_score_of (gre_verbal (parse_detail next))
                             (gre_quant (parse_detail next))))
  /\ c !! "gre_quantitative"
     = Some (PStr (_clean_gre_score (gre_quant (parse_detail next)))).
Proof.
  intros He Hc. rewrite (extracted_is_raw _ _ _ He) in Hc |- *.
  cbv zeta in *. rewrite (cleaned_raw _ _ _ _ _ _ _ _ _ _ _ _ _ _ _ _ Hc).
  split; [reflexivity|].
  destruct (detail_numbers next) as (Hv & Hq & _).
  rewrite <- (quant_of_gre_score _ _ Hv Hq) at 2. reflexivity.
Qed.

(** X19: the [semester_year] of a scraped record is empty or a label
    followed by a year of four digits, and the cleaner splits it back into
    that label and that year, the year being dropped unless it starts with
    [20]. *)
Theorem semester_year_is_split (row : tr) (next : option tr) (e c : dict) :
  _extract_entry_data urljoin row next = Some e ->
  clean_entry e = Some c ->
  (e !! "semester_year" = Some (PStr [])
   /\ c !! "semester" = Some (PStr []) /\ c !! "year" = Some (PStr []))
  \/ exists (l : string) y,
       In l semester_labels /\ forallb isdigit y = true /\ length y = 4
       /\ e !! "semester_year" = Some (PStr (l ++ " " ++ y))
       /\ c !! "semester" = Some (PStr l)
       /\ c !! "year" = Some (PStr (year_of y)).
Proof.
  intros He Hc. rewrite (extracted_is_raw _ _ _ He) in Hc |- *.
  cbv zeta in *. rewrite (cleaned_raw _ _ _ _ _ _ _ _ _ _ _ _ _ _ _ _ Hc).
  destruct (detail_semester next) as [[H1 H2]|(l & y & Hl & Hy & Hlen & H1 & H2)].
  - left. rewrite H1 in *. by vm_compute.
  - right. exists l, y. repeat split; try done.
    + change (Some (PStr (semester_year (parse_detail next)))
              = Some (PStr (l ++ " " ++ y))). by rewrite H1.
    + change (Some (PStr (fst (_clean_semester_year
                                 (semester_year (parse_detail next)))))
              = Some (PStr l)). by rewrite H2.
    + change (Some (PStr (snd (_clean_semester_year
                                 (semester_year (parse_detail next)))))
              = Some (PStr (year_of y))). by rewrite H2.
Qed.

(** X20: the [degree_type] of a scraped record is one of the eight degree
    keywords or empty, and the cleaner turns it into the label of the
    table: [Masters], [PhD], [Bachelors] or empty. *)
Theorem degree_type_is_standardized
    (row : tr) (next : option tr) (e c : dict) :
  _extract_entry_data urljoin row next = Some e ->
  clean_entry e = Some c ->
  exists p, In p degree_table
            /\ e !! "degree_type" = Some (PStr (fst p))
            /\ c !! "degree_type" = Some (PStr (snd p)).
Proof.
  intros He Hc. rewrite (extracted_is_raw _ _ _ He) in Hc |- *.
  cbv zeta in *. rewrite (cleaned_raw _ _ _ _ _ _ _ _ _ _ _ _ _ _ _ _ Hc).
  destruct (program_degree (nth 1 (cells row) [])) as (p & Hp & H1 & H2).
  exists p. split; [done|]. split.
  - change (Some (PStr (snd (parse_program (nth 1 (cells row) []))))
            = Some (PStr (fst p))). by rewrite H1.
  - change (Some (PStr (_clean_degree_type
                          (snd (parse_program (nth 1 (cells row) [])))))
            = Some (PStr (snd p))). by rewrite H1, H2.
Qed.

(** X15: a scraped record has an [acceptance_date] only when its status is
    exactly [Accepted], a [rejection_date] only when it is exactly
    [Rejected], and never both. *)
Theorem decision_dates_follow_status (row : tr) (next : option tr) (e : dict) :
  _extract_entry_data urljoin row next = Some e ->
  exists status acc rej,
    e !! "applicant_status" = Some (PStr status)
    /\ e !! "acceptance_date" = Some (PStr acc)
    /\ e !! "rejection_date" = Some (PStr rej)
    /\ (acc <> [] -> status = ("Accepted" : pystr) /\ rej = [])
    /\ (rej <> [] -> status = ("Rejected" : pystr) /\ acc = []).
Proof.
  intros He. rewrite (extracted_is_raw _ _ _ He). cbv zeta.
  set (d := parse_decision (nth 3 (cells row) [])).
  do 3 eexists. split; [reflexivity|]. split; [reflexivity|].
  split; [reflexivity|].
  destruct (parse_decision_spec (nth 3 (cells row) [])) as [Hd|(l & Hl & Hd)];
    fold d in Hd; clearbody d.
  { rewrite Hd. split; by destruct (str_eqb _ _). }
  rewrite Hd. simpl in Hl.
  destruct Hl as [<-|[<-|[<-|[<-|[]]]]]; split; by vm_compute.
Qed.

(** X21: the labels the scraper writes pass the cleaner unchanged: the
    international status always, the decision status whenever the decision
    cell had the form [Label on date]; the [url] is copied. *)
Theorem scraped_labels_survive_cleaning
    (row : tr) (next : option tr) (e c : dict) :
  _extract_entry_data urljoin row next = Some e ->
  clean_entry e = Some c ->
  c !! "international_american" = e !! "international_american"
  /\ c !! "url" = e !! "url"
  /\ (snd (parse_decision (nth 3 (cells row) [])) <> [] ->
      c !! "applicant_status" = e !! "applicant_status").
Proof.
  intros He Hc. rewrite (extracted_is_raw _ _ _ He) in Hc |- *.
  cbv zeta in *. rewrite (cleaned_raw _ _ _ _ _ _ _ _ _ _ _ _ _ _ _ _ Hc).
  split; [|split; [reflexivity|]].
  - change (Some (PStr (international_of (_clean_text
                          (international_status (parse_detail next)))))
            = Some (PStr (international_status (parse_detail next)))).
    by rewrite detail_international.
  - intros Hdate.
    destruct (parse_decision_spec (nth 3 (cells row) [])) as [Hd|(l & Hl & Hd)];
      [done|].
    change (Some (PStr (_standardize_decision_status
                          (fst (parse_decision (nth 3 (cells row) [])))))
            = Some (PStr (fst (parse_decision (nth 3 (cells row) []))))).
    by rewrite Hd, decision_label_standard.
Qed.

End WithUrljoin.


(** The record of the sample row and its cleaning. *)
Abbreviation sample_raw :=
  (default ∅ (_extract_entry_data Samples.join_url primary_row
                (Some detail_row))).

Abbreviation sample_cleaned := (default ∅ (clean_entry sample_raw)).

Lemma scraped_record_is_cleanable_witness :
  _extract_entry_data Samples.join_url primary_row (Some detail_row)
  = Some sample_raw
  /\ exists r, clean_entry_try sample_raw = Ok r.
Proof.
  assert (H : _extract_entry_data Samples.join_url primary_row
                (Some detail_row) = Some sample_raw) by reflexivity.
  split; [exact H|].
  exact (proj1 (scraped_record_is_cleanable Samples.join_url _ _ _ H)).
Defined.

Lemma quantitative_score_round_trip_witness :
  _extract_entry_data Samples.join_url primary_row (Some detail_row)
  = Some sample_raw
  /\ clean_entry sample_raw = Some sample_cleaned
  /\ sample_cleaned !! "gre_quantitative"
     = Some (PStr (_clean_gre_score
                     (gre_quant (parse_detail (Some detail_row))))).
Proof.
  assert (H : _extract_entry_data Samples.join_url primary_row
                (Some detail_row) = Some sample_raw) by reflexivity.
  assert (Hc : clean_entry sample_raw = Some sample_cleaned) by reflexivity.
  split; [exact H|]. split; [exact Hc|].
  exact (proj2 (quantitative_score_round_trip Samples.join_url _ _ _ _ H Hc)).
Defined.

Lemma semester_year_is_split_witness :
  _extract_entry_data Samples.join_url primary_row (Some detail_row)
  = Some sample_raw
  /\ clean_entry sample_raw = Some sample_cleaned
  /\ ((sample_raw !! "semester_year" = Some (PStr [])
       /\ sample_cleaned !! "semester" = Some (PStr [])
       /\ sample_cleaned !! "year" = Some (PStr []))
      \/ exists (l : string) y,
           In l semester_labels /\ forallb isdigit y = true /\ length y = 4
           /\ sample_raw !! "semester_year" = Some (PStr (l ++ " " ++ y))
           /\ sample_cleaned !! "semester" = Some (PStr l)
           /\ sample_cleaned !! "year" = Some (PStr (year_of y))).
Proof.
  assert (H : _extract_entry_data Samples.join_url primary_row
                (Some detail_row) = Some sample_raw) by reflexivity.
  assert (Hc : clean_entry sample_raw = Some sample_cleaned) by reflexivity.
  split; [exact H|]. split; [exact Hc|].
  exact (semester_year_is_split Samples.join_url _ _ _ _ H Hc).
Defined.

Lemma degree_type_is_standardized_witness :
  _extract_entry_data Samples.join_url primary_row (Some detail_row)
  = Some sample_raw
  /\ clean_entry sample_raw = Some sample_cleaned
  /\ exists p, In p degree_table
               /\ sample_raw !! "degree_type" = Some (PStr (fst p))
               /\ sample_cleaned !! "degree_type" = Some (PStr (snd p)).
Proof.
  assert (H : _extract_entry_data Samples.join_url primary_row
                (Some detail_row) = Some sample_raw) by reflexivity.
  assert (Hc : clean_entry sample_raw = Some sample_cleaned) by reflexivity.
  split; [exact H|]. split; [exact Hc|].
  exact (degree_type_is_standardized Samples.join_url _ _ _ _ H Hc).
Defined.

Lemma decision_dates_follow_status_witness :
  _extract_entry_data Samples.join_url primary_row (Some detail_row)
  = Some sample_raw
  /\ exists status acc rej,
       sample_raw !! "applicant_status" = Some (PStr status)
       /\ sample_raw !! "acceptance_date" = Some (PStr acc)
       /\ sample_raw !! "rejection_date" = Some (PStr rej)
       /\ (acc <> [] -> status = ("Accepted" : pystr) /\ rej = []).
Proof.
  assert (H : _extract_entry_data Samples.join_url primary_row
                (Some detail_row) = Some sample_raw) by reflexivity.
  split; [exact H|].
  destruct (decision_dates_follow_status Samples.join_url _ _ _ H)
    as (status & acc & rej & H1 & H2 & H3 & H4 & _).
  exists status, acc, rej. auto.
Defined.

Lemma scraped_labels_survive_cleaning_witness :
  _extract_entry_data Samples.join_url primary_row (Some detail_row)
  = Some sample_raw
  /\ clean_entry sample_raw = Some sample_cleaned
  /\ sample_cleaned !! "international_american"
     = sample_raw !! "international_american"
  /\ sample_cleaned !! "url" = sample_raw !! "url".
Proof.
  assert (H : _extract_entry_data Samples.join_url primary_row
                (Some detail_row) = Some sample_raw) by reflexivity.
  assert (Hc : clean_entry sample_raw = Some sample_cleaned) by reflexivity.
  split; [exact H|]. split; [exact Hc|].
  destruct (scraped_labels_survive_cleaning Samples.join_url _ _ _ _ H Hc)
    as (H1 & H2 & _).
  auto.
Defined.

End PipelineThms.

(** ** The numbers the cleaner lets through *)

Module NumberThms.
Import PyStr Re Py Clean ScanSpec NumberSpec FloatSpec.
Import SchemaSpec StrFacts ReFacts TextFacts NumberFacts AdmissionFacts.
Local Open Scope string_scope.
Local Open Scope list_scope.

Lemma match_here_score t :
  match_here score_re t
  = match t with
    | a :: _ =>
        if isdigit a
        then Some (drop_while isdigit t, [(1, take_while isdigit t)])
        else None
    | [] => None
    end.
Proof.
  unfold match_here, score_re, digit. rewrite rmatch_grp, rmatch_plus_class.
  destruct t as [|a t]; [reflexivity|].
  destruct (isdigit a) eqn:Ha; [|reflexivity].
  destruct (star_results_head isdigit t []) as [others ->].
  cbn [map head]. cbn [drop_while take_while]. rewrite Ha.
  do 4 f_equal. apply firstn_split.
  simpl. f_equal. apply take_drop_while.
Qed.

Lemma search_score t :
  search score_re t = option_map (fun ds => [(1, ds)]) (first_digits t).
Proof.
  induction t as [|a t IH]; [reflexivity|].
  cbn [search first_digits]. rewrite match_here_score.
  destruct (isdigit a); [reflexivity|exact IH].
Qed.

Lemma take_while_forallb p t : forallb p (take_while p t) = true.
Proof.
  induction t as [|a t IH]; [reflexivity|]. simpl.
  destruct (p a) eqn:Ha; [|reflexivity]. simpl. by rewrite Ha.
Qed.

Lemma first_digits_spec t : forall ds,
  first_digits t = Some ds -> forallb isdigit ds = true /\ ds <> [].
Proof.
  induction t as [|a t IH]; intros ds; [discriminate|]. cbn [first_digits].
  destruct (isdigit a) eqn:Ha; [|apply IH].
  intros [= <-]. split; [apply (take_while_forallb isdigit (a :: t))|].
  by rewrite Ha.
Qed.

Lemma hundredths_shape :
  forallb (fun n => str_eqb (fixed_of 2 n) (two_decimals n)) hundredths = true.
Proof. vm_compute. reflexivity. Qed.

Lemma tenths_shape :
  forallb (fun n => str_eqb (fixed_of 1 n) (one_decimal n)) tenths = true.
Proof. vm_compute. reflexivity. Qed.

(** X4: [_clean_gpa] returns the empty string or a number between 0.00 and
    4.00 written as one digit, a point and two digits, whatever the
    input. *)
Theorem gpa_output_range (gpa_str : pystr) :
  _clean_gpa gpa_str = []
  \/ exists n, (0 <= n <= 400)%Z
               /\ _clean_gpa gpa_str = fixed_of 2 n
               /\ _clean_gpa gpa_str = two_decimals n.
Proof.
  destruct (clean_gpa_cases gpa_str) as [H|(n & Hn & H)]; [by left|].
  right. exists n. split; [done|]. split; [done|]. rewrite H.
  pose proof hundredths_shape as Hs. rewrite forallb_forall in Hs.
  apply str_eqb_spec, (Hs n). by apply in_hundredths.
Qed.

(** X5: [_clean_gre_aw] returns the empty string or a number between 0.0
    and 6.0 written as one digit, a point and one digit, whatever the
    input. *)
Theorem gre_aw_output_range (aw_str : pystr) :
  _clean_gre_aw aw_str = []
  \/ exists n, (0 <= n <= 60)%Z
               /\ _clean_gre_aw aw_str = fixed_of 1 n
               /\ _clean_gre_aw aw_str = one_decimal n.
Proof.
  destruct (clean_gre_aw_cases aw_str) as [H|(n & Hn & H)]; [by left|].
  right. exists n. split; [done|]. split; [done|]. rewrite H.
  pose proof tenths_shape as Hs. rewrite forallb_forall in Hs.
  apply str_eqb_spec, (Hs n). by apply in_tenths.
Qed.

Lemma clean_gre_score_first score_str :
  _clean_gre_score score_str
  = match first_digits (_clean_text score_str) with
    | Some ds =>
        if (length ds <=? max_str_digits)%nat && valid_score (digits_val ds)
        then str_of_Z (digits_val ds)
        else []
    | None => []
    end.
Proof.
  unfold _clean_gre_score.
  destruct score_str as [|a0 s0]; [reflexivity|].
  cbn [length Nat.eqb]. rewrite search_score.
  destruct (first_digits _) as [ds|] eqn:Hds; [|reflexivity].
  cbn [option_map group Nat.eqb].
  apply first_digits_spec in Hds as [Hall Hne].
  unfold int_of_str. destruct ds as [|d ds]; [done|].
  rewrite Hall. cbn [andb].
  destruct (length (d :: ds) <=? max_str_digits)%nat; [|reflexivity].
  cbn [andb]. unfold valid_score.
  destruct ((130 <=? _)%Z && (_ <=? 170)%Z); [reflexivity|].
  cbn [orb]. by destruct ((200 <=? _)%Z && (_ <=? 800)%Z).
Qed.

Lemma clean_gre_score_cases score_str : score_text (_clean_gre_score score_str).
Proof.
  unfold score_text. rewrite clean_gre_score_first.
  destruct (first_digits _) as [ds|]; [|by left].
  destruct (_ && _) eqn:Hok; [|by left].
  right. exists (digits_val ds). split; [|reflexivity].
  apply andb_true_iff in Hok as [_ Hv]. unfold valid_score in Hv. lia.
Qed.

(** X6: [_clean_gre_score] reads the first run of digits of the cleaned
    text and nothing else: the result is its value in decimal when it lies
    within 130..170 or 200..800 and the run has at most 4300 digits, and
    the empty string in every other case. *)
Theorem gre_score_reads_first_number (score_str : pystr) :
  _clean_gre_score score_str
  = match first_digits (_clean_text score_str) with
    | Some ds =>
        if (length ds <=? max_str_digits)%nat && valid_score (digits_val ds)
        then str_of_Z (digits_val ds)
        else []
    | None => []
    end
  /\ (_clean_gre_score score_str = []
      \/ exists n, (130 <= n <= 170 \/ 200 <= n <= 800)%Z
                   /\ _clean_gre_score score_str = str_of_Z n).
Proof.
  split; [apply clean_gre_score_first|apply clean_gre_score_cases].
Qed.

(** X7: [float] never raises on the number the pattern of [_clean_gpa] and
    [_clean_gre_aw] captures, and [int] raises on the number the pattern
    of [_clean_gre_score] captures only when it has more than 4300
    digits. *)
Theorem number_parsers_seldom_raise (t : pystr) (m : caps) :
  (search gpa_re t = Some m -> is_Some (PyFloat.float_of_str (group 1 m)))
  /\ (search score_re t = Some m ->
      (int_of_str (group 1 m) = None
       <-> max_str_digits < length (group 1 m))).
Proof.
  split.
  - rewrite search_decimal.
    destruct (first_decimal t) as [num|] eqn:Hnum; [|discriminate].
    intros [= <-]. cbn [group Nat.eqb].
    exact (float_of_first_decimal t num Hnum).
  - rewrite search_score.
    destruct (first_digits t) as [ds|] eqn:Hds; [|discriminate].
    intros [= <-]. cbn [group Nat.eqb].
    apply first_digits_spec in Hds as [Hall Hne].
    unfold int_of_str. destruct ds as [|d ds]; [done|].
    rewrite Hall. cbn [andb].
    destruct (Nat.leb_spec (length (d :: ds)) max_str_digits); split;
      try done; lia.
Qed.

End NumberThms.

(** ** The text [_clean_text] returns *)

Module TextThms.
Import PyStr Re Py Clean ScanSpec TextSpec MatchSpec MatchFacts.
Import StrFacts ReFacts TextFacts AdmissionFacts RecleanFacts.
Local Open Scope string_scope.
Local Open Scope list_scope.

(** *** The characters of the result of [re.sub] *)

Lemma sub_loop_chars r repl x : forall fuel t,
  In x (sub_loop fuel r repl t) -> In x repl \/ In x t.
Proof.
  induction fuel as [|fuel IH]; intros t; [by right|].
  destruct t as [|a t]; [by right|]. cbn [sub_loop].
  destruct (match_here r (a :: t)) as [[rest c]|] eqn:Hm.
  - destruct (length rest <? length (a :: t))%nat.
    + intros [H|H]%in_app_iff; [by left|].
      apply IH in H as [H|H]; [by left|]. right.
      apply match_here_sound in Hm as (u & -> & _).
      apply in_app_iff. by right.
    + intros [<-|H]; [right; by left|].
      apply IH in H as [H|H]; [by left|]. right. by right.
  - intros [<-|H]; [right; by left|].
    apply IH in H as [H|H]; [by left|]. right. by right.
Qed.

Lemma lstrip_chars x t : In x (lstrip t) -> In x t.
Proof.
  induction t as [|a t IH]; [done|]. simpl.
  destruct (isspace a); [intros H; right; by apply IH|done].
Qed.

Lemma strip_chars x t : In x (strip t) -> In x t.
Proof.
  unfold strip, rstrip. rewrite <- in_rev. intros H%lstrip_chars.
  apply in_rev in H. by apply lstrip_chars.
Qed.

(** *** Collapsing the whitespace *)

Lemma collapse_step fuel a t :
  length t <= fuel ->
  sub_loop (S fuel) ws_re " " (a :: t)
  = if isspace a
    then " "%char :: sub_loop fuel ws_re " " (drop_while isspace t)
    else a :: sub_loop fuel ws_re " " t.
Proof.
  intros Hfuel. cbn [sub_loop]. unfold ws_re, space.
  rewrite match_here_plus_class.
  destruct (isspace a); [|reflexivity].
  pose proof (drop_while_length isspace t) as Hlen.
  destruct (Nat.ltb_spec (length (drop_while isspace t))
              (length (a :: t))) as [_|H]; [reflexivity|simpl in H; lia].
Qed.

Lemma collapse_head fuel b t :
  isspace b = false ->
  sub_loop (S fuel) ws_re " " (b :: t) = b :: sub_loop fuel ws_re " " t.
Proof.
  intros Hb. cbn [sub_loop]. unfold ws_re, space.
  rewrite match_here_plus_class. by rewrite Hb.
Qed.

Lemma collapse_spaced : forall fuel t,
  length t <= fuel -> single_spaced (sub_loop fuel ws_re " " t) = true.
Proof.
  induction fuel as [|fuel IH]; intros t Hfuel.
  - destruct t; [reflexivity|simpl in Hfuel; lia].
  - destruct t as [|a t]; [reflexivity|]. simpl in Hfuel.
    rewrite collapse_step by lia.
    pose proof (drop_while_length isspace t) as Hlen.
    destruct (isspace a) eqn:Ha.
    + cbn [single_spaced]. rewrite IH by lia.
      change (isspace " ") with true. cbn [Ascii.eqb Bool.eqb andb].
      rewrite andb_true_r.
      destruct (drop_while isspace t) as [|b t'] eqn:Hd.
      { by destruct fuel. }
      apply drop_while_head in Hd as Hb.
      destruct fuel as [|fuel']; [simpl in Hlen; lia|].
      rewrite collapse_head by done. by rewrite Hb.
    + cbn [single_spaced]. rewrite Ha. cbn [andb]. apply IH. lia.
Qed.

Lemma collapse_fixed : forall fuel t,
  single_spaced t = true -> sub_loop fuel ws_re " " t = t.
Proof.
  induction fuel as [|fuel IH]; intros t Ht; [reflexivity|].
  destruct t as [|a t]; [reflexivity|].
  cbn [single_spaced] in Ht. apply andb_true_iff in Ht as [Ha Ht].
  cbn [sub_loop]. unfold ws_re, space. rewrite match_here_plus_class.
  fold space. fold ws_re.
  destruct (isspace a) eqn:Hsp; [|by rewrite IH].
  apply andb_true_iff in Ha as [Heq Hnext].
  apply Ascii.eqb_eq in Heq. subst a.
  assert (Hd : drop_while isspace t = t).
  { destruct t as [|b t]; [reflexivity|]. simpl.
    by apply negb_true_iff in Hnext as ->. }
  rewrite Hd.
  destruct (Nat.ltb_spec (length t) (length (" "%char :: t))) as [_|H];
    [|simpl in H; lia].
  by rewrite IH.
Qed.

Lemma spaced_tail a t : single_spaced (a :: t) = true -> single_spaced t = true.
Proof. cbn [single_spaced]. by intros [_ ?]%andb_true_iff. Qed.

Lemma spaced_lstrip t : single_spaced t = true -> single_spaced (lstrip t) = true.
Proof.
  induction t as [|a t IH]; [done|]. intros Ht. cbn [lstrip].
  destruct (isspace a); [|done]. apply IH. by apply spaced_tail in Ht.
Qed.

Lemma rstrip_head b t :
  isspace b = false -> exists t', rstrip (b :: t) = b :: t'.
Proof.
  intros Hb. rewrite rstrip_cons, Hb. destruct (forallb isspace t); eauto.
Qed.

Lemma spaced_rstrip t : single_spaced t = true -> single_spaced (rstrip t) = true.
Proof.
  induction t as [|a t IH]; [done|]. intros Ht.
  rewrite rstrip_cons.
  destruct (forallb isspace t) eqn:Hall.
  { destruct (isspace a) eqn:Ha; [reflexivity|]. simpl. by rewrite Ha. }
  cbn [single_spaced] in Ht |- *. apply andb_true_iff in Ht as [Ha Ht].
  rewrite (IH Ht), andb_true_r.
  destruct (isspace a); [|done].
  apply andb_true_iff in Ha as [-> Hnext]. cbn [andb].
  destruct t as [|b t]; [discriminate|].
  apply negb_true_iff in Hnext.
  destruct (rstrip_head b t Hnext) as [t' ->]. by rewrite Hnext.
Qed.

Lemma spaced_strip t : single_spaced t = true -> single_spaced (strip t) = true.
Proof. intros H. unfold strip. by apply spaced_rstrip, spaced_lstrip. Qed.

Lemma spaced_spaces t a :
  single_spaced t = true -> In a t -> isspace a = true -> a = " "%char.
Proof.
  induction t as [|b t IH]; [done|]. cbn [single_spaced].
  intros [Hb Ht]%andb_true_iff [<-|Hin] Ha; [|by apply IH].
  rewrite Ha in Hb. apply andb_true_iff in Hb as [Hb _].
  apply Ascii.eqb_eq in Hb. done.
Qed.

Lemma spaced_filter p t :
  (forall a, isspace a = true -> p a = true) ->
  single_spaced t = true ->
  forall a, In a (List.filter p t) -> isspace a = true -> a = " "%char.
Proof.
  intros _ Ht a [Hin _]%filter_In Ha. by apply (spaced_spaces t).
Qed.

Lemma filter_all {A} (p : A -> bool) l :
  forallb p l = true -> List.filter p l = l.
Proof.
  induction l as [|x l IH]; [done|]. simpl.
  intros [-> Hl]%andb_true_iff. by rewrite IH.
Qed.

(** [_clean_text] on a text that is not blank. *)
Lemma clean_text_unfold t :
  strip t <> [] ->
  _clean_text t
  = List.filter kept (strip (sub ws_re " " (sub tag_re "" t))).
Proof.
  intros Ht. unfold _clean_text.
  destruct (_ || _) eqn:Hb; [by apply blank_spec in Hb|].
  unfold special_re. by rewrite sub_class, filter_negb_negb.
Qed.

Lemma clean_text_blank t : strip t = [] -> _clean_text t = [].
Proof.
  intros Ht%blank_spec. unfold _clean_text. by rewrite Ht.
Qed.

Lemma normal_spec t :
  normal t = true
  <-> forallb kept t = true /\ single_spaced t = true /\ strip t = t.
Proof.
  unfold normal. rewrite !andb_true_iff, str_eqb_spec. tauto.
Qed.

(** A text in normal form is left as it is. *)
Lemma clean_text_normal t : normal t = true -> _clean_text t = t.
Proof.
  intros (Hkept & Hsp & Hstrip)%normal_spec.
  destruct t as [|a t]; [reflexivity|].
  rewrite clean_text_unfold by (by rewrite Hstrip).
  unfold tag_re. rewrite sub_absent by (by apply kept_no_tag).
  unfold sub. rewrite collapse_fixed by done.
  rewrite Hstrip. by apply filter_all.
Qed.

(** The cleaning of a text made of kept characters is in normal form. *)
Lemma clean_kept_normal u :
  forallb kept u = true -> normal (_clean_text u) = true.
Proof.
  intros Hkept. destruct (strip u) as [|b s] eqn:Hs.
  { by rewrite clean_text_blank. }
  rewrite clean_text_unfold by (by rewrite Hs).
  unfold tag_re. rewrite sub_absent by (by apply kept_no_tag).
  assert (Hall : forallb kept (strip (sub ws_re " " u)) = true).
  { apply forallb_forall. intros a Ha%strip_chars.
    apply sub_loop_chars in Ha as [Ha|Ha].
    - destruct Ha as [<-|[]]. reflexivity.
    - rewrite forallb_forall in Hkept. by apply Hkept. }
  rewrite filter_all by done.
  apply normal_spec. split; [done|]. split.
  - apply spaced_strip. by apply collapse_spaced.
  - apply strip_idem.
Qed.

(** The cleaning brings in no character but the space. *)
Lemma clean_text_from_input text a :
  In a (_clean_text text) -> In a text \/ a = " "%char.
Proof.
  intros Hin. destruct (strip text) as [|b s] eqn:Hs.
  { by rewrite clean_text_blank in Hin. }
  rewrite clean_text_unfold in Hin by (by rewrite Hs).
  apply filter_In in Hin as [Hin _].
  apply strip_chars in Hin. apply sub_loop_chars in Hin as [Hin|Hin].
  { destruct Hin as [<-|[]]. by right. }
  apply sub_loop_chars in Hin as [[]|Hin]. by left.
Qed.

(** X1: every character of the cleaned text is a character of the input
    or a space, belongs to the kept set (word characters, whitespace and
    [-.,;:()&/]), and is a space when it is whitespace. *)
Theorem clean_text_characters (text : pystr) :
  Forall (fun a => kept a = true
                   /\ (isspace a = true -> a = " "%char)
                   /\ (In a text \/ a = " "%char))
         (_clean_text text).
Proof.
  apply Forall_forall. intros a Hin%list_elem_of_In. split; [|split].
  - pose proof (clean_text_kept text) as H.
    rewrite forallb_forall in H. by apply H.
  - destruct (strip text) as [|b s] eqn:Hs.
    { by rewrite clean_text_blank in Hin. }
    rewrite clean_text_unfold in Hin by (by rewrite Hs).
    apply filter_In in Hin as [Hin _].
    apply (spaced_spaces (strip (sub ws_re " " (sub tag_re "" text))));
      [|exact Hin].
    apply spaced_strip. by apply collapse_spaced.
  - by apply clean_text_from_input.
Qed.

(** X2: a text in normal form (kept characters, single spaces between
    words, no whitespace at the ends) is returned as it is. *)
Theorem clean_text_keeps_normal_text (text : pystr) :
  normal text = true -> _clean_text text = text.
Proof. exact (clean_text_normal text). Qed.

Lemma clean_text_keeps_normal_text_witness :
  normal "Computer Science" = true
  /\ _clean_text "Computer Science" = ("Computer Science" : pystr).
Proof.
  assert (H : normal "Computer Science" = true) by reflexivity.
  split; [exact H|]. exact (clean_text_keeps_normal_text _ H).
Defined.

(** X3: two passes of [_clean_text] give a text in normal form, so a third
    pass changes nothing. *)
Theorem clean_text_settles_in_two_passes (text : pystr) :
  normal (_clean_text (_clean_text text)) = true
  /\ _clean_text (_clean_text (_clean_text text))
     = _clean_text (_clean_text text).
Proof.
  assert (H : normal (_clean_text (_clean_text text)) = true)
    by apply clean_kept_normal, clean_text_kept.
  split; [exact H|]. by apply clean_text_normal.
Qed.

End TextThms.

(** ** Dates, semesters and years *)

Module DateThms.
Import PyStr Re Py Clean ScanSpec TextSpec MatchSpec MatchFacts RawSpec.
Import SchemaSpec.
Import StrFacts ReFacts TextFacts AdmissionFacts ScrapedFacts TextThms.
Local Open Scope string_scope.
Local Open Scope list_scope.

Lemma digits_exist u :
  forallb isdigit u = true -> 1 <= length u -> existsb isdigit u = true.
Proof.
  destruct u as [|a u]; [simpl; lia|]. simpl.
  by intros [-> _]%andb_true_iff _.
Qed.

Ltac found_digit H :=
  rewrite !existsb_app;
  rewrite (digits_exist _ (proj1 H)) by (destruct H as (_ & ? & _); lia);
  rewrite ?orb_true_r; reflexivity.

(** A match of one of the four date patterns holds a digit. *)
Lemma date_pattern_digit r u m :
  In r [date_pattern_0; date_pattern_1; date_pattern_2; date_pattern_3] ->
  matches r u m -> existsb isdigit u = true.
Proof.
  intros [<-|[<-|[<-|[<-|[]]]]] H.
  - unfold date_pattern_0 in H.
    seq_in H H1 H. grp_in H1. apply matches_rep12_class in H1.
    found_digit H1.
  - unfold date_pattern_1 in H.
    seq_in H H1 H. seq_in H H2 H. seq_in H H3 H. grp_in H3.
    apply matches_rep12_class in H3. found_digit H3.
  - unfold date_pattern_2 in H.
    seq_in H H1 H. grp_in H1. apply matches_rep12_class in H1.
    found_digit H1.
  - unfold date_pattern_3 in H.
    seq_in H H1 H. grp_in H1. apply matches_rep_class in H1.
    found_digit H1.
Qed.

Lemma search_date_none r t :
  In r [date_pattern_0; date_pattern_1; date_pattern_2; date_pattern_3] ->
  existsb isdigit t = false -> search r t = None.
Proof.
  intros Hr Ht. destruct (search r t) as [m|] eqn:Hm; [|reflexivity].
  apply search_sound in Hm as (before & u & after & -> & Hu).
  apply (date_pattern_digit r u m Hr) in Hu.
  rewrite !existsb_app, Hu, orb_true_r in Ht. discriminate.
Qed.

(** X8: a date text without a digit matches none of the four patterns and
    is returned as [_clean_text] leaves it. *)
Theorem date_without_digit_is_cleaned_text (date_str : pystr) :
  existsb isdigit date_str = false ->
  _clean_date date_str = _clean_text date_str.
Proof.
  intros Hnone. unfold _clean_date.
  destruct date_str as [|a0 s0]; [reflexivity|]. cbn [length Nat.eqb].
  set (s := _clean_text (a0 :: s0)).
  assert (Hs : existsb isdigit s = false).
  { destruct (existsb isdigit s) eqn:He; [|reflexivity].
    apply existsb_exists in He as (a & Hin & Ha).
    apply clean_text_from_input in Hin as [Hin| ->]; [|discriminate].
    assert (existsb isdigit (a0 :: s0) = true)
      by (apply existsb_exists; eauto).
    congruence. }
  rewrite !search_date_none; simpl; auto 6.
Qed.

Lemma date_without_digit_is_cleaned_text_witness :
  existsb isdigit "yesterday" = false
  /\ _clean_date "yesterday" = _clean_text "yesterday".
Proof.
  assert (H : existsb isdigit "yesterday" = false) by reflexivity.
  split; [exact H|]. exact (date_without_digit_is_cleaned_text _ H).
Defined.

Lemma semester_year_cases semester_year_str :
  semester_text (fst (_clean_semester_year semester_year_str))
  /\ year_text (snd (_clean_semester_year semester_year_str)).
Proof.
  unfold _clean_semester_year, semester_text, year_text.
  destruct (length semester_year_str =? 0)%nat; [simpl; auto|].
  cbn [fst snd]. split.
  - unfold semester_labels.
    repeat match goal with
           | |- context [if ?b then _ else _] => destruct b
           end; [right; eexists; split; [|reflexivity]; simpl; tauto ..|by left].
  - destruct (search year_re _) as [m|] eqn:Hm; [|by left].
    apply search_sound in Hm as (before & u & after & _ & H).
    unfold year_re in H. grp_in H. seq_in H H1 H.
    apply matches_lit in H1 as [-> ->].
    apply matches_rep_class in H as (Hall & Hlen & ->).
    destruct u1 as [|c [|d [|]]]; try discriminate.
    simpl in Hall.
    apply andb_true_iff in Hall as [Hc Hd%andb_true_iff].
    right. exists c, d. by destruct Hd.
Qed.

(** X9: the year [_clean_semester_year] returns is empty or [20] followed
    by two digits, and the semester is empty or one of the four labels. *)
Theorem semester_year_values (semester_year_str : pystr) :
  let r := _clean_semester_year semester_year_str in
  (fst r = [] \/ exists l : string, In l semester_labels /\ fst r = l)
  /\ (snd r = []
      \/ exists c d, isdigit c = true /\ isdigit d = true
                     /\ snd r = ("20" : pystr) ++ [c; d]).
Proof. exact (semester_year_cases semester_year_str). Qed.

End DateThms.

(** ** The records [clean_entry] keeps *)

Module EntryThms.
Import PyStr Re Py Clean EntrySpec AdmissionSpec RecleanSpec FailureSpec.
Import SchemaSpec FloatSpec.
Import StrFacts AdmissionFacts FailureFacts CounterFacts RecleanFacts.
Import TextFacts NumberFacts NumberThms DateThms.
Local Open Scope string_scope.
Local Open Scope list_scope.

Lemma dyn_cases {A} (f : pystr -> A) v x :
  dyn f v = Ok x ->
  (exists t, v = PStr t /\ x = f t) \/ (truthy v = false /\ x = f []).
Proof.
  destruct v; simpl;
    try (match goal with |- context [if ?b then _ else _] =>
           destruct b eqn:Hb end);
    intros [= <-]; eauto.
Qed.

Lemma get_present (entry : dict) k v : entry !! k = Some v -> get entry k = v.
Proof. unfold get. by intros ->. Qed.

Lemma required_field (entry : dict) k x :
  dyn _clean_text (get entry k) = Ok x -> strip x <> [] ->
  exists t, entry !! k = Some (PStr t) /\ x = _clean_text t.
Proof.
  intros Hd Hx. unfold get in Hd.
  destruct (entry !! k) as [v|]; cbn [default from_option id] in Hd.
  - apply dyn_cases in Hd as [(t & -> & ->)|[_ ->]]; [eauto|done].
  - injection Hd as <-. done.
Qed.

Lemma quant_fragment_container (entry : dict) v q :
  entry !! "gre_score" = Some v -> quant_fragment entry = Ok q ->
  is_container v = true.
Proof.
  intros Hv. unfold quant_fragment. rewrite (get_present _ _ _ Hv).
  by destruct v.
Qed.

(** X10: a record that [clean_entry] keeps has a [university] and a
    [program_name] that are strings with a character that is not
    whitespace after text cleaning; each of its other parsed fields is
    absent, a string, or a false value such as [null], [0] or [[]]; its
    [gre_score], when present, is a string, a list or an object ([null]
    is not accepted there); and its [url] is copied as it is, whatever its
    type.  Every other record is dropped. *)
Theorem kept_record_is_well_typed (entry c : dict) :
  clean_entry entry = Some c ->
  (exists u p,
     entry !! "university" = Some (PStr u)
     /\ entry !! "program_name" = Some (PStr p)
     /\ strip (_clean_text u) <> [] /\ strip (_clean_text p) <> []
     /\ c !! "university" = Some (PStr (_clean_text u))
     /\ c !! "program_name" = Some (PStr (_clean_text p)))
  /\ (forall k v, In k parsed_keys -> entry !! k = Some v ->
        (exists t, v = PStr t) \/ truthy v = false)
  /\ (forall v, entry !! "gre_score" = Some v -> is_container v = true)
  /\ c !! "url" = Some (get entry "url").
Proof.
  unfold clean_entry, clean_entry_try.
  repeat match goal with
         | |- context [mbind _ (dyn ?f (get entry ?k))] =>
             let H := fresh "D" in
             destruct (dyn f (get entry k)) eqn:H; cbn [mbind exc_bind];
             [|discriminate]
         | |- context [mbind _ (quant_fragment entry)] =>
             destruct (quant_fragment entry) eqn:Hq; cbn [mbind exc_bind];
             [|discriminate]
         end.
  erewrite validate_strings
    by (rewrite !lookup_insert_ne by discriminate; apply lookup_insert_eq).
  cbn [mbind exc_bind].
  destruct (_ || _) eqn:Hu; [discriminate|].
  destruct (_ || _) eqn:Hp in |- *; [discriminate|].
  cbn [negb andb]. intros [= <-].
  assert (Hun : strip a0 <> []).
  { intros Hnil%blank_spec.
    change (list_ascii_of_string "") with (@nil ascii) in *. congruence. }
  assert (Hpn : strip a <> []).
  { intros Hnil%blank_spec.
    change (list_ascii_of_string "") with (@nil ascii) in *. congruence. }
  destruct (required_field _ _ _ D0 Hun) as (u & Hu1 & ->).
  destruct (required_field _ _ _ D Hpn) as (p & Hp1 & ->).
  split; [|split; [|split]].
  - exists u, p. repeat split; try done.
  - intros k v Hk Hv. simpl in Hk.
    repeat (destruct Hk as [<-|Hk];
      [match goal with
       | H : dyn _ (get entry ?key) = Ok _ |- context [entry !! ?key] => idtac
       | _ => idtac
       end|]); try done;
    match goal with
    | H : dyn _ (get entry ?key) = Ok _, Hv : entry !! ?key = Some v |- _ =>
        rewrite (get_present _ _ _ Hv) in H;
        apply dyn_cases in H as [(t & -> & _)|[Hf _]]; eauto
    end.
  - intros v Hv. exact (quant_fragment_container _ _ _ Hv Hq).
  - reflexivity.
Qed.

Lemma kept_record_is_well_typed_witness :
  exists c,
    clean_entry Samples.valid_record = Some c
    /\ exists u p,
         Samples.valid_record !! "university" = Some (PStr u)
         /\ Samples.valid_record !! "program_name" = Some (PStr p)
         /\ strip (_clean_text u) <> [] /\ strip (_clean_text p) <> [].
Proof.
  assert (H : clean_entry Samples.valid_record
              = Some (default ∅ (clean_entry Samples.valid_record)))
    by reflexivity.
  exists (default ∅ (clean_entry Samples.valid_record)).
  split; [exact H|].
  destruct (kept_record_is_well_typed _ _ H)
    as ((u & p & H1 & H2 & H3 & H4 & _) & _).
  exists u, p. auto.
Defined.

(** *** The layout of a cleaned record *)

Lemma international_cases t : international_text (international_of t).
Proof.
  unfold international_text, international_of.
  destruct (one_of _ _); [auto|]. destruct (one_of _ _); auto.
Qed.

(** X11: a record that [clean_entry] returns has the sixteen keys of the
    cleaned layout and no other; its values are strings, the [url] apart,
    which is the value of the input; [university] and [program_name] are
    not blank and the three free texts hold kept characters only; the
    status is left as it is by the standardization when the status of the
    input is ASCII text; [semester], [year],
    [international_american], [gpa], the two GRE section scores and
    [gre_aw] each hold the empty string or a value of their range. *)
Theorem kept_record_schema (entry c : dict) :
  clean_entry entry = Some c ->
  exists pn un cm st da ad rd se ye ia gp gv gq aw dg,
    c = cleaned_record pn un cm (get entry "url") st da ad rd se ye ia
          gp gv gq aw dg
    /\ nonblank un /\ nonblank pn
    /\ forallb kept un = true /\ forallb kept pn = true
    /\ forallb kept cm = true
    /\ (ascii_status entry = true -> _standardize_decision_status st = st)
    /\ semester_text se /\ year_text ye /\ international_text ia
    /\ gpa_text gp /\ score_text gv /\ score_text gq /\ aw_text aw.
Proof.
  intros Hc.
  destruct (clean_entry_inv _ _ Hc)
    as (pn & un & cm & st & da & ad & rd & sy & ia & gp & gv & gq & aw & dg
        & -> & Hun & Hpn).
  do 15 eexists. split; [reflexivity|].
  split; [exact Hun|]. split; [exact Hpn|].
  split; [apply clean_text_kept|]. split; [apply clean_text_kept|].
  split; [apply clean_text_kept|].
  split; [intros _; apply standardize_idem|].
  split; [apply semester_year_cases|]. split; [apply semester_year_cases|].
  split; [apply international_cases|].
  split; [apply clean_gpa_cases|].
  split; [apply clean_gre_score_cases|].
  split; [apply clean_gre_score_cases|].
  apply clean_gre_aw_cases.
Qed.

Lemma kept_record_schema_witness :
  exists c,
    clean_entry Samples.valid_record = Some c
    /\ exists pn un cm st da ad rd se ye ia gp gv gq aw dg,
         c = cleaned_record pn un cm (get Samples.valid_record "url")
               st da ad rd se ye ia gp gv gq aw dg
         /\ nonblank un /\ nonblank pn
         /\ ascii_status Samples.valid_record = true
         /\ _standardize_decision_status st = st.
Proof.
  assert (H : clean_entry Samples.valid_record
              = Some (default ∅ (clean_entry Samples.valid_record)))
    by reflexivity.
  assert (Ha : ascii_status Samples.valid_record = true) by reflexivity.
  exists (default ∅ (clean_entry Samples.valid_record)).
  split; [exact H|].
  destruct (kept_record_schema _ _ H)
    as (pn & un & cm & st & da & ad & rd & se & ye & ia & gp & gv & gq & aw
        & dg & H1 & H2 & H3 & _ & _ & _ & H4 & _).
  exists pn, un, cm, st, da, ad, rd, se, ye, ia, gp, gv, gq, aw, dg.
  split; [exact H1|]. split; [exact H2|]. split; [exact H3|].
  split; [exact Ha|exact (H4 Ha)].
Defined.

(** *** [clean_data] *)

Lemma reclean_kept entry c :
  clean_entry entry = Some c -> is_Some (clean_entry c).
Proof.
  intros Hc.
  destruct (clean_entry_inv _ _ Hc)
    as (pn & un & cm & st & da & ad & rd & sy & ia & gp & gv & gq & aw & dg
        & -> & Hun & Hpn).
  eexists. apply reclean; by apply readmitted.
Qed.

Lemma omap_reclean_length raw :
  length (omap clean_entry (omap clean_entry raw))
  = length (omap clean_entry raw).
Proof.
  induction raw as [|entry raw IH]; [reflexivity|]. cbn [omap list_omap].
  fold (omap clean_entry raw).
  destruct (clean_entry entry) as [c|] eqn:Hc; [|exact IH].
  cbn [omap list_omap]. fold (omap clean_entry (omap clean_entry raw)).
  destruct (reclean_kept _ _ Hc) as [c' ->]. simpl. by rewrite IH.
Qed.

Lemma omap_length_le {A B} (f : A -> option B) l :
  length (omap f l) <= length l.
Proof.
  induction l as [|x l IH]; [done|]. cbn [omap list_omap].
  fold (omap f l). destruct (f x); simpl; lia.
Qed.

(** X12: [clean_data] returns the list it stores in [cleaned_data]; the
    list does not depend on the state of the object, keeps the order of
    the input, and is obtained piece by piece; on a new object
    [cleaned_entries] counts the records returned and [removed_entries]
    the others. *)
Theorem clean_data_is_piecewise
    (self self1 self2 : cleaner) (first second : list dict) :
  snd (clean_data self (first ++ second))
  = snd (clean_data self1 first) ++ snd (clean_data self2 second)
  /\ cleaned_data (fst (clean_data self first)) = snd (clean_data self first)
  /\ length (snd (clean_data self first)) <= length first
  /\ cleaned_entries (stats_after __init__ first)
     = length (snd (clean_data __init__ first))
  /\ removed_entries (stats_after __init__ first)
     = length first - length (snd (clean_data __init__ first)).
Proof.
  split; [rewrite !clean_data_returns; apply omap_app|].
  split; [reflexivity|].
  rewrite !clean_data_returns. split; [apply omap_length_le|].
  destruct (stats_after_spec __init__ first) as (_ & H1 & H2).
  simpl in H1, H2. lia.
Qed.

(** X13: cleaning the cleaned records once more drops none of them:
    the second list is as long as the first, and a new object counts no
    removed entry. *)
Theorem recleaning_dataset_drops_nothing
    (self1 self2 : cleaner) (raw_data : list dict) :
  let cleaned := snd (clean_data self1 raw_data) in
  length (snd (clean_data self2 cleaned)) = length cleaned
  /\ removed_entries (stats_after __init__ cleaned) = 0
  /\ cleaned_entries (stats_after __init__ cleaned) = length cleaned.
Proof.
  cbv zeta. rewrite !clean_data_returns.
  pose proof (omap_reclean_length raw_data) as Hlen.
  split; [exact Hlen|].
  destruct (stats_after_spec __init__ (omap clean_entry raw_data))
    as (_ & H1 & H2).
  simpl in H1, H2. lia.
Qed.

End EntryThms.

(** ** The robots check and the page loop *)

Module ScrapeThms.
Import PyStr Re Py Scrape LoopSpec StatusSpec Robots NetworkSpec.
Import StrFacts.
Local Open Scope string_scope.
Local Open Scope list_scope.

Lemma contains_tail a b t :
  contains (a ++ b) t = true -> contains b t = true.
Proof.
  rewrite !contains_spec. intros (before & after & ->).
  exists (before ++ a), after. by rewrite <- !app_assoc.
Qed.

(** X14: [_check_robots_txt] forbids scraping in one case only: the request
    answers with status 200, the body decodes, the copy of it is written,
    and the body holds the text [Disallow: /survey/] somewhere (the test
    for [/survey/] adds nothing).  A failed request, another status, an
    undecodable body or a failed write all allow scraping. *)
Theorem robots_verdict_forbids_only_on_disallow (r : reply) (saved : bool) :
  Robots._check_robots_txt r saved = false
  <-> exists robots_content,
        r = Reply 200 (Some robots_content) /\ saved = true
        /\ contains "Disallow: /survey/" robots_content = true.
Proof.
  split.
  - destruct r as [|status body]; cbn [Robots._check_robots_txt]; [done|].
    destruct (Nat.eqb_spec status 200) as [->|]; [|done].
    destruct body as [robots_content|]; [|done].
    destruct saved; [|done].
    destruct (contains "/survey/" robots_content); [|done].
    destruct (contains "Disallow: /survey/" robots_content) eqn:Hd; [|done].
    intros _. by exists robots_content.
  - intros (robots_content & -> & -> & Hd). cbn [Robots._check_robots_txt Nat.eqb].
    rewrite Hd.
    by rewrite (contains_tail ("Disallow: " : pystr) ("/survey/" : pystr)
                  robots_content Hd).
Qed.

Section Network.
Variable urljoin : pystr -> pystr -> option pystr.
Variable World : Type.
Variable _check_robots_txt : World -> bool * World.
Variable request : nat -> World -> page * World.

Lemma scrape_iter_collected scraped max st b st' :
  collected scraped st ->
  scrape_iter urljoin World request max st = (b, st') ->
  collected scraped st'.
Proof.
  intros (new & Hdata & Hlen & Hsum). unfold scrape_iter.
  destruct (Z.of_nat (total_entries World st) <? max)%Z.
  2:{ intros [= <- <-]. by exists new. }
  destruct (_scrape_page urljoin World request (page_num World st)
              (world World st)) as [page_data w].
  assert (Hlog : list_sum (map snd (log World st
                      ++ [(page_num World st, length page_data)]))
                 = total_entries World st + length page_data).
  { rewrite map_app, list_sum_app. simpl. lia. }
  destruct (Nat.eqb_spec (length page_data) 0) as [Hempty|Hne].
  { intros [= <- <-]. exists new. simpl. rewrite Hlog. repeat split; try done.
    lia. }
  assert (Hnew : exists new',
             scraped_data World st ++ page_data = scraped ++ new'
             /\ length new' = total_entries World st + length page_data).
  { exists (new ++ page_data). rewrite Hdata, <- app_assoc, length_app.
    split; [done|lia]. }
  destruct Hnew as (new' & Hdata' & Hlen').
  repeat match goal with
         | |- context [if ?c then _ else _] => destruct c
         end; intros [= <- <-]; exists new'; simpl; rewrite Hlog; done.
Qed.

Lemma scrape_loop_collected scraped max : forall fuel st st',
  collected scraped st ->
  scrape_loop urljoin World request fuel max st = Some st' ->
  collected scraped st'.
Proof.
  induction fuel as [|fuel IH]; intros st st' Hst; [discriminate|].
  cbn [scrape_loop].
  destruct (scrape_iter urljoin World request max st) as [b st1] eqn:Hiter.
  pose proof (scrape_iter_collected _ _ _ _ _ Hst Hiter) as Hst1.
  destruct b; [by apply IH|]. by intros [= <-].
Qed.

(** X16: when [robots.txt] allows, [scrape_data] returns the records that
    were already in [scraped_data] followed by the new ones, page after
    page; the number of new records is [total_entries], the sum of the
    page counts; with [max_entries <= 0] no page is asked for.  The
    records of an earlier call are thus returned again. *)
Theorem scrape_data_accumulates fuel scraped max_entries w out st :
  scrape_data urljoin World _check_robots_txt request
              fuel scraped max_entries w = Some (out, st) ->
  fst (_check_robots_txt w) = true ->
  exists new,
    out = scraped ++ new
    /\ length new = total_entries World st
    /\ total_entries World st = list_sum (map snd (log World st))
    /\ ((max_entries <= 0)%Z -> new = [] /\ log World st = []).
Proof.
  unfold scrape_data.
  destruct (_check_robots_txt w) as [allowed w'].
  intros H Hallowed. simpl in Hallowed. subst allowed. cbn [negb] in H.
  destruct (scrape_loop urljoin World request fuel max_entries
              (mkRun World 1 0 scraped w' [])) as [st1|] eqn:Hloop;
    [|discriminate].
  injection H as <- <-.
  assert (H0 : collected scraped (mkRun World 1 0 scraped w' [])).
  { exists []. simpl. by rewrite app_nil_r. }
  destruct (scrape_loop_collected _ _ _ _ _ H0 Hloop)
    as (new & Hdata & Hlen & Hsum).
  exists new. split; [done|]. split; [done|]. split; [done|].
  intros Hmax. destruct fuel as [|fuel]; [discriminate|].
  cbn [scrape_loop] in Hloop. unfold scrape_iter in Hloop.
  cbn [total_entries] in Hloop.
  destruct (Z.ltb_spec (Z.of_nat 0) max_entries) as [|_]; [lia|].
  injection Hloop as <-. simpl in Hdata, Hlen. split; [|done].
  by destruct new.
Qed.

End Network.

Lemma scrape_data_accumulates_witness :
  exists out st new,
    scrape_data Samples.join_url unit Samples.robots_allow one_page
                1000 [] 100 tt = Some (out, st)
    /\ out = [] ++ new
    /\ length new = total_entries unit st
    /\ total_entries unit st = list_sum (map snd (log unit st)).
Proof.
  set (res := scrape_data Samples.join_url unit Samples.robots_allow one_page
                1000 [] 100 tt).
  assert (H : res = Some (default ([], mkRun unit 0 0 [] tt []) res))
    by reflexivity.
  assert (Hr : fst (Samples.robots_allow tt) = true) by reflexivity.
  destruct (scrape_data_accumulates Samples.join_url unit Samples.robots_allow
              one_page 1000 [] 100 tt _ _ H Hr) as (new & H1 & H2 & H3 & _).
  eexists _, _, new. split; [exact H|]. auto.
Defined.

End ScrapeThms.

(** ** The summary report of [main.py] *)

Module ReportThms.
Import PyStr Py Clean Report RecleanSpec.
Import StrFacts AdmissionFacts RecleanFacts.
Local Open Scope string_scope.
Local Open Scope list_scope.

Lemma str_eqb_refl k : str_eqb k k = true.
Proof. by apply str_eqb_spec. Qed.

Lemma str_eqb_neq k k' : k <> k' -> str_eqb k k' = false.
Proof.
  intros Hne. destruct (str_eqb k k') eqn:H; [|reflexivity].
  by apply str_eqb_spec in H.
Qed.

Lemma count_of_set_same k n cs : count_of k (set_count k n cs) = n.
Proof.
  induction cs as [|[k' n'] cs IH]; simpl.
  - by rewrite str_eqb_refl.
  - destruct (str_eqb k k') eqn:H; simpl; by rewrite H.
Qed.

Lemma count_of_set_other k k' n cs :
  k <> k' -> count_of k' (set_count k n cs) = count_of k' cs.
Proof.
  intros Hne. induction cs as [|[k1 n1] cs IH]; simpl.
  - by rewrite str_eqb_neq.
  - destruct (str_eqb k k1) eqn:H; simpl.
    + apply str_eqb_spec in H as <-. by rewrite str_eqb_neq.
    + by rewrite IH.
Qed.

Lemma set_count_sum k n cs :
  list_sum (map snd (set_count k n cs)) + count_of k cs
  = list_sum (map snd cs) + n.
Proof.
  induction cs as [|[k' n'] cs IH]; simpl; [lia|].
  destruct (str_eqb k k'); simpl; lia.
Qed.

Lemma set_count_keys k n cs :
  map fst (set_count k n cs)
  = if existsb (str_eqb k) (map fst cs) then map fst cs
    else map fst cs ++ [k].
Proof.
  induction cs as [|[k' n'] cs IH]; simpl; [reflexivity|].
  destruct (str_eqb k k'); simpl; [reflexivity|].
  rewrite IH. by destruct (existsb _ _).
Qed.

Lemma set_count_nodup k n cs :
  NoDup (map fst cs) -> NoDup (map fst (set_count k n cs)).
Proof.
  intros Hnd. rewrite set_count_keys.
  destruct (existsb (str_eqb k) (map fst cs)) eqn:Hex; [done|].
  apply NoDup_app. split; [done|]. split; [|apply NoDup_singleton].
  intros x Hx ->%list_elem_of_singleton.
  assert (existsb (str_eqb k) (map fst cs) = true); [|congruence].
  apply existsb_exists. exists k. split; [by apply list_elem_of_In|].
  apply str_eqb_refl.
Qed.

Lemma set_count_positive k n cs :
  1 <= n -> Forall (fun x => 1 <= snd x) cs ->
  Forall (fun x => 1 <= snd x) (set_count k n cs).
Proof.
  intros Hn. induction 1 as [|[k' n'] cs Hx Hcs IH]; simpl.
  - by repeat constructor.
  - destruct (str_eqb k k'); constructor; done.
Qed.

Lemma count_of_in k n cs :
  NoDup (map fst cs) -> In (k, n) cs -> count_of k cs = n.
Proof.
  induction cs as [|[k' n'] cs IH]; [done|]. simpl.
  intros [Hk' Hnd]%NoDup_cons [[= -> ->]|Hin].
  - by rewrite str_eqb_refl.
  - rewrite str_eqb_neq; [by apply IH|].
    intros ->. apply Hk'. apply list_elem_of_In.
    by apply (in_map fst) in Hin.
Qed.

(** The state of a counting loop after [data], from the counts [cs]. *)
Lemma count_loop field data : forall cs,
  NoDup (map fst cs) -> Forall (fun x => 1 <= snd x) cs ->
  let cs' := fold_left (count_step field) data cs in
  NoDup (map fst cs')
  /\ Forall (fun x => 1 <= snd x) cs'
  /\ list_sum (map snd cs') = list_sum (map snd cs) + length data
  /\ forall k, count_of k cs' = count_of k cs + length (holding field k data).
Proof.
  induction data as [|entry data IH]; intros cs Hnd Hpos; cbn [fold_left].
  - repeat split; try done; simpl; lia.
  - set (v := field_or_unknown field entry).
    destruct (IH (count_step field cs entry)) as (H1 & H2 & H3 & H4).
    { by apply set_count_nodup. }
    { apply set_count_positive; [lia|done]. }
    split; [done|]. split; [done|]. split.
    + rewrite H3. unfold count_step. fold v.
      pose proof (set_count_sum v (count_of v cs + 1) cs). simpl. lia.
    + intros k. rewrite H4. unfold count_step, holding. fold v.
      cbn [List.filter]. fold v.
      destruct (str_eqb k v) eqn:Hk.
      * apply str_eqb_spec in Hk as ->. rewrite count_of_set_same.
        simpl. lia.
      * rewrite count_of_set_other; [done|].
        intros ->. by rewrite str_eqb_refl in Hk.
Qed.

Lemma holding_nonempty field k data :
  1 <= length (holding field k data) ->
  exists entry, In entry data /\ field_or_unknown field entry = k.
Proof.
  unfold holding. destruct (List.filter _ data) as [|entry l] eqn:Hf;
    [simpl; lia|].
  intros _. assert (Hin : In entry (List.filter
            (fun entry => str_eqb k (field_or_unknown field entry)) data))
    by (rewrite Hf; by left).
  apply filter_In in Hin as [Hin Hk]. apply str_eqb_spec in Hk.
  by exists entry.
Qed.

(** A key of a distribution is held by a record. *)
Lemma report_counts field data k n :
  In (k, n) (count_by field data) ->
  exists entry, In entry data /\ field_or_unknown field entry = k.
Proof.
  intros Hin.
  destruct (count_loop field data []) as (H1 & H2 & _ & H4);
    [constructor|constructor|].
  cbv zeta in *. fold (count_by field data) in *.
  apply holding_nonempty.
  rewrite Forall_forall in H2.
  specialize (H2 (k, n) (proj2 (list_elem_of_In _ _) Hin)).
  specialize (H4 k). rewrite (count_of_in k n _ H1 Hin) in H4.
  simpl in *. lia.
Qed.

(** X22: a distribution of the report counts exactly: its keys are distinct,
    the count of a key is the number of records that hold it in the field
    (['Unknown'] standing for an absent field), no count is zero, and the
    counts add up to the number of records. *)
Theorem report_distribution_is_exact
    (field : string) (data : list record) :
  let cs := count_by field data in
  NoDup (map fst cs)
  /\ (forall k n, In (k, n) cs ->
        1 <= n /\ n = length (holding field k data))
  /\ (forall k, count_of k cs = length (holding field k data))
  /\ list_sum (map snd cs) = length data.
Proof.
  destruct (count_loop field data []) as (H1 & H2 & H3 & H4);
    [constructor|constructor|].
  cbv zeta. fold (count_by field data) in *.
  split; [done|]. split; [|split; [done|done]].
  intros k n Hin. split.
  - rewrite Forall_forall in H2. apply (H2 (k, n)). by apply list_elem_of_In.
  - rewrite <- (count_of_in k n _ H1 Hin). apply H4.
Qed.

(** *** The sort *)

Lemma insert_desc_perm x l : Permutation (insert_desc x l) (x :: l).
Proof.
  induction l as [|y l IH]; [done|]. simpl.
  destruct (snd x <? snd y)%nat; [|done].
  rewrite IH. apply perm_swap.
Qed.

Lemma sorted_desc_perm l : Permutation (sorted_desc l) l.
Proof.
  induction l as [|x l IH]; [done|]. simpl.
  by rewrite insert_desc_perm, IH.
Qed.

Lemma insert_desc_sorted x l :
  descending l -> descending (insert_desc x l).
Proof.
  induction l as [|y l IH]; [by repeat constructor|].
  intros [Hy Hl]. cbn [insert_desc].
  destruct (Nat.ltb_spec (snd x) (snd y)) as [Hlt|Hge].
  - split; [|by apply IH].
    apply Forall_forall. intros z Hz%list_elem_of_In.
    apply (Permutation_in _ (insert_desc_perm x l)) in Hz as [<-|Hz].
    + lia.
    + rewrite Forall_forall in Hy. by apply Hy, list_elem_of_In.
  - split; [|by split].
    constructor; [done|].
    apply Forall_forall. intros z Hz. rewrite Forall_forall in Hy.
    specialize (Hy z Hz). simpl in *. lia.
Qed.

Lemma sorted_desc_sorted l : descending (sorted_desc l).
Proof.
  induction l as [|x l IH]; [done|]. simpl.
  by apply insert_desc_sorted.
Qed.

Lemma insert_desc_stable n x l :
  with_count n (insert_desc x l) = with_count n (x :: l).
Proof.
  unfold with_count. induction l as [|y l IH]; [done|]. simpl in *.
  destruct (Nat.ltb_spec (snd x) (snd y)) as [Hlt|Hge]; [|done].
  simpl. rewrite IH.
  destruct (Nat.eqb_spec (snd x) n) as [Hx|Hx]; [|done].
  destruct (Nat.eqb_spec (snd y) n) as [Hy|Hy]; [lia|done].
Qed.

Lemma sorted_desc_stable n l :
  with_count n (sorted_desc l) = with_count n l.
Proof.
  induction l as [|x l IH]; [done|]. simpl.
  rewrite insert_desc_stable. unfold with_count in *. simpl.
  by rewrite IH.
Qed.

Lemma descending_app l1 l2 x y :
  descending (l1 ++ l2) -> In x l1 -> In y l2 -> snd y <= snd x.
Proof.
  induction l1 as [|z l1 IH]; [done|]. simpl.
  intros [Hz Hl] [->|Hx] Hy; [|by apply IH].
  rewrite Forall_forall in Hz. apply Hz, list_elem_of_In, in_app_iff. by right.
Qed.

(** X23: the report of a data set that is not empty lists, as
    [top_10_universities], the first ten items of the university counts
    sorted by decreasing count: with the items left out they make up the
    counts, no item left out has a greater count than a listed one, and
    items of equal count stay in the order in which the universities first
    appear in the data. *)
Theorem top_universities_are_the_most_frequent (data : list record) :
  0 < length data ->
  let cs := count_by "university" data in
  exists r rest,
    generate_summary_report data = Some r
    /\ Report.total_entries r = length data
    /\ Permutation (top_10_universities r ++ rest) cs
    /\ length (top_10_universities r) = Nat.min 10 (length cs)
    /\ descending (top_10_universities r ++ rest)
    /\ (forall x y, In x (top_10_universities r) -> In y rest ->
          snd y <= snd x)
    /\ (forall n, with_count n (top_10_universities r ++ rest)
                  = with_count n cs).
Proof.
  intros Hlen cs. unfold generate_summary_report.
  destruct (Nat.eqb_spec (length data) 0) as [|_]; [lia|].
  eexists _, (skipn 10 (sorted_desc cs)). split; [reflexivity|].
  cbn [Report.total_entries top_10_universities]. fold cs.
  rewrite firstn_skipn.
  split; [done|]. split; [apply sorted_desc_perm|]. split.
  { rewrite length_firstn, (Permutation_length (sorted_desc_perm cs)). done. }
  split; [apply sorted_desc_sorted|]. split.
  - intros x y Hx Hy.
    apply (descending_app (firstn 10 (sorted_desc cs))
             (skipn 10 (sorted_desc cs))); try done.
    rewrite firstn_skipn. apply sorted_desc_sorted.
  - intros n. apply sorted_desc_stable.
Qed.

Lemma top_universities_are_the_most_frequent_witness :
  0 < length three_records
  /\ exists r rest,
       generate_summary_report three_records = Some r
       /\ Permutation (top_10_universities r ++ rest)
                      (count_by "university" three_records).
Proof.
  assert (H : 0 < length three_records) by (simpl; lia).
  split; [exact H|].
  destruct (top_universities_are_the_most_frequent three_records H)
    as (r & rest & H1 & _ & H2 & _).
  by exists r, rest.
Defined.

(** *** The report of a cleaned data set *)

Lemma texts_cleaned_record pn un cm url st da ad rd se ye ia gp gv gq aw dg :
  let c := cleaned_record pn un cm url st da ad rd se ye ia gp gv gq aw dg in
  texts c !! "university" = Some un
  /\ texts c !! "applicant_status" = Some st
  /\ texts c !! "degree_type" = Some dg.
Proof.
  cbv zeta. unfold texts. rewrite !lookup_omap. by repeat split.
Qed.

(** X24: in the report of a data set that [clean_data] returned, the default
    ['Unknown'] is never used, because every record has the three counted
    fields; no university key is blank; and, when the statuses of the raw
    records are ASCII text, every status key is a value that
    [_standardize_decision_status] leaves as it is. *)
Theorem report_of_cleaned_data (self : cleaner) (raw_data : list dict) :
  let data := map texts (snd (clean_data self raw_data)) in
  (forall entry field,
     In entry data ->
     In field ["applicant_status"; "degree_type"; "university"] ->
     is_Some (entry !! field))
  /\ (forall k n, In (k, n) (count_by "university" data) -> strip k <> [])
  /\ (forallb ascii_status raw_data = true ->
      forall k n, In (k, n) (count_by "applicant_status" data) ->
        _standardize_decision_status k = k).
Proof.
  cbv zeta. rewrite clean_data_returns.
  assert (Hrec : forall entry,
    In entry (map texts (omap clean_entry raw_data)) ->
    exists un st dg,
      entry !! "university" = Some (_clean_text un)
      /\ strip (_clean_text un) <> []
      /\ entry !! "applicant_status" = Some (_standardize_decision_status st)
      /\ entry !! "degree_type" = Some (_clean_degree_type dg)).
  { intros entry (c & <- & Hc)%in_map_iff.
    apply list_elem_of_In, list_elem_of_omap in Hc as (e & _ & Hc).
    destruct (clean_entry_inv _ _ Hc)
      as (pn & un & cm & st & da & ad & rd & sy & ia & gp & gv & gq & aw & dg
          & -> & Hun & Hpn).
    exists un, st, dg.
    match goal with |- context [texts ?c] =>
      pose proof (texts_cleaned_record (_clean_text pn) (_clean_text un)
        (_clean_text cm) (get e "url") (_standardize_decision_status st)
        (_clean_date da) (_clean_date ad) (_clean_date rd)
        (fst (_clean_semester_year sy)) (snd (_clean_semester_year sy))
        (international_of (_clean_text ia)) (_clean_gpa gp)
        (_clean_gre_score gv) (_clean_gre_score gq) (_clean_gre_aw aw)
        (_clean_degree_type dg)) as (H1 & H2 & H3)
    end.
    by rewrite H1, H2, H3. }
  split; [|split].
  - intros entry field Hin Hf.
    destruct (Hrec entry Hin) as (un & st & dg & H1 & _ & H2 & H3).
    simpl in Hf. destruct Hf as [<-|[<-|[<-|[]]]]; eauto.
  - intros k n Hin.
    destruct (report_counts _ _ _ _ Hin) as (entry & He & Hk).
    destruct (Hrec entry He) as (un & st & dg & H1 & Hne & _).
    unfold field_or_unknown in Hk. rewrite H1 in Hk. simpl in Hk. by subst k.
  - intros _ k n Hin.
    destruct (report_counts _ _ _ _ Hin) as (entry & He & Hk).
    destruct (Hrec entry He) as (un & st & dg & _ & _ & H2 & _).
    unfold field_or_unknown in Hk. rewrite H2 in Hk. simpl in Hk. subst k.
    apply standardize_idem.
Qed.

Lemma report_of_cleaned_data_witness :
  forallb ascii_status [example_raw] = true
  /\ forall k n,
       In (k, n)
          (count_by "applicant_status"
             (map texts (snd (clean_data __init__ [example_raw])))) ->
       _standardize_decision_status k = k.
Proof.
  assert (Ha : forallb ascii_status [example_raw] = true) by reflexivity.
  split; [exact Ha|].
  exact (proj2 (proj2 (report_of_cleaned_data __init__ [example_raw])) Ha).
Defined.

End ReportThms.

(** ** Letter case *)

Module CaseThms.
Import PyStr Re Py Clean CaseSpec.
Import StrFacts ReFacts TextFacts AdmissionFacts RecleanFacts.
Local Open Scope string_scope.
Local Open Scope list_scope.

Lemma flat_map_lower (f g : pystr * caps -> list (pystr * caps)) l :
  (forall x, f (lower_rest x) = map lower_rest (g x)) ->
  flat_map f (map lower_rest l) = map lower_rest (flat_map g l).
Proof.
  intros H. induction l as [|x l IH]; [reflexivity|].
  simpl. by rewrite map_app, H, IH.
Qed.

Lemma lower_length t : length (lower t) = length t.
Proof. apply length_map. Qed.

Lemma star_loop_lower body body' :
  (forall t c, body' (lower t) c = map lower_rest (body t c)) ->
  forall fuel t c,
    star_loop body' fuel (lower t) c
    = map lower_rest (star_loop body fuel t c).
Proof.
  intros Hbody. induction fuel as [|fuel IH]; intros t c; [reflexivity|].
  cbn [star_loop]. rewrite map_app, Hbody. f_equal.
  apply flat_map_lower. intros [t1 c1]. unfold lower_rest at 1. cbn [fst snd].
  rewrite !lower_length. destruct (length t1 <? length t)%nat; [|reflexivity].
  apply IH.
Qed.

Lemma rmatch_lower r :
  case_blind r ->
  forall t c, rmatch r (lower t) c = map lower_rest (rmatch r t c).
Proof.
  induction r as [|p|r1 IH1 r2 IH2|r1 IH1 r2 IH2|r IH|i r IH];
    cbn [case_blind]; intros Hr t c.
  - reflexivity.
  - rewrite !rmatch_cls. destruct t as [|a t]; [reflexivity|].
    cbn [lower map]. rewrite Hr. by destruct (p a).
  - destruct Hr as [H1 H2]. rewrite !rmatch_seq, IH1 by done.
    apply flat_map_lower. intros [t1 c1]. by apply IH2.
  - destruct Hr as [H1 H2]. by rewrite !rmatch_alt, IH1, IH2, map_app.
  - cbn [rmatch]. rewrite lower_length. apply star_loop_lower. by apply IH.
  - done.
Qed.

Lemma match_here_lower r t :
  case_blind r ->
  match_here r (lower t) = option_map lower_rest (match_here r t).
Proof.
  intros Hr. unfold match_here. rewrite rmatch_lower by done.
  by destruct (rmatch r t []).
Qed.

Lemma sub_loop_lower r repl :
  case_blind r -> lower repl = repl ->
  forall fuel t,
    sub_loop fuel r repl (lower t) = lower (sub_loop fuel r repl t).
Proof.
  intros Hr Hrepl. induction fuel as [|fuel IH]; intros t; [reflexivity|].
  destruct t as [|a t]; [reflexivity|].
  change (lower (a :: t)) with (lower_char a :: lower t) at 1.
  cbn [sub_loop].
  change (lower_char a :: lower t) with (lower (a :: t)).
  rewrite match_here_lower by done.
  destruct (match_here r (a :: t)) as [[rest c]|]; cbn [option_map lower_rest fst snd].
  - rewrite !lower_length.
    destruct (length rest <? length (a :: t))%nat.
    + unfold lower. rewrite map_app. fold (lower repl). rewrite Hrepl.
      f_equal. apply IH.
    + cbn [lower map]. f_equal. apply IH.
  - cbn [lower map]. f_equal. apply IH.
Qed.

Lemma sub_lower r repl t :
  case_blind r -> lower repl = repl ->
  sub r repl (lower t) = lower (sub r repl t).
Proof.
  intros Hr Hrepl. unfold sub. rewrite lower_length.
  by apply sub_loop_lower.
Qed.

Lemma kept_lower_char a : kept (lower_char a) = kept a.
Proof. by_cases_on_char a. Qed.

Lemma tag_re_blind : case_blind tag_re.
Proof.
  unfold tag_re, Plus, Chr, NotChr. cbn [case_blind].
  repeat split; intros a; by_cases_on_char a.
Qed.

Lemma ws_re_blind : case_blind ws_re.
Proof.
  unfold ws_re, Plus, space. cbn [case_blind].
  split; apply isspace_lower_char.
Qed.

Lemma special_re_blind : case_blind special_re.
Proof.
  unfold special_re. cbn [case_blind]. intros a. by rewrite kept_lower_char.
Qed.

Lemma lower_nil t : lower t = [] <-> t = [].
Proof. destruct t; by split. Qed.

(** [_clean_text] and [lower] can be swapped. *)
Lemma clean_text_lower t : _clean_text (lower t) = lower (_clean_text t).
Proof.
  unfold _clean_text.
  assert (Hb : (length (lower t) =? 0)%nat || str_eqb (strip (lower t)) ""
               = (length t =? 0)%nat || str_eqb (strip t) "").
  { apply eq_true_iff_eq. rewrite !blank_spec, strip_lower. apply lower_nil. }
  rewrite Hb. clear Hb.
  destruct ((length t =? 0)%nat || str_eqb (strip t) ""); [reflexivity|].
  rewrite (sub_lower tag_re) by (apply tag_re_blind || reflexivity).
  rewrite (sub_lower ws_re) by (apply ws_re_blind || reflexivity).
  rewrite strip_lower.
  by rewrite (sub_lower special_re) by (apply special_re_blind || reflexivity).
Qed.

(** X25: on ASCII text the degree type, the semester and year, and the
    decision status do not depend on the case of the letters of the input:
    the lower-cased input gives the same result. *)
Theorem parsers_ignore_letter_case (t : pystr) :
  is_ascii t = true ->
  _clean_degree_type (lower t) = _clean_degree_type t
  /\ _clean_semester_year (lower t) = _clean_semester_year t
  /\ _standardize_decision_status (lower t) = _standardize_decision_status t.
Proof.
  intros _.
  unfold _clean_degree_type, _clean_semester_year,
    _standardize_decision_status.
  rewrite !lower_length, !clean_text_lower, !lower_idem. by repeat split.
Qed.

Lemma parsers_ignore_letter_case_witness :
  is_ascii "FALL 2025 PhD Accepted" = true
  /\ _clean_degree_type (lower "FALL 2025 PhD Accepted")
     = _clean_degree_type "FALL 2025 PhD Accepted"
  /\ _clean_semester_year (lower "FALL 2025 PhD Accepted")
     = _clean_semester_year "FALL 2025 PhD Accepted"
  /\ _standardize_decision_status (lower "FALL 2025 PhD Accepted")
     = _standardize_decision_status "FALL 2025 PhD Accepted".
Proof.
  assert (Ha : is_ascii "FALL 2025 PhD Accepted" = true) by reflexivity.
  split; [exact Ha|].
  exact (parsers_ignore_letter_case "FALL 2025 PhD Accepted" Ha).
Defined.

End CaseThms.

(** ** The dates [_clean_date] writes *)

Module DateShapes.
Import PyStr Re Py Clean StatusSpec MatchSpec MatchFacts DateSpec.
Import StrFacts ReFacts ScrapedFacts.
Local Open Scope string_scope.
Local Open Scope list_scope.

Lemma rep12_digits u n :
  matches (Rep12 digit) u n -> digits_between 1 2 u /\ n = [].
Proof.
  intros (H1 & H2 & H3)%matches_rep12_class. by split.
Qed.

Lemma rep4_digits u n :
  matches (Rep 4 digit) u n -> digits_between 4 4 u /\ n = [].
Proof.
  intros (H1 & H2 & H3)%matches_rep_class.
  split; [|done]. split; [done|lia].
Qed.

Lemma rep3_word u n :
  matches (Rep 3 word) u n -> three_word_chars u /\ n = [].
Proof.
  intros (H1 & H2 & H3)%matches_rep_class. by split.
Qed.

Lemma plus_space u n : matches (Plus space) u n -> blanks u /\ n = [].
Proof.
  intros (H1 & H2 & H3)%matches_plus_class. by split.
Qed.

Lemma matches_chr c u n : matches (Chr c) u n -> u = [c] /\ n = [].
Proof.
  intros (a & -> & Ha & ->)%matches_cls. apply Ascii.eqb_eq in Ha. by subst.
Qed.

Ltac last_arg H := lazymatch type of H with ?f ?x => x end.

Ltac done_with :=
  repeat (split; [assumption|]);
  (split; [|reflexivity]); eexists _, _; reflexivity.

(** X26: [_clean_date] returns the cleaned text as it is, or the
    rearrangement of a date that occurs in the cleaned text: [day month
    year] for [15 Jan 2024] and [Jan 15, 2024]; day and month swapped and
    padded to two digits for [1/15/2024]; [day/month/year], not padded,
    for [2024-01-15]. *)
Theorem date_output_shapes (date_str : pystr) :
  _clean_date date_str = _clean_text date_str
  \/ date_result (_clean_text date_str) (_clean_date date_str).
Proof.
  unfold _clean_date. destruct date_str as [|a0 s0]; [by left|].
  cbn [length Nat.eqb]. set (text := _clean_text (a0 :: s0)). clearbody text.
  destruct (search date_pattern_0 text) as [m|] eqn:S0.
  { right. left.
    apply search_sound in S0 as (before & u & after & -> & H).
    unfold date_pattern_0 in H.
    seq_in H H1 H. seq_in H H2 H. seq_in H H3 H. seq_in H H4 H.
    grp_in H1. grp_in H3. grp_in H.
    apply rep12_digits in H1 as [Hd ->]. apply plus_space in H2 as [Hs1 ->].
    apply rep3_word in H3 as [Hm ->]. apply plus_space in H4 as [Hs2 ->].
    apply rep4_digits in H as [Hy ->].
    cbn [app group Nat.eqb].
    let d := last_arg Hd in let mo := last_arg Hm in let y := last_arg Hy in
    let s1 := last_arg Hs1 in let s2 := last_arg Hs2 in
    exists d, mo, y, s1, s2.
    done_with. }
  destruct (search date_pattern_1 text) as [m|] eqn:S1.
  { right. right. left.
    apply search_sound in S1 as (before & u & after & -> & H).
    unfold date_pattern_1 in H.
    seq_in H H1 H. seq_in H H2 H. seq_in H H3 H. seq_in H H4 H. seq_in H H5 H.
    grp_in H1. grp_in H3. grp_in H.
    apply rep3_word in H1 as [Hm ->]. apply plus_space in H2 as [Hs1 ->].
    apply rep12_digits in H3 as [Hd ->]. apply plus_space in H5 as [Hs2 ->].
    apply rep4_digits in H as [Hy ->].
    lazymatch type of H4 with
    | matches _ ?c ?n =>
        assert (Hc : (c = [] \/ c = ("," : pystr)) /\ n = [])
    end.
    { unfold Opt in H4. apply matches_alt in H4 as [H4|H4].
      - apply matches_chr in H4 as [-> ->]. auto.
      - inversion H4; subst. auto. }
    destruct Hc as [Hc ->].
    cbn [app group Nat.eqb].
    let d := last_arg Hd in let mo := last_arg Hm in let y := last_arg Hy in
    let s1 := last_arg Hs1 in let s2 := last_arg Hs2 in
    lazymatch type of Hc with
    | (?c = _ \/ _) => exists mo, d, y, s1, c, s2
    end.
    done_with. }
  destruct (search date_pattern_2 text) as [m|] eqn:S2.
  { right. right. right. left.
    apply search_sound in S2 as (before & u & after & -> & H).
    unfold date_pattern_2 in H.
    seq_in H H1 H. seq_in H H2 H. seq_in H H3 H. seq_in H H4 H.
    grp_in H1. grp_in H3. grp_in H.
    apply rep12_digits in H1 as [Hm ->]. apply matches_chr in H2 as [-> ->].
    apply rep12_digits in H3 as [Hd ->]. apply matches_chr in H4 as [-> ->].
    apply rep4_digits in H as [Hy ->].
    cbn [app group Nat.eqb].
    let d := last_arg Hd in let mo := last_arg Hm in let y := last_arg Hy in
    exists mo, d, y.
    done_with. }
  destruct (search date_pattern_3 text) as [m|] eqn:S3; [|by left].
  right. right. right. right.
  apply search_sound in S3 as (before & u & after & -> & H).
  unfold date_pattern_3 in H.
  seq_in H H1 H. seq_in H H2 H. seq_in H H3 H. seq_in H H4 H.
  grp_in H1. grp_in H3. grp_in H.
  apply rep4_digits in H1 as [Hy ->]. apply matches_chr in H2 as [-> ->].
  apply rep12_digits in H3 as [Hm ->]. apply matches_chr in H4 as [-> ->].
  apply rep12_digits in H as [Hd ->].
  cbn [app group Nat.eqb].
  let d := last_arg Hd in let mo := last_arg Hm in let y := last_arg Hy in
  exists y, mo, d.
  done_with.
Qed.

End DateShapes.

(** ** From a page to the cleaned data *)

Module PageCleanThms.
Import PyStr Re Py Scrape Clean PageSpec RawSpec PageCleanSpec.
Import StrFacts AdmissionFacts RowFacts PipelineFacts.
Local Open Scope string_scope.
Local Open Scope list_scope.

Section WithUrljoin.
Variable urljoin : pystr -> pystr -> option pystr.

Lemma row_records_cleaned row next :
  length (omap clean_entry (row_records urljoin row next))
  = if cleanable_row urljoin row then 1 else 0.
Proof.
  unfold row_records, cleanable_row, extracted, is_primary, link_joined.
  destruct (Nat.leb_spec 4 (length (cells row))) as [Hc|Hc]; [|reflexivity].
  rewrite (extract_raw urljoin row (detail_of next) Hc). cbv zeta.
  destruct (first_result_link urljoin (hrefs row)); [|reflexivity].
  cbn [omap list_omap]. unfold clean_entry. rewrite clean_raw_try. cbv zeta.
  cbn [andb]. unfold nonblankb. by destruct (_ && _).
Qed.

Lemma records_of_rows_cleaned rows :
  length (omap clean_entry (records_of_rows urljoin rows))
  = length (List.filter (cleanable_row urljoin) rows).
Proof.
  induction rows as [|row rest IH]; [reflexivity|].
  cbn [records_of_rows List.filter].
  rewrite omap_app, length_app, row_records_cleaned, IH.
  by destruct (cleanable_row urljoin row).
Qed.

(** X27: from the page to the cleaned data: the rows of a page give
    records, one for each primary row on whose links [urljoin] does not
    raise, and [clean_data] keeps as many of them as there are such rows
    whose institution and program name are not blank after text cleaning;
    the header row and the detail rows never count. *)
Theorem page_rows_kept_by_cleaner
    (self : cleaner) (header : tr) (rows : list tr) :
  exists page_data,
    scrape_rows urljoin (Table (header :: rows)) = Some page_data
    /\ length (snd (clean_data self page_data))
       = length (List.filter (cleanable_row urljoin) rows)
    /\ length (snd (clean_data self page_data)) <= length page_data
    /\ length page_data = length (List.filter (extracted urljoin) rows).
Proof.
  exists (records_of_rows urljoin rows).
  split.
  { cbn [scrape_rows tl]. rewrite rows_loop_spec by lia.
    by rewrite drop_0. }
  rewrite clean_data_returns. split; [apply records_of_rows_cleaned|].
  split; [|apply records_of_rows_length].
  clear. induction (records_of_rows urljoin rows) as [|x l IH]; [done|].
  cbn [omap list_omap]. fold (omap clean_entry l).
  destruct (clean_entry x); simpl; lia.
Qed.

End WithUrljoin.

End PageCleanThms.

(** ** From a page to the report *)

Module ChainThms.
Import PyStr Re Py Scrape Clean PageSpec RawSpec PipelineSpec Report ChainSpec.
Import RecleanSpec AdmissionSpec.
Import StrFacts AdmissionFacts RowFacts PipelineFacts PipelineThms ReportThms.
Local Open Scope string_scope.
Local Open Scope list_scope.

Section WithUrljoin.
Variable urljoin : pystr -> pystr -> option pystr.

Lemma records_of_rows_from rows e :
  In e (records_of_rows urljoin rows) ->
  exists row next, _extract_entry_data urljoin row next = Some e.
Proof.
  induction rows as [|row rest IH]; [done|].
  cbn [records_of_rows]. intros [H|H]%in_app_iff; [|by apply IH].
  unfold row_records in H.
  destruct (4 <=? length (cells row))%nat; [|done].
  destruct (_extract_entry_data urljoin row (detail_of (head rest)))
    as [e'|] eqn:He; [|done].
  destruct H as [<-|[]]. eauto.
Qed.

Lemma scraped_degree_label row next e c :
  _extract_entry_data urljoin row next = Some e ->
  clean_entry e = Some c ->
  exists l, In l degree_labels /\ texts c !! "degree_type" = Some l.
Proof.
  intros He Hc. rewrite (extracted_is_raw urljoin _ _ _ He) in Hc.
  cbv zeta in Hc. rewrite (cleaned_raw _ _ _ _ _ _ _ _ _ _ _ _ _ _ _ _ Hc).
  destruct (program_degree (nth 1 (cells row) [])) as (p & Hp & H1 & H2).
  exists (snd p : pystr). split.
  - simpl in Hp.
    destruct Hp as [<-|[<-|[<-|[<-|[<-|[<-|[<-|[<-|[<-|[]]]]]]]]]];
      simpl; tauto.
  - match goal with |- texts ?c !! _ = _ =>
      change (texts c !! "degree_type")
        with (Some (_clean_degree_type
                      (snd (parse_program (nth 1 (cells row) [])))))
    end.
    by rewrite H1, H2.
Qed.

(** X28: from the page to the report: in the report of the cleaned
    records of a page, every key of the degree distribution is [PhD],
    [Masters], [Bachelors] or the empty string, so the distribution has at
    most four entries. *)
Theorem degree_distribution_of_a_page
    (self : cleaner) (header : tr) (rows : list tr) :
  exists page_data,
    scrape_rows urljoin (Table (header :: rows)) = Some page_data
    /\ let data := map texts (snd (clean_data self page_data)) in
       (forall k n, In (k, n) (count_by "degree_type" data) ->
          In k degree_labels)
       /\ length (count_by "degree_type" data) <= 4.
Proof.
  exists (records_of_rows urljoin rows).
  split.
  { cbn [scrape_rows tl]. rewrite rows_loop_spec by lia.
    by rewrite drop_0. }
  cbv zeta. rewrite clean_data_returns.
  set (data := map texts (omap clean_entry (records_of_rows urljoin rows))).
  assert (Hkeys : forall k n,
            In (k, n) (count_by "degree_type" data) -> In k degree_labels).
  { intros k n Hin.
    destruct (report_counts _ _ _ _ Hin) as (entry & He & Hk).
    apply in_map_iff in He as (c & <- & Hc).
    apply list_elem_of_In, list_elem_of_omap in Hc as (e & He & Hc).
    apply list_elem_of_In, records_of_rows_from in He as (row & next & He).
    destruct (scraped_degree_label _ _ _ _ He Hc) as (l & Hl & Hd).
    unfold field_or_unknown in Hk. rewrite Hd in Hk. simpl in Hk. by subst. }
  split; [exact Hkeys|].
  destruct (count_loop "degree_type" data []) as (Hnd & _);
    [constructor|constructor|].
  cbv zeta in Hnd. fold (count_by "degree_type" data) in Hnd.
  rewrite <- (length_map fst).
  change 4 with (length degree_labels).
  apply NoDup_incl_length.
  - by apply NoDup_ListNoDup.
  - intros k Hk. apply in_map_iff in Hk as ([k' n] & <- & Hin).
    by apply (Hkeys k' n).
Qed.

End WithUrljoin.

End ChainThms.
